(** * cros_config_host: the JSON configuration back end

    A shallow embedding of [libcros_config_host_json.py] (Python 2):
    [DeviceConfigJson], the property accessors built on it, and the
    firmware resolution pass run by [CrosConfigJson.__init__].

    Conventions of the embedding.
    - A parsed JSON value is a [json]; Python's [None] is [JNull].  JSON
      numbers are integers here.  A JSON object is kept as the list of its
      items, looked up by key (first match).
    - Text is ASCII, so that [str] of a [unicode] value is the value itself
      and [str] and [unicode] strings with equal characters are the same
      key; both are [JStr].  On text with any other character Python 2's
      [str] raises [UnicodeEncodeError], an error the embedding does not
      have: [ascii_only] and [str_safe] spell the convention out in the
      statements on what an accessor that applies [str] returns or
      raises.
    - Python exceptions are the [Raise] results of the [res] monad.
    - [str] of a value that is not a string (a dict, a list, a number ...)
      goes through [py_repr], the interpreter's rendering, which is a
      parameter of the development: every theorem holds for any rendering. *)

From Stdlib Require Import ZArith String Ascii List Bool Lia.
From stdpp Require Import base option list gmap strings.

Set Warnings "-register-all".
Local Open Scope string_scope.
Local Open Scope list_scope.

(** ** Python values and exceptions *)

Inductive json : Type :=
| JNull : json
| JBool : bool -> json
| JNum : Z -> json
| JStr : string -> json
| JList : list json -> json
| JDict : list (string * json) -> json.

Inductive pyerr : Type :=
| KeyError : pyerr
| TypeError : pyerr
| AttributeError : pyerr.

Inductive res (A : Type) : Type :=
| Ok : A -> res A
| Raise : pyerr -> res A.

Arguments Ok {A} _.
Arguments Raise {A} _.

Definition bind {A B : Type} (m : res A) (k : A -> res B) : res B :=
  match m with
  | Ok a => k a
  | Raise e => Raise e
  end.

Notation "'do' x <- m ;; k" := (bind m (fun x => k))
  (at level 10, x name, m at level 99, k at level 200, only parsing).
Notation "'do' ' p <- m ;; k" := (bind m (fun x => match x with p => k end))
  (at level 10, p pattern, m at level 99, k at level 200, only parsing).

(** ** Builtins *)

(** [bool(v)]. *)
Definition truthy (v : json) : bool :=
  match v with
  | JNull => false
  | JBool b => b
  | JNum z => negb (z =? 0)%Z
  | JStr s => negb (String.eqb s "")
  | JList l => match l with [] => false | _ => true end
  | JDict d => match d with [] => false | _ => true end
  end.

(** [a or b]. *)
Definition py_or (a b : json) : json := if truthy a then a else b.

Definition is_dict (v : json) : bool :=
  match v with JDict _ => true | _ => false end.

Definition isinstance_basestring (v : json) : bool :=
  match v with JStr _ => true | _ => false end.

(** The text [str] takes as it is: characters below 128 only. *)
Definition ascii_only (s : string) : bool :=
  forallb (λ c, Nat.ltb (nat_of_ascii c) 128) (list_ascii_of_string s).

(** The values [str] renders without an encoding error: all but a string
    with a character outside ASCII. *)
Definition str_safe (v : json) : bool :=
  match v with
  | JStr s => ascii_only s
  | _ => true
  end.

Fixpoint dict_get (k : string) (d : list (string * json)) : option json :=
  match d with
  | [] => None
  | (k', v) :: r => if String.eqb k k' then Some v else dict_get k r
  end.

Fixpoint str_prefixb (p s : string) : bool :=
  match p, s with
  | EmptyString, _ => true
  | String a p', String b s' => Ascii.eqb a b && str_prefixb p' s'
  | String _ _, EmptyString => false
  end.

(** [p in s] for two strings. *)
Fixpoint str_contains (p s : string) : bool :=
  str_prefixb p s ||
  match s with
  | EmptyString => false
  | String _ s' => str_contains p s'
  end.

Definition str_is (k : string) (v : json) : bool :=
  match v with JStr s => String.eqb k s | _ => false end.

(** [k in v] for a string [k]: key of a dict, substring of a string,
    element of a list; any other value is not iterable. *)
Definition py_in (k : string) (v : json) : res bool :=
  match v with
  | JDict d => Ok (match dict_get k d with Some _ => true | None => false end)
  | JStr s => Ok (str_contains k s)
  | JList l => Ok (existsb (str_is k) l)
  | _ => Raise TypeError
  end.

(** [v[k]] for a string [k]: only a dict can be indexed by a string. *)
Definition py_getitem (v : json) (k : string) : res json :=
  match v with
  | JDict d => match dict_get k d with Some x => Ok x | None => Raise KeyError end
  | _ => Raise TypeError
  end.

(** [d.get(k, default)]. *)
Definition dict_get_default (d : list (string * json)) (k : string) (default : json)
  : json :=
  match dict_get k d with
  | Some v => v
  | None => default
  end.

(** [for x in v]. *)
Definition py_iter (v : json) : res (list json) :=
  match v with
  | JList l => Ok l
  | JDict d => Ok (map (fun kv => JStr (fst kv)) d)
  | JStr s => Ok (map (fun c => JStr (String c EmptyString)) (list_ascii_of_string s))
  | _ => Raise TypeError
  end.

(** [s[1:]]. *)
Definition str_tail (s : string) : string :=
  match s with
  | EmptyString => EmptyString
  | String _ r => r
  end.

(** [s.split('/')]. *)
Fixpoint split_slash (s : string) : list string :=
  match s with
  | EmptyString => [EmptyString]
  | String c r =>
      if Ascii.eqb c "/" then EmptyString :: split_slash r
      else match split_slash r with
           | [] => [String c EmptyString]
           | h :: t => String c h :: t
           end
  end.

(** A rendering of values in the manner of the interpreter, for the
    examples. *)
Definition digit_of (n : nat) : ascii := ascii_of_nat (48 + n).

Fixpoint dec_pos (fuel : nat) (n : nat) (acc : string) : string :=
  match fuel with
  | O => acc
  | S f =>
      let acc' := String (digit_of (Nat.modulo n 10)) acc in
      if Nat.ltb n 10 then acc' else dec_pos f (Nat.div n 10) acc'
  end.

Definition dec_Z (z : Z) : string :=
  let n := Z.abs_nat z in
  let s := dec_pos (S n) n EmptyString in
  if (z <? 0)%Z then String "-" s else s.

Fixpoint repr_model (v : json) : string :=
  match v with
  | JNull => "None"
  | JBool true => "True"
  | JBool false => "False"
  | JNum z => dec_Z z
  | JStr s => ("u'" ++ s ++ "'")%string
  | JList l =>
      ("[" ++ (fix go (l : list json) : string :=
                 match l with
                 | [] => ""
                 | [x] => repr_model x
                 | x :: r => repr_model x ++ ", " ++ go r
                 end) l ++ "]")%string
  | JDict d =>
      ("{" ++ (fix go (d : list (string * json)) : string :=
                 match d with
                 | [] => ""
                 | [(k, x)] => "u'" ++ k ++ "': " ++ repr_model x
                 | (k, x) :: r => "u'" ++ k ++ "': " ++ repr_model x ++ ", " ++ go r
                 end) d ++ "}")%string
  end.

(** ** Sample documents *)

Definition device (name : string) (sku : Z) (firmware signing : list (string * json))
  : json :=
  JDict [("name", JStr name);
         ("identity", JDict [("sku-id", JNum sku)]);
         ("firmware", JDict firmware);
         ("firmware-signing", JDict signing)].

Definition document_of (configs : list json) : json :=
  JDict [("chromeos", JDict [("configs", JList configs)])].

(** A device and, after it, a whitelabel device of the same name with
    another firmware. *)
Definition whitelabel_items : list json :=
  [device "A" 1 [("main-image", JStr "a.bin")]
     [("key-id", JStr "K1"); ("signature-id", JStr "s1")];
   device "A" 2 [("name", JStr "other"); ("main-image", JStr "o.bin")]
     [("key-id", JStr "K2"); ("signature-id", JStr "s2");
      ("sig-id-in-customization-id", JBool true)]].

Definition whitelabel_document : json := document_of whitelabel_items.

(** Two devices with one firmware. *)
Definition shared_firmware_document : json :=
  document_of
    [device "a" 1 [("main-image", JStr "x.bin")] [("key-id", JStr "K")];
     device "b" 2 [("main-image", JStr "x.bin")] [("key-id", JStr "K")]].

(** Two devices with firmware and the same [/identity]. *)
Definition same_identity_document : json :=
  document_of
    [device "a" 1 [("main-image", JStr "a.bin")] [];
     device "b" 1 [("main-image", JStr "b.bin")] []].

(** A whitelabel device, then a device of another name, then a device of
    the whitelabel name with the [/identity] of the second. *)
Definition marked_by_loop_document : json :=
  document_of
    [device "A" 0 [("main-image", JStr "a.bin")]
       [("sig-id-in-customization-id", JBool true); ("signature-id", JStr "x")];
     device "B" 7 [("main-image", JStr "b.bin")] [];
     JDict [("name", JStr "A");
            ("identity", JDict [("sku-id", JNum 7)]);
            ("firmware-signing", JDict [("signature-id", JStr "y")])]].

(** A whitelabel device without firmware. *)
Definition whitelabel_without_firmware_document : json :=
  document_of
    [JDict [("name", JStr "A");
            ("identity", JDict [("sku-id", JNum 1)]);
            ("firmware-signing",
             JDict [("sig-id-in-customization-id", JBool true);
                    ("signature-id", JStr "s")])]].

(** A whitelabel device with firmware after a device of its [/identity]. *)
Definition whitelabel_same_identity_document : json :=
  document_of
    [device "B" 1 [("main-image", JStr "b.bin")] [];
     device "A" 1 [("main-image", JStr "a.bin")]
       [("sig-id-in-customization-id", JBool true); ("signature-id", JStr "s")]].

(** Two devices with one firmware, and a whitelabel device of the name of
    the first with another firmware. *)
Definition group_document : json :=
  document_of
    [device "A" 1 [("main-image", JStr "x.bin")] [("signature-id", JStr "s1")];
     device "B" 3 [("main-image", JStr "x.bin")] [];
     device "A" 2 [("name", JStr "other"); ("main-image", JStr "o.bin")]
       [("signature-id", JStr "s2"); ("sig-id-in-customization-id", JBool true)]].

(** The entries of [shared_firmware_document]. *)
Definition shared_firmware_items : list json :=
  [device "a" 1 [("main-image", JStr "x.bin")] [("key-id", JStr "K")];
   device "b" 2 [("main-image", JStr "x.bin")] [("key-id", JStr "K")]].

(** A device, then a whitelabel device of another name and another
    firmware, then a device of the whitelabel name with the firmware of
    the first. *)
Definition skipped_descriptor_items : list json :=
  [device "B" 1 [("main-image", JStr "x.bin")] [];
   device "A" 2 [("name", JStr "other"); ("main-image", JStr "o.bin")]
     [("signature-id", JStr "s2"); ("sig-id-in-customization-id", JBool true)];
   device "A" 3 [("main-image", JStr "x.bin")] [("signature-id", JStr "s1")]].

(** A device entry with nothing in it. *)
Definition nameless_document : json := document_of [JDict []].

(** A device entry with firmware and no name. *)
Definition nameless_firmware_document : json :=
  document_of [JDict [("firmware", JDict [("main-image", JStr "x.bin")])]].

(** A device with file lists and a wallpaper. *)
Definition files_device : json :=
  JDict [("name", JStr "a");
         ("touch",
          JDict [("files",
                  JList [JDict [("source", JStr "t.bin");
                                ("destination", JStr "/lib/t.bin");
                                ("symlink", JStr "/lib/t.lnk")]])]);
         ("arc",
          JDict [("files",
                  JList [JDict [("source", JStr "hw.xml");
                                ("destination", JStr "/etc/hw.xml")]])]);
         ("audio", JDict [("main", JDict [("card", JStr "x")])]);
         ("wallpaper", JStr "default")].


(** ** Records *)

(** Modelled from the spec: the [FirmwareInfo] named tuple, declared in
    [libcros_config_host_base], which is not part of the sources at hand.
    The fields are those the constructor call and [_replace] of
    [CrosConfigJson.__init__] give, in the order of that call. *)
Record FirmwareInfo : Type := mkFirmwareInfo {
  model : json;
  shared_model : json;
  key_id : json;
  have_image : bool;
  bios_build_target : json;
  ec_build_target : json;
  main_image_uri : json;
  main_rw_image_uri : json;
  ec_image_uri : json;
  pd_image_uri : json;
  extra : json;
  create_bios_rw_image : bool;
  tools : json;
  sig_id : json
}.

(** [info._replace(model=m, key_id=k, have_image=h, sig_id=s)]. *)
Definition replace_fields (info : FirmwareInfo) (m k : json) (h : bool) (s : json)
  : FirmwareInfo :=
  {| model := m;
     shared_model := shared_model info;
     key_id := k;
     have_image := h;
     bios_build_target := bios_build_target info;
     ec_build_target := ec_build_target info;
     main_image_uri := main_image_uri info;
     main_rw_image_uri := main_rw_image_uri info;
     ec_image_uri := ec_image_uri info;
     pd_image_uri := pd_image_uri info;
     extra := extra info;
     create_bios_rw_image := create_bios_rw_image info;
     tools := tools info;
     sig_id := s |}.

(** [copy.deepcopy] of an immutable value. *)
Definition deepcopy (info : FirmwareInfo) : FirmwareInfo := info.

(** A base record, for the examples. *)
Definition sample_info : FirmwareInfo :=
  mkFirmwareInfo (JStr "A") (JStr "A") (JStr "K0") true JNull JNull
    (JStr "a.bin") (JStr "") (JStr "ec.bin") (JStr "") (JList []) false
    (JList []) (JStr "sig-id-in-customization-id").

(** Modelled from the spec: the [BaseFile] and [TouchFile] named tuples,
    declared in [libcros_config_host_base], which is not part of the
    sources at hand: a source and a destination, and for a touch file a
    symlink, in the order of the constructor calls. *)
Record BaseFile : Type := mkBaseFile {
  source : json;
  dest : json
}.

Record TouchFile : Type := mkTouchFile {
  touch_source : json;
  touch_dest : json;
  touch_symlink : json
}.

(** *** [OrderedDict]

    The items in insertion order.  Keys are compared as Python compares
    hashable values: [True == 1] and [False == 0]; lists and dicts are not
    hashable. *)
Definition ordered_dict : Type := list (json * FirmwareInfo).

Definition hashable (k : json) : bool :=
  match k with
  | JList _ | JDict _ => false
  | _ => true
  end.

Definition key_norm (k : json) : json :=
  match k with
  | JBool b => JNum (if b then 1 else 0)%Z
  | _ => k
  end.

Definition key_eqb (a b : json) : bool :=
  match key_norm a, key_norm b with
  | JNull, JNull => true
  | JNum x, JNum y => (x =? y)%Z
  | JStr s, JStr t => String.eqb s t
  | _, _ => false
  end.

Definition od_mem (k : json) (m : ordered_dict) : bool :=
  existsb (fun kv => key_eqb k (fst kv)) m.

(** [m[k]], when present. *)
Fixpoint od_get (k : json) (m : ordered_dict) : option FirmwareInfo :=
  match m with
  | [] => None
  | (k', v) :: r => if key_eqb k k' then Some v else od_get k r
  end.

(** [m[k] = v]: the value of a key already there is replaced where it
    stands (under the key object already stored); a new key goes last. *)
Definition od_set (k : json) (v : FirmwareInfo) (m : ordered_dict) : res ordered_dict :=
  if hashable k then
    Ok (if od_mem k m
        then map (fun kv => if key_eqb k (fst kv) then (fst kv, v) else kv) m
        else m ++ [(k, v)])
  else Raise TypeError.

Record DeviceConfigJson : Type := mkDeviceConfigJson {
  _config : json;
  firmware_info : ordered_dict
}.

(** [DeviceConfigJson.__init__]. *)
Definition DeviceConfigJson_init (config : json) : DeviceConfigJson :=
  {| _config := config; firmware_info := [] |}.

Definition set_firmware_info (self : DeviceConfigJson) (fi : ordered_dict)
  : DeviceConfigJson :=
  {| _config := _config self; firmware_info := fi |}.

Record CrosConfigJson : Type := mkCrosConfigJson {
  _json : json;
  _configs : list DeviceConfigJson
}.

Definition GetDeviceConfigs (self : CrosConfigJson) : list DeviceConfigJson :=
  _configs self.

Definition GetFirmwareInfo (self : DeviceConfigJson) : ordered_dict :=
  firmware_info self.

(** The state of the resolution pass: the device objects and the two
    locals [fw_by_model] and [processed]. *)
Record resolver_state : Type := mkState {
  st_configs : list DeviceConfigJson;
  fw_by_model : gmap string json;
  processed : gset string
}.

(** Insertion of a keyed item in a list sorted by key, after its equals. *)
Fixpoint insert_by_key {A : Type} (x : string * A) (l : list (string * A))
  : list (string * A) :=
  match l with
  | [] => [x]
  | y :: r => if String.ltb (fst x) (fst y) then x :: y :: r
              else y :: insert_by_key x r
  end.

(** [sorted(l, key=...)] over items already paired with their keys. *)
Definition sort_by_key {A : Type} (l : list (string * A)) : list A :=
  map snd (fold_left (fun acc x => insert_by_key x acc) l []).

Fixpoint map_res {A B : Type} (f : A -> res B) (l : list A) : res (list B) :=
  match l with
  | [] => Ok []
  | x :: r => do y <- f x;; do ys <- map_res f r;; Ok (y :: ys)
  end.

(** ** The classes *)

Section Resolver.

(** The rendering [str] gives of a value that is not a string. *)
Variable py_repr : json -> string.

(** [str(v)]. *)
Definition py_str (v : json) : string :=
  match v with
  | JStr s => s
  | _ => py_repr v
  end.

(** *** [DeviceConfigJson] *)

Definition GetName (self : DeviceConfigJson) : res string :=
  do v <- py_getitem (_config self) "name";;
  Ok (py_str v).

(** The loop of [GetProperties] over the path tokens. *)
Fixpoint walk (result : json) (tokens : list string) : res json :=
  match tokens with
  | [] => Ok result
  | path_token :: rest =>
      do present <- py_in path_token result;;
      if present then
        do next <- py_getitem result path_token;;
        walk next rest
      else Ok (JDict [])
  end.

Definition GetProperties (self : DeviceConfigJson) (path : string) : res json :=
  if String.eqb path "/" then Ok (_config self)
  else walk (_config self) (split_slash (str_tail path)).

Definition GetProperty (self : DeviceConfigJson) (path name : string) : res string :=
  do props <- GetProperties self path;;
  if truthy props then
    do present <- py_in name props;;
    if present then
      do v <- py_getitem props name;;
      Ok (py_str v)
    else Ok ""
  else Ok "".

Definition GetValue (source : json) (name : string) : res json :=
  do present <- py_in name source;;
  if present then
    do val <- py_getitem source name;;
    if isinstance_basestring val then Ok (JStr (py_str val))
    else py_getitem source name
  else Ok JNull.

Definition GetFirmwareConfig (self : DeviceConfigJson) : res json :=
  do firmware <- GetProperties self "/firmware";;
  if negb (truthy firmware) then Ok (JDict [])
  else
    do no_firmware <- GetValue firmware "no-firmware";;
    if truthy no_firmware then Ok (JDict []) else Ok firmware.

(** [BaseFile(item['source'], item['destination'])]. *)
Definition base_file_of (item : json) : res BaseFile :=
  do s <- py_getitem item "source";;
  do d <- py_getitem item "destination";;
  Ok (mkBaseFile s d).

(** [TouchFile(item['source'], item['destination'], item['symlink'])]. *)
Definition touch_file_of (item : json) : res TouchFile :=
  do s <- py_getitem item "source";;
  do d <- py_getitem item "destination";;
  do l <- py_getitem item "symlink";;
  Ok (mkTouchFile s d l).

(** [region and 'files' in region]. *)
Definition has_files (region : json) : res bool :=
  if truthy region then py_in "files" region else Ok false.

Definition _GetFiles (self : DeviceConfigJson) (path : string) : res (list BaseFile) :=
  do file_region <- GetProperties self path;;
  do present <- has_files file_region;;
  if present then
    do files <- py_getitem file_region "files";;
    do items <- py_iter files;;
    map_res base_file_of items
  else Ok [].

Definition GetTouchFirmwareFiles (self : DeviceConfigJson) : res (list TouchFile) :=
  do touch <- GetProperties self "/touch";;
  do present <- has_files touch;;
  if present then
    do files <- py_getitem touch "files";;
    do items <- py_iter files;;
    map_res touch_file_of items
  else Ok [].

Definition GetArcFiles (self : DeviceConfigJson) : res (list BaseFile) :=
  _GetFiles self "/arc".

Definition GetAudioFiles (self : DeviceConfigJson) : res (list BaseFile) :=
  _GetFiles self "/audio/main".

Definition GetThermalFiles (self : DeviceConfigJson) : res (list BaseFile) :=
  _GetFiles self "/thermal".

(** The set returned has at most one element: it is kept as the list of
    its elements.  [set.add] wants a hashable value. *)
Definition GetWallpaperFiles (self : DeviceConfigJson) : res (list json) :=
  do wallpaper <- GetValue (_config self) "wallpaper";;
  if truthy wallpaper then
    if hashable wallpaper then Ok [wallpaper] else Raise TypeError
  else Ok [].

(** *** [CrosConfigJson.__init__]: the resolution pass *)

(** [fw_by_model[fw_str] = fw.get('name', config.GetName())], for a
    descriptor not yet registered. *)
Definition register_model (config : DeviceConfigJson) (fw : json) (fw_str : string)
    (by_model : gmap string json) : res (gmap string json) :=
  match by_model !! fw_str with
  | Some _ => Ok by_model
  | None =>
      match fw with
      | JDict d =>
          do name <- GetName config;;
          Ok (<[fw_str := dict_get_default d "name" (JStr name)]> by_model)
      | _ => Raise AttributeError
      end
  end.

Definition build_targets (config : DeviceConfigJson) : res (json * json) :=
  do build_config <- GetProperties config "/firmware/build-targets";;
  if truthy build_config then
    do bios_build_target <- GetValue build_config "coreboot";;
    do ec_build_target <- GetValue build_config "ec";;
    Ok (bios_build_target, ec_build_target)
  else Ok (JNull, JNull).

(** What the visit of a device computes before it stores anything: the
    base record, the device name, the whitelabel flag, and the two locals
    as they are after it. *)
Record base_result : Type := mkBase {
  b_info : FirmwareInfo;
  b_name : string;
  b_whitelabel : bool;
  b_by_model : gmap string json;
  b_processed : gset string
}.

Definition build_base (config : DeviceConfigJson) (fw : json) (identity : string)
    (by_model : gmap string json) (done : gset string) : res base_result :=
  let fw_str := py_str fw in
  do by_model' <- register_model config fw fw_str by_model;;
  do shared <- match by_model' !! fw_str with
               | Some m => Ok m
               | None => Raise KeyError
               end;;
  do '(bios, ec) <- build_targets config;;
  let create_rw := false in
  do main_image <- GetValue fw "main-image";;
  do main_rw_image <- GetValue fw "main-rw-image";;
  do ec_image <- GetValue fw "ec-image";;
  do pd_image <- GetValue fw "pd-image";;
  do extra_files <- GetValue fw "extra";;
  do tool_files <- GetValue fw "tools";;
  do fw_signer_config <- GetProperties config "/firmware-signing";;
  do key <- GetValue fw_signer_config "key-id";;
  do sig_in_customization_id <-
       GetValue fw_signer_config "sig-id-in-customization-id";;
  let image := true in
  do name <- GetName config;;
  do '(sig, done') <-
       (if truthy sig_in_customization_id
        then Ok (JStr "sig-id-in-customization-id", done)
        else do s <- GetValue fw_signer_config "signature-id";;
             Ok (s, {[identity]} ∪ done));;
  Ok {| b_info :=
          mkFirmwareInfo (JStr name) shared key image bios ec
            (py_or main_image (JStr "")) (py_or main_rw_image (JStr ""))
            (py_or ec_image (JStr "")) (py_or pd_image (JStr ""))
            (py_or extra_files (JList [])) create_rw
            (py_or tool_files (JList [])) sig;
        b_name := name;
        b_whitelabel := truthy sig_in_customization_id;
        b_by_model := by_model';
        b_processed := done' |}.

(** The body of the whitelabel loop for one device of the collection. *)
Definition wl_update (name : string) (info : FirmwareInfo)
    (wl_config : DeviceConfigJson) (done : gset string)
  : res (DeviceConfigJson * gset string) :=
  do wl_name <- GetName wl_config;;
  if String.eqb wl_name name then
    do props <- GetProperties wl_config "/identity";;
    let wl_identity := py_str props in
    let done' := {[wl_identity]} ∪ done in
    do fw_signer_config <- GetProperties wl_config "/firmware-signing";;
    do wl_key_id <- GetValue fw_signer_config "key-id";;
    do wl_sig_id <- GetValue fw_signer_config "signature-id";;
    let wl_fw_info := deepcopy info in
    do fi <- od_set wl_sig_id
               (replace_fields wl_fw_info wl_sig_id wl_key_id false wl_sig_id)
               (firmware_info wl_config);;
    Ok (set_firmware_info wl_config fi, done')
  else Ok (wl_config, done).

(** [for wl_config in self._configs: ...]. *)
Fixpoint wl_scan (name : string) (info : FirmwareInfo)
    (configs : list DeviceConfigJson) (done : gset string)
  : res (list DeviceConfigJson * gset string) :=
  match configs with
  | [] => Ok ([], done)
  | wl_config :: rest =>
      do '(wl_config', done1) <- wl_update name info wl_config done;;
      do '(rest', done2) <- wl_scan name info rest done1;;
      Ok (wl_config' :: rest', done2)
  end.

(** The body of the main loop for the device at position [i]. *)
Definition visit (i : nat) (st : resolver_state) : res resolver_state :=
  match st_configs st !! i with
  | None => Ok st
  | Some config =>
      do fw <- GetFirmwareConfig config;;
      do props <- GetProperties config "/identity";;
      let identity := py_str props in
      if truthy fw && negb (bool_decide (identity ∈ processed st)) then
        do b <- build_base config fw identity (fw_by_model st) (processed st);;
        do fi <- od_set (JStr (b_name b)) (b_info b) (firmware_info config);;
        let configs := <[i := set_firmware_info config fi]> (st_configs st) in
        if b_whitelabel b then
          do '(configs', done') <-
               wl_scan (b_name b) (b_info b) configs (b_processed b);;
          Ok (mkState configs' (b_by_model b) done')
        else Ok (mkState configs (b_by_model b) (b_processed b))
      else Ok st
  end.

(** [for config in self._configs: ...]. *)
Fixpoint main_loop (indices : list nat) (st : resolver_state) : res resolver_state :=
  match indices with
  | [] => Ok st
  | i :: rest => do st' <- visit i st;; main_loop rest st'
  end.

Definition resolve (configs : list DeviceConfigJson) : res resolver_state :=
  main_loop (seq 0 (length configs)) (mkState configs ∅ ∅).

(** [sorted(self._configs, key=lambda x: str(x.GetProperties('/identity')))]. *)
Definition sorted_by_identity (configs : list DeviceConfigJson)
  : res (list DeviceConfigJson) :=
  do keyed <- map_res (fun x => do props <- GetProperties x "/identity";;
                                Ok (py_str props, x)) configs;;
  Ok (sort_by_key keyed).

(** The constructor, from the document [json.loads] returned. *)
Definition CrosConfigJson_init (document : json) : res CrosConfigJson :=
  do chromeos <- py_getitem document "chromeos";;
  do entries <- py_getitem chromeos "configs";;
  do items <- py_iter entries;;
  let configs := map DeviceConfigJson_init items in
  do _unused <- sorted_by_identity configs;;
  do st <- resolve configs;;
  Ok {| _json := document; _configs := st_configs st |}.

(** ** Notions used by the statements *)

(** The tokens [GetProperties] walks for a path other than ["/"]. *)
Definition path_tokens (path : string) : list string :=
  split_slash (str_tail path).

(** The value reached from [v] by looking each token up, in turn, in the
    mapping at hand; nothing when a value on the way is not a mapping or
    has no such key. *)
Fixpoint descend (v : json) (tokens : list string) : option json :=
  match tokens with
  | [] => Some v
  | t :: rest =>
      match v with
      | JDict d =>
          match dict_get t d with
          | Some x => descend x rest
          | None => None
          end
      | _ => None
      end
  end.

(** [str(config.GetProperties('/identity'))]. *)
Definition identity_of (config : DeviceConfigJson) : res string :=
  do props <- GetProperties config "/identity";;
  Ok (py_str props).

(** [GetValue(GetProperties('/firmware-signing'), key)]. *)
Definition signer_value (config : DeviceConfigJson) (key : string) : res json :=
  do fw_signer_config <- GetProperties config "/firmware-signing";;
  GetValue fw_signer_config key.

(** A device whose [/identity] rendering no other device of the list has. *)
Definition unique_identity (configs : list DeviceConfigJson) (i : nat) : Prop :=
  ∀ (j : nat) (ci cj : DeviceConfigJson),
    configs !! i = Some ci → configs !! j = Some cj →
    identity_of cj = identity_of ci → j = i.

Definition res_string_eqb (a b : res string) : bool :=
  match a, b with
  | Ok x, Ok y => String.eqb x y
  | Raise KeyError, Raise KeyError => true
  | Raise TypeError, Raise TypeError => true
  | Raise AttributeError, Raise AttributeError => true
  | _, _ => false
  end.

Fixpoint others_differ (id : res string) (i j : nat) (l : list DeviceConfigJson)
  : bool :=
  match l with
  | [] => true
  | c :: r =>
      (Nat.eqb j i || negb (res_string_eqb (identity_of c) id))
      && others_differ id i (S j) r
  end.

(** [unique_identity], computed. *)
Definition unique_identityb (configs : list DeviceConfigJson) (i : nat) : bool :=
  match configs !! i with
  | Some ci => others_differ (identity_of ci) i 0 configs
  | None => true
  end.

(** *** The pass as relations

    One relation per loop body, with one rule per path through it. *)

(** The whitelabel loop body: a device of another name is left alone; a
    device of the name is marked processed and given its derived record. *)
Inductive wl_updated (name : string) (info : FirmwareInfo)
    (wl : DeviceConfigJson) (done : gset string)
  : DeviceConfigJson → gset string → Prop :=
| wl_other (n : string) :
    GetName wl = Ok n → n ≠ name →
    wl_updated name info wl done wl done
| wl_match (id : string) (k s : json) (fi : ordered_dict) :
    GetName wl = Ok name →
    identity_of wl = Ok id →
    signer_value wl "key-id" = Ok k →
    signer_value wl "signature-id" = Ok s →
    od_set s (replace_fields info s k false s) (firmware_info wl) = Ok fi →
    wl_updated name info wl done (set_firmware_info wl fi) ({[id]} ∪ done).

Inductive wl_scanned (name : string) (info : FirmwareInfo)
  : list DeviceConfigJson → gset string →
    list DeviceConfigJson → gset string → Prop :=
| scanned_nil (done : gset string) :
    wl_scanned name info [] done [] done
| scanned_cons wl rest done wl' done1 rest' done2 :
    wl_updated name info wl done wl' done1 →
    wl_scanned name info rest done1 rest' done2 →
    wl_scanned name info (wl :: rest) done (wl' :: rest') done2.

(** The main loop body at position [i]. *)
Inductive visited (i : nat) (st : resolver_state) : resolver_state → Prop :=
| visited_none :
    st_configs st !! i = None →
    visited i st st
| visited_skip (c : DeviceConfigJson) (fw : json) (id : string) :
    st_configs st !! i = Some c →
    GetFirmwareConfig c = Ok fw →
    identity_of c = Ok id →
    truthy fw = false ∨ id ∈ processed st →
    visited i st st
| visited_plain (c : DeviceConfigJson) (fw : json) (id : string)
    (b : base_result) (fi : ordered_dict) :
    st_configs st !! i = Some c →
    GetFirmwareConfig c = Ok fw →
    identity_of c = Ok id →
    truthy fw = true → id ∉ processed st →
    build_base c fw id (fw_by_model st) (processed st) = Ok b →
    od_set (JStr (b_name b)) (b_info b) (firmware_info c) = Ok fi →
    b_whitelabel b = false →
    visited i st
      (mkState (<[i := set_firmware_info c fi]> (st_configs st))
               (b_by_model b) (b_processed b))
| visited_whitelabel (c : DeviceConfigJson) (fw : json) (id : string)
    (b : base_result) (fi : ordered_dict)
    (configs' : list DeviceConfigJson) (done' : gset string) :
    st_configs st !! i = Some c →
    GetFirmwareConfig c = Ok fw →
    identity_of c = Ok id →
    truthy fw = true → id ∉ processed st →
    build_base c fw id (fw_by_model st) (processed st) = Ok b →
    od_set (JStr (b_name b)) (b_info b) (firmware_info c) = Ok fi →
    b_whitelabel b = true →
    wl_scanned (b_name b) (b_info b)
      (<[i := set_firmware_info c fi]> (st_configs st)) (b_processed b)
      configs' done' →
    visited i st (mkState configs' (b_by_model b) done').

(** The two stores of the pass into a device's map: the base record under
    the device name, a derived record under the device's signature id. *)
Definition allowed (c : DeviceConfigJson) (k : json) (v : FirmwareInfo) : Prop :=
  (∃ n, GetName c = Ok n ∧ k = JStr n ∧ model v = JStr n ∧ have_image v = true) ∨
  (signer_value c "signature-id" = Ok k ∧ model v = k ∧ sig_id v = k ∧
   have_image v = false).

(** A device after any number of such stores. *)
Inductive evolves : DeviceConfigJson → DeviceConfigJson → Prop :=
| evolves_refl (c : DeviceConfigJson) : evolves c c
| evolves_step (c c1 : DeviceConfigJson) (k : json) (v : FirmwareInfo)
    (fi : ordered_dict) :
    evolves c c1 → allowed c1 k v →
    od_set k v (firmware_info c1) = Ok fi →
    evolves c (set_firmware_info c1 fi).

(** Every item of a map is found under its own key. *)
Definition od_wf (m : ordered_dict) : Prop :=
  ∀ k v, (k, v) ∈ m → od_get k m = Some v.

(** *** Invariants of the pass *)

(** The devices of a name have all been gone over by a whitelabel loop run
    with the base record [info]: each is marked processed and holds, under
    its own signature id, the record derived from [info]. *)
Definition whitelabel_group (st : resolver_state) (name : string)
    (info : FirmwareInfo) : Prop :=
  ∀ j c, st_configs st !! j = Some c → GetName c = Ok name →
    ∃ id k s,
      identity_of c = Ok id ∧ id ∈ processed st ∧
      signer_value c "key-id" = Ok k ∧
      signer_value c "signature-id" = Ok s ∧
      od_get s (firmware_info c) = Some (replace_fields info s k false s).

(** The state of the pass over [configs] on arrival at position [i]: the
    positions before it are visited, in order, from empty maps, an empty
    registry and no processed identity. *)
Definition arrives (configs : list DeviceConfigJson) (i : nat)
    (st : resolver_state) : Prop :=
  main_loop (seq 0 i) (mkState configs ∅ ∅) = Ok st.

(** [base] is what the visit of position [b] builds in the pass over
    [configs]: the device there has firmware and an identity not yet
    processed, and [base] is made from the registry and the processed
    identities as they stand on arrival at [b]. *)
Definition built_at (configs : list DeviceConfigJson) (b : nat)
    (base : base_result) : Prop :=
  ∃ st cb fw id,
    arrives configs b st ∧ st_configs st !! b = Some cb ∧
    GetFirmwareConfig cb = Ok fw ∧ truthy fw = true ∧
    identity_of cb = Ok id ∧ (id ∉ processed st) ∧
    build_base cb fw id (fw_by_model st) (processed st) = Ok base.

(** [info] is the base record built, in the pass over [configs], at the
    visit of a whitelabel device of the name at a position before [i]. *)
Definition base_of (configs : list DeviceConfigJson) (i : nat) (name : string)
    (info : FirmwareInfo) : Prop :=
  ∃ (b : nat) base,
    b < i ∧ built_at configs b base ∧
    b_whitelabel base = true ∧ b_name base = name ∧ b_info base = info.

Definition group_done (configs : list DeviceConfigJson) (i : nat)
    (st : resolver_state) (name : string) : Prop :=
  ∃ info, base_of configs i name info ∧ whitelabel_group st name info.

(** The state of the pass over [configs] once the positions before [i]
    are visited. *)
Record pass_inv (configs : list DeviceConfigJson) (i : nat)
    (st : resolver_state) : Prop := mkPassInv {
  inv_arrives : arrives configs i st;
  (* an identity is marked for a device that has a name and a record *)
  inv_marked :
    ∀ s, s ∈ processed st →
      ∃ (k : nat) ck n,
        st_configs st !! k = Some ck ∧ identity_of ck = Ok s ∧
        GetName ck = Ok n ∧ firmware_info ck ≠ [] ∧
        (k < i ∨ group_done configs i st n);
  (* a visited device with firmware is marked *)
  inv_visited :
    ∀ (j : nat) c fw,
      j < i → st_configs st !! j = Some c →
      GetFirmwareConfig c = Ok fw → truthy fw = true →
      ∃ id, identity_of c = Ok id ∧ id ∈ processed st;
  (* a visited whitelabel device of an identity of its own has its group done *)
  inv_whitelabel :
    ∀ (j : nat) c fw flag,
      j < i → st_configs st !! j = Some c →
      GetFirmwareConfig c = Ok fw → truthy fw = true →
      signer_value c "sig-id-in-customization-id" = Ok flag →
      truthy flag = true →
      unique_identity (st_configs st) j →
      ∃ n, GetName c = Ok n ∧ group_done configs (S j) st n
}.

(** Every base record (a record with an image) of every device carries
    the name registered for the device's firmware descriptor. *)
Definition shared_inv (st : resolver_state) : Prop :=
  ∀ (j : nat) c k v,
    st_configs st !! j = Some c → (k, v) ∈ firmware_info c →
    have_image v = true →
    ∃ fw, GetFirmwareConfig c = Ok fw ∧
          fw_by_model st !! py_str fw = Some (shared_model v).

(** *** Running the pass over maps that are already filled *)

(** The map [f] with, under the keys [m] has, the values of [m]. *)
Definition overlay (m f : ordered_dict) : ordered_dict :=
  map (λ kv, (fst kv, default (snd kv) (od_get (fst kv) m))) f.

(** The device [c] as it stands in a second run that started from the
    device [f], when [c] is where the first run, started from an empty
    map, stands. *)
Definition replay_device (f c : DeviceConfigJson) : DeviceConfigJson :=
  set_firmware_info c (overlay (firmware_info c) (firmware_info f)).

Definition replay (final : list DeviceConfigJson) (st : resolver_state)
  : resolver_state :=
  mkState (zip_with replay_device final (st_configs st))
          (fw_by_model st) (processed st).

Definition keys_in (c f : DeviceConfigJson) : Prop :=
  ∀ k, od_mem k (firmware_info c) = true → od_mem k (firmware_info f) = true.

(** *** More invariants of the pass *)

(** A field read with [or default]: the default, or a truthy value. *)
Definition defaulted (x default : json) : Prop := x = default ∨ truthy x = true.

Definition record_ok (v : FirmwareInfo) : Prop :=
  create_bios_rw_image v = false ∧
  defaulted (main_image_uri v) (JStr "") ∧
  defaulted (main_rw_image_uri v) (JStr "") ∧
  defaulted (ec_image_uri v) (JStr "") ∧
  defaulted (pd_image_uri v) (JStr "") ∧
  defaulted (extra v) (JList []) ∧
  defaulted (tools v) (JList []).

(** The device holds a base record (a record with an image). *)
Definition holds_base (c : DeviceConfigJson) : Prop :=
  ∃ k v, (k, v) ∈ firmware_info c ∧ have_image v = true.

Record base_inv (st : resolver_state) : Prop := mkBaseInv {
  (* a holder of a base record has firmware and is marked *)
  base_marked :
    ∀ (j : nat) c, st_configs st !! j = Some c → holds_base c →
      ∃ fw id, GetFirmwareConfig c = Ok fw ∧ truthy fw = true ∧
               identity_of c = Ok id ∧ id ∈ processed st;
  (* no two holders have the same identity *)
  base_unique :
    ∀ (j1 j2 : nat) c1 c2,
      st_configs st !! j1 = Some c1 → st_configs st !! j2 = Some c2 →
      holds_base c1 → holds_base c2 →
      identity_of c1 = identity_of c2 → j1 = j2
}.

(** The device has a non-empty firmware configuration and the identity
    [id]. *)
Definition has_firmware (c : DeviceConfigJson) (id : string) : Prop :=
  ∃ fw, GetFirmwareConfig c = Ok fw ∧ truthy fw = true ∧ identity_of c = Ok id.

(** Among the entries before position [j] there is one with firmware and
    the identity [id]. *)
Definition earlier_same (entries : list json) (j : nat) (id : string) : Prop :=
  ∃ (j' : nat) item, j' < j ∧ entries !! j' = Some item ∧
                     has_firmware (DeviceConfigJson_init item) id.

(** No entry has a truthy [sig-id-in-customization-id]. *)
Definition unflagged (entries : list json) : Prop :=
  ∀ item flag,
    item ∈ entries →
    signer_value (DeviceConfigJson_init item) "sig-id-in-customization-id"
    = Ok flag →
    truthy flag = false.

(** The state of the pass over unflagged entries once the positions
    before [i] are visited. *)
Record plain_inv (entries : list json) (i : nat) (st : resolver_state)
  : Prop := mkPlainInv {
  plain_entries : map _config (st_configs st) = entries;
  plain_processed : ∀ s, s ∈ processed st ↔ earlier_same entries i s;
  plain_pending :
    ∀ (j : nat) c, (i ≤ j)%nat → st_configs st !! j = Some c →
                   firmware_info c = [];
  plain_visited :
    ∀ (j : nat) c, j < i → st_configs st !! j = Some c →
      ∃ fw id,
        GetFirmwareConfig c = Ok fw ∧ identity_of c = Ok id ∧
        (truthy fw = true → ¬ earlier_same entries j id →
         ∃ name v, GetName c = Ok name ∧
                   firmware_info c = [(JStr name, v)] ∧ have_image v = true) ∧
        (truthy fw = false ∨ earlier_same entries j id → firmware_info c = [])
}.

(** [v] is the base record the pass over [configs] builds at the visit
    of position [j]. *)
Definition base_record_of (configs : list DeviceConfigJson) (j : nat)
    (v : FirmwareInfo) : Prop :=
  ∃ base, built_at configs j base ∧ v = b_info base.

(** [v] is the record the whitelabel loop, run in the pass over [configs]
    at the visit of a whitelabel position, derives for the device [c]
    from the base record built at that visit. *)
Definition derived_record_of (configs : list DeviceConfigJson)
    (c : DeviceConfigJson) (v : FirmwareInfo) : Prop :=
  ∃ (b : nat) base k s,
    built_at configs b base ∧ b_whitelabel base = true ∧
    GetName c = Ok (b_name base) ∧
    signer_value c "key-id" = Ok k ∧
    signer_value c "signature-id" = Ok s ∧
    v = replace_fields (b_info base) s k false s.

(** Where a record the device at position [j] holds comes from. *)
Definition record_origin (configs : list DeviceConfigJson) (j : nat)
    (c : DeviceConfigJson) (v : FirmwareInfo) : Prop :=
  if have_image v then base_record_of configs j v
  else derived_record_of configs c v.

Definition origin_inv (configs : list DeviceConfigJson) (i : nat)
    (st : resolver_state) : Prop :=
  arrives configs i st ∧
  ∀ (j : nat) c k v,
    st_configs st !! j = Some c → (k, v) ∈ firmware_info c →
    record_origin configs j c v.

(** Every registered shared-model name is the [name] of the firmware
    mapping, or else the device name, of an entry whose descriptor
    renders to the key it is registered under. *)
Definition registered_inv (entries : list json) (st : resolver_state) : Prop :=
  map _config (st_configs st) = entries ∧
  ∀ d m, fw_by_model st !! d = Some m →
    ∃ item dd name,
      item ∈ entries ∧
      GetFirmwareConfig (DeviceConfigJson_init item) = Ok (JDict dd) ∧
      py_str (JDict dd) = d ∧
      GetName (DeviceConfigJson_init item) = Ok name ∧
      m = dict_get_default dd "name" (JStr name).

(** ** The error monad *)

Lemma bind_Ok {A B : Type} (m : res A) (k : A → res B) (b : B) :
  bind m k = Ok b → ∃ a, m = Ok a ∧ k a = Ok b.
Proof. destruct m as [a|e]; simpl; [eauto | discriminate]. Qed.

Lemma bind_Raise {A B : Type} (m : res A) (k : A → res B) (e : pyerr) :
  bind m k = Raise e → m = Raise e ∨ ∃ a, m = Ok a ∧ k a = Raise e.
Proof. destruct m as [a|e']; simpl; [eauto | intros [= ->]; auto]. Qed.

Ltac inv_res H :=
  repeat match type of H with
    | bind ?m ?k = Ok _ =>
        let x := fresh "x" in
        let Hx := fresh "E" in
        apply bind_Ok in H; destruct H as (x & Hx & H)
    | (match ?p with pair _ _ => _ end) = Ok _ => destruct p
    | Ok _ = Ok _ => injection H as H
    | Raise _ = Ok _ => discriminate H
    end.

Lemma res_string_eqb_refl (a : res string) : res_string_eqb a a = true.
Proof. destruct a as [x|[]]; simpl; auto using String.eqb_refl. Qed.

Lemma others_differ_sound (id : res string) (i : nat) (l : list DeviceConfigJson) :
  ∀ j0 : nat, others_differ id i j0 l = true →
    ∀ (k : nat) c, l !! k = Some c → identity_of c = id → j0 + k = i.
Proof.
  induction l as [|c0 l IH]; intros j0 H k c Hc Hid; [done|].
  simpl in H. apply andb_true_iff in H as [H0 H].
  destruct k as [|k]; simpl in Hc.
  - injection Hc as ->. rewrite Hid, res_string_eqb_refl, orb_false_r in H0.
    apply Nat.eqb_eq in H0. lia.
  - rewrite <- (IH (S j0) H k c Hc Hid). lia.
Qed.

Lemma unique_identityb_sound configs i :
  unique_identityb configs i = true → unique_identity configs i.
Proof.
  unfold unique_identityb. intros H j ci cj Hci Hcj Heq. rewrite Hci in H.
  by apply (others_differ_sound _ _ _ 0 H j cj Hcj).
Qed.

(** ** [GetProperties] *)

Lemma py_in_dict (k : string) (d : list (string * json)) :
  py_in k (JDict d) = Ok (bool_decide (is_Some (dict_get k d))).
Proof. simpl. destruct (dict_get k d); reflexivity. Qed.


Lemma walk_raise (tokens : list string) :
  ∀ (v : json) (e : pyerr),
    walk v tokens = Raise e →
    e = TypeError ∧
    ∃ pre t post w, tokens = pre ++ t :: post ∧
                    descend v pre = Some w ∧ is_dict w = false.
Proof.
  induction tokens as [|t rest IH]; intros v e H; simpl in H; [discriminate|].
  destruct v as [|b|z|s|l|d]; simpl in H.
  1-3: injection H as <-; split; [reflexivity|];
       by eexists [], t, rest, _.
  - destruct (str_contains t s); simpl in H; [|discriminate].
    injection H as <-. split; [reflexivity|]. by eexists [], t, rest, _.
  - destruct (existsb (str_is t) l); simpl in H; [|discriminate].
    injection H as <-. split; [reflexivity|]. by eexists [], t, rest, _.
  - destruct (dict_get t d) as [x|] eqn:Ht; simpl in H; [|discriminate].
    destruct (IH _ _ H) as (-> & pre & t' & post & w & -> & Hw & Hnd).
    split; [reflexivity|].
    exists (t :: pre), t', post, w. simpl. rewrite Ht. auto.
Qed.

(** *** C4 *)



(** ** What the pass leaves untouched *)

Lemma od_set_Ok (k : json) (v : FirmwareInfo) (m m' : ordered_dict) :
  od_set k v m = Ok m' →
  hashable k = true ∧
  m' = (if od_mem k m
        then map (λ kv, if key_eqb k (fst kv) then (fst kv, v) else kv) m
        else m ++ [(k, v)]).
Proof. unfold od_set. destruct (hashable k); [|discriminate]. by intros [= <-]. Qed.

Lemma wl_update_config name info wl done wl' done' :
  wl_update name info wl done = Ok (wl', done') → _config wl' = _config wl.
Proof.
  unfold wl_update. intros H. inv_res H.
  destruct (String.eqb x name); inv_res H; by simplify_eq.
Qed.

Lemma wl_scan_configs name info configs :
  ∀ done configs' done',
    wl_scan name info configs done = Ok (configs', done') →
    map _config configs' = map _config configs.
Proof.
  induction configs as [|c r IH]; intros done configs' done' H; simpl in H.
  - by simplify_eq.
  - inv_res H. simplify_eq. simpl. f_equal; eauto using wl_update_config.
Qed.

Lemma map_config_insert (configs : list DeviceConfigJson) i c fi :
  configs !! i = Some c →
  map _config (<[i := set_firmware_info c fi]> configs) = map _config configs.
Proof.
  intros Hc. rewrite list_fmap_insert. simpl.
  apply list_insert_id. by rewrite list_lookup_fmap, Hc.
Qed.

Lemma visit_configs i st st' :
  visit i st = Ok st' →
  map _config (st_configs st') = map _config (st_configs st).
Proof.
  unfold visit. intros H.
  destruct (st_configs st !! i) as [c|] eqn:Hc; [|by simplify_eq].
  inv_res H.
  destruct (truthy x && negb (bool_decide (py_str x0 ∈ processed st)));
    [|by simplify_eq].
  inv_res H. destruct (b_whitelabel x1); inv_res H; simplify_eq; simpl.
  - erewrite wl_scan_configs by eauto. by apply map_config_insert.
  - by apply map_config_insert.
Qed.

Lemma main_loop_configs indices :
  ∀ st st', main_loop indices st = Ok st' →
            map _config (st_configs st') = map _config (st_configs st).
Proof.
  induction indices as [|i r IH]; intros st st' H; simpl in H.
  - by simplify_eq.
  - inv_res H. erewrite IH by eauto. eauto using visit_configs.
Qed.

Lemma resolve_configs configs st :
  resolve configs = Ok st → map _config (st_configs st) = map _config configs.
Proof. intros H. by apply main_loop_configs in H. Qed.

Lemma map_config_init (items : list json) :
  map _config (map DeviceConfigJson_init items) = items.
Proof. induction items; simpl; congruence. Qed.

(** ** [OrderedDict] *)

Lemma key_eqb_sym (a b : json) : key_eqb a b = key_eqb b a.
Proof.
  unfold key_eqb. destruct (key_norm a), (key_norm b); try reflexivity.
  - apply Z.eqb_sym.
  - apply String.eqb_sym.
Qed.

Lemma key_eqb_trans (a b c : json) :
  key_eqb a b = true → key_eqb b c = true → key_eqb a c = true.
Proof.
  unfold key_eqb.
  destruct (key_norm a), (key_norm b), (key_norm c); try discriminate; auto.
  - intros ->%Z.eqb_eq. auto.
  - intros ->%String.eqb_eq. auto.
Qed.

Lemma key_eqb_refl (k : json) : hashable k = true → key_eqb k k = true.
Proof.
  destruct k as [|[]| | | |]; try discriminate; intros _; unfold key_eqb; simpl;
    auto using Z.eqb_refl, String.eqb_refl.
Qed.

Lemma key_eqb_cong (k a b : json) :
  key_eqb a b = true → key_eqb k a = key_eqb k b.
Proof.
  intros Hab. destruct (key_eqb k a) eqn:Ha, (key_eqb k b) eqn:Hb; try reflexivity.
  - rewrite (key_eqb_trans k a b) in Hb; auto.
  - rewrite key_eqb_sym in Hab. rewrite (key_eqb_trans k b a) in Ha; auto.
Qed.

(** A string key is equal to itself only. *)
Lemma key_eqb_str (s : string) (k : json) :
  key_eqb (JStr s) k = true → k = JStr s.
Proof.
  unfold key_eqb. destruct k as [|[]| | | |]; simpl; try discriminate.
  by intros ->%String.eqb_eq.
Qed.

Lemma od_get_replace (k : json) (v : FirmwareInfo) (m : ordered_dict) (k' : json) :
  od_get k' (map (λ kv, if key_eqb k (fst kv) then (fst kv, v) else kv) m)
  = if key_eqb k k' then (if od_mem k m then Some v else None) else od_get k' m.
Proof.
  induction m as [|[k0 v0] m IH]; simpl.
  - by destruct (key_eqb k k').
  - destruct (key_eqb k' k0) eqn:E0.
    + rewrite (key_eqb_cong k k' k0 E0).
      destruct (key_eqb k k0) eqn:E; simpl; by rewrite E0.
    + destruct (key_eqb k k0) eqn:E; simpl; rewrite E0, IH; [|done].
      destruct (key_eqb k k') eqn:E'; [|done].
      rewrite key_eqb_sym in E'.
      by rewrite (key_eqb_trans k' k k0) in E0.
Qed.

Lemma od_get_app_new (k : json) (v : FirmwareInfo) (m : ordered_dict) (k' : json) :
  od_mem k m = false →
  od_get k' (m ++ [(k, v)]) = if key_eqb k k' then Some v else od_get k' m.
Proof.
  induction m as [|[k0 v0] m IH]; simpl.
  - intros _. by rewrite (key_eqb_sym k' k).
  - intros [E Hm]%orb_false_elim. rewrite IH by done.
    destruct (key_eqb k' k0) eqn:E0; [|done].
    destruct (key_eqb k k') eqn:E'; [|done].
    by rewrite (key_eqb_trans k k' k0) in E.
Qed.

Lemma od_mem_get (k : json) (m : ordered_dict) :
  od_mem k m = bool_decide (is_Some (od_get k m)).
Proof.
  induction m as [|[k0 v0] m IH]; simpl; [done|].
  destruct (key_eqb k k0); simpl; done.
Qed.

(** Reading [m[k']] after [m[k] = v]. *)
Lemma od_get_set (k : json) (v : FirmwareInfo) (m m' : ordered_dict) (k' : json) :
  od_set k v m = Ok m' →
  od_get k' m' = if key_eqb k k' then Some v else od_get k' m.
Proof.
  intros [_ ->]%od_set_Ok. destruct (od_mem k m) eqn:Hm.
  - rewrite od_get_replace, Hm. done.
  - by apply od_get_app_new.
Qed.

Lemma od_get_set_same (k : json) (v : FirmwareInfo) (m m' : ordered_dict) :
  od_set k v m = Ok m' → od_get k m' = Some v.
Proof.
  intros H. rewrite (od_get_set _ _ _ _ _ H).
  apply od_set_Ok in H as [Hk _]. by rewrite key_eqb_refl.
Qed.

Lemma od_set_nonempty (k : json) (v : FirmwareInfo) (m m' : ordered_dict) :
  od_set k v m = Ok m' → m' ≠ [].
Proof.
  intros H Hnil. pose proof (od_get_set_same _ _ _ _ H) as Hg.
  by rewrite Hnil in Hg.
Qed.

(** The items after [m[k] = v]: those of [m] under other keys, and [v]
    under [k] or under the equal key that was there. *)
Lemma od_set_elem (k : json) (v : FirmwareInfo) (m m' : ordered_dict)
    (k' : json) (v' : FirmwareInfo) :
  od_set k v m = Ok m' → (k', v') ∈ m' →
  ((k', v') ∈ m ∧ key_eqb k k' = false) ∨
  (v' = v ∧ key_eqb k k' = true ∧ (k' = k ∨ ∃ v0, (k', v0) ∈ m)).
Proof.
  intros [Hk ->]%od_set_Ok. destruct (od_mem k m) eqn:Hm.
  - intros ([k0 v0] & Heq & Hin)%list_elem_of_fmap. simpl in Heq.
    destruct (key_eqb k k0) eqn:E; simplify_eq; eauto 10.
  - intros [Hin | Heq%list_elem_of_singleton]%elem_of_app; simplify_eq.
    + left. split; [done|].
      destruct (key_eqb k k') eqn:E; [|done].
      assert (od_mem k m = true) as Hc; [|congruence].
      apply existsb_exists. exists (k', v').
      split; [by apply list_elem_of_In|done].
    + right. split; [done|]. split; [by apply key_eqb_refl | by left].
Qed.

Lemma od_set_mem_mono (k : json) (v : FirmwareInfo) (m m' : ordered_dict) (k' : json) :
  od_set k v m = Ok m' → od_mem k' m = true → od_mem k' m' = true.
Proof.
  intros H. rewrite !od_mem_get, (od_get_set _ _ _ _ _ H).
  intros Hm%bool_decide_eq_true. apply bool_decide_eq_true.
  destruct (key_eqb k k'); eauto.
Qed.

Lemma od_set_mem_same (k : json) (v : FirmwareInfo) (m m' : ordered_dict) :
  od_set k v m = Ok m' → od_mem k m' = true.
Proof.
  intros H. rewrite od_mem_get, (od_get_set_same _ _ _ _ H).
  apply bool_decide_eq_true. eauto.
Qed.

(** ** The loop bodies and their relations *)

Lemma identity_of_Ok c id :
  identity_of c = Ok id ↔ ∃ props, GetProperties c "/identity" = Ok props ∧
                                   id = py_str props.
Proof.
  unfold identity_of. split.
  - intros H. inv_res H. eauto.
  - intros (props & -> & ->). reflexivity.
Qed.

Lemma signer_value_Ok c key v :
  signer_value c key = Ok v ↔
  ∃ cfg, GetProperties c "/firmware-signing" = Ok cfg ∧ GetValue cfg key = Ok v.
Proof.
  unfold signer_value. split.
  - intros H. inv_res H. eauto.
  - intros (cfg & -> & H). exact H.
Qed.

Lemma wl_update_iff name info wl done wl' done' :
  wl_update name info wl done = Ok (wl', done') ↔
  wl_updated name info wl done wl' done'.
Proof.
  split.
  - unfold wl_update. intros H.
    apply bind_Ok in H as (n & Hn & H).
    destruct (String.eqb_spec n name) as [->|Hne].
    + apply bind_Ok in H as (props & Hp & H).
      apply bind_Ok in H as (cfg & Hcfg & H).
      apply bind_Ok in H as (k & Hk & H).
      apply bind_Ok in H as (s & Hs & H).
      apply bind_Ok in H as (fi & Hfi & H).
      injection H as <- <-.
      eapply wl_match; eauto.
      * apply identity_of_Ok; eauto.
      * apply signer_value_Ok; eauto.
      * apply signer_value_Ok; eauto.
    + injection H as <- <-. by eapply wl_other.
  - intros H. unfold wl_update. destruct H as [n Hn Hne | id k s fi Hn Hid Hk Hs Hfi].
    + rewrite Hn. simpl. by destruct (String.eqb_spec n name).
    + rewrite Hn. simpl. rewrite String.eqb_refl.
      apply identity_of_Ok in Hid as (props & -> & ->).
      apply signer_value_Ok in Hk as (cfg & Hcfg & Hk).
      apply signer_value_Ok in Hs as (cfg' & Hcfg' & Hs).
      rewrite Hcfg in Hcfg'. injection Hcfg' as <-.
      simpl. rewrite Hcfg. simpl. rewrite Hk. simpl. rewrite Hs. simpl.
      unfold deepcopy. rewrite Hfi. reflexivity.
Qed.

Lemma wl_scan_iff name info configs :
  ∀ done configs' done',
    wl_scan name info configs done = Ok (configs', done') ↔
    wl_scanned name info configs done configs' done'.
Proof.
  induction configs as [|wl rest IH]; intros done configs' done'; simpl.
  - split.
    + intros [= <- <-]. constructor.
    + intros H. by inversion H.
  - split.
    + intros H. apply bind_Ok in H as ([wl1 d1] & H1 & H).
      apply bind_Ok in H as ([rest1 d2] & H2 & H).
      injection H as <- <-.
      econstructor; [by apply wl_update_iff | by apply IH].
    + intros H. inversion H as [|? ? ? wl1 d1 rest1 d2 H1 H2]; subst.
      apply wl_update_iff in H1. apply IH in H2.
      rewrite H1. simpl. rewrite H2. reflexivity.
Qed.

Lemma visit_iff i st st' : visit i st = Ok st' ↔ visited i st st'.
Proof.
  split.
  - unfold visit. intros H.
    destruct (st_configs st !! i) as [c|] eqn:Hc.
    2:{ injection H as <-. by constructor. }
    apply bind_Ok in H as (fw & Hfw & H).
    apply bind_Ok in H as (props & Hp & H).
    assert (identity_of c = Ok (py_str props)) as Hid
      by (apply identity_of_Ok; eauto).
    destruct (truthy fw) eqn:Hfw'; cbn [andb negb] in H.
    2:{ injection H as <-. eapply visited_skip; eauto. }
    destruct (bool_decide (py_str props ∈ processed st)) eqn:Hin; cbn [andb negb] in H.
    { injection H as <-. apply bool_decide_eq_true in Hin.
      eapply visited_skip; eauto. }
    apply bool_decide_eq_false in Hin.
    apply bind_Ok in H as (b & Hb & H).
    apply bind_Ok in H as (fi & Hfi & H).
    destruct (b_whitelabel b) eqn:Hwl.
    + apply bind_Ok in H as ([configs' done'] & Hscan & H).
      injection H as <-. apply wl_scan_iff in Hscan.
      eapply visited_whitelabel; eauto.
    + injection H as <-. eapply visited_plain; eauto.
  - intros H. unfold visit.
    destruct H as [Hc | c fw id Hc Hfw Hid Hskip
                  | c fw id b fi Hc Hfw Hid Hfw' Hin Hb Hfi Hwl
                  | c fw id b fi configs' done' Hc Hfw Hid Hfw' Hin Hb Hfi Hwl Hscan];
      rewrite Hc; [done|..]; rewrite Hfw; cbn [bind];
      apply identity_of_Ok in Hid as (props & -> & ->); cbn [bind].
    + destruct Hskip as [->|Hin]; [done|].
      rewrite (bool_decide_eq_true_2 _ Hin). by rewrite andb_false_r.
    + rewrite Hfw', (bool_decide_eq_false_2 _ Hin). cbn [andb negb].
      rewrite Hb. cbn [bind]. rewrite Hfi. cbn [bind]. by rewrite Hwl.
    + rewrite Hfw', (bool_decide_eq_false_2 _ Hin). cbn [andb negb].
      rewrite Hb. cbn [bind]. rewrite Hfi. cbn [bind]. rewrite Hwl.
      apply wl_scan_iff in Hscan. by rewrite Hscan.
Qed.

(** ** The accessors read [_config] only *)

Lemma GetName_ext c c' : _config c = _config c' → GetName c = GetName c'.
Proof. destruct c, c'; simpl; intros ->; reflexivity. Qed.

Lemma GetProperties_ext c c' path :
  _config c = _config c' → GetProperties c path = GetProperties c' path.
Proof. destruct c, c'; simpl; intros ->; reflexivity. Qed.

Lemma GetFirmwareConfig_ext c c' :
  _config c = _config c' → GetFirmwareConfig c = GetFirmwareConfig c'.
Proof. destruct c, c'; simpl; intros ->; reflexivity. Qed.

Lemma identity_of_ext c c' :
  _config c = _config c' → identity_of c = identity_of c'.
Proof. destruct c, c'; simpl; intros ->; reflexivity. Qed.

Lemma signer_value_ext c c' key :
  _config c = _config c' → signer_value c key = signer_value c' key.
Proof. destruct c, c'; simpl; intros ->; reflexivity. Qed.

Lemma build_base_ext c c' fw id by_model done :
  _config c = _config c' →
  build_base c fw id by_model done = build_base c' fw id by_model done.
Proof. destruct c, c'; simpl; intros ->; reflexivity. Qed.

(** ** Stores into a device's map *)

Lemma evolves_config c c' : evolves c c' → _config c' = _config c.
Proof. induction 1; simpl; congruence. Qed.

Lemma evolves_trans c1 c2 c3 : evolves c1 c2 → evolves c2 c3 → evolves c1 c3.
Proof. intros H12 H23. induction H23; [done|]. econstructor; eauto. Qed.

Lemma evolves_nonempty c c' :
  evolves c c' → firmware_info c ≠ [] → firmware_info c' ≠ [].
Proof. induction 1; [done|]. intros _. simpl. eauto using od_set_nonempty. Qed.

Lemma evolves_mem c c' k :
  evolves c c' → od_mem k (firmware_info c) = true →
  od_mem k (firmware_info c') = true.
Proof. induction 1; [done|]. intros Hm. simpl. eauto using od_set_mem_mono. Qed.

Lemma od_set_wf k v m m' : od_set k v m = Ok m' → od_wf m → od_wf m'.
Proof.
  intros H Hwf k' v' Hin. rewrite (od_get_set _ _ _ _ _ H).
  destruct (od_set_elem _ _ _ _ _ _ H Hin) as [[Hin' ->] | (-> & -> & _)]; auto.
Qed.

Lemma evolves_wf c c' :
  evolves c c' → od_wf (firmware_info c) → od_wf (firmware_info c').
Proof. induction 1; [done|]. intros Hwf. simpl. eauto using od_set_wf. Qed.

Lemma wl_updated_evolves name info wl done wl' done' :
  wl_updated name info wl done wl' done' → evolves wl wl'.
Proof.
  destruct 1 as [|id k s fi Hn Hid Hk Hs Hfi]; [constructor|].
  eapply evolves_step; [constructor| |exact Hfi]. right. auto.
Qed.

Lemma wl_scanned_evolves name info configs done configs' done' :
  wl_scanned name info configs done configs' done' →
  Forall2 evolves configs configs'.
Proof. induction 1; constructor; eauto using wl_updated_evolves. Qed.

Lemma Forall2_evolves_refl configs : Forall2 evolves configs configs.
Proof. induction configs; constructor; auto using evolves_refl. Qed.

Lemma Forall2_evolves_trans l1 l2 l3 :
  Forall2 evolves l1 l2 → Forall2 evolves l2 l3 → Forall2 evolves l1 l3.
Proof.
  intros H12. revert l3. induction H12; intros l3 H23; inversion H23; subst;
    constructor; eauto using evolves_trans.
Qed.

Lemma Forall2_evolves_insert configs i c c' :
  configs !! i = Some c → evolves c c' →
  Forall2 evolves configs (<[i := c']> configs).
Proof.
  revert i. induction configs as [|x l IH]; intros [|i] Hc He; simpl in *;
    try discriminate.
  - injection Hc as ->. constructor; auto using Forall2_evolves_refl.
  - constructor; auto using evolves_refl.
Qed.

(** What [build_base] returns. *)
Lemma register_model_Ok c fw by_model by_model' :
  register_model c fw (py_str fw) by_model = Ok by_model' →
  (∀ d m, by_model !! d = Some m → by_model' !! d = Some m) ∧
  is_Some (by_model' !! py_str fw) ∧
  (by_model !! py_str fw = None →
   ∃ d name, fw = JDict d ∧ GetName c = Ok name ∧
             by_model' = <[py_str fw := dict_get_default d "name" (JStr name)]> by_model).
Proof.
  unfold register_model. destruct (by_model !! py_str fw) as [m|] eqn:Hm.
  - intros [= <-]. split; [done|]. split; [eauto|done].
  - destruct fw as [| | | | |d]; try discriminate. intros H.
    apply bind_Ok in H as (name & Hname & H). injection H as <-.
    split; [|split].
    + intros d' m Hd. rewrite lookup_insert_ne; [done|].
      intros <-. simpl in *. congruence.
    + rewrite lookup_insert_eq. eauto.
    + intros _. eauto.
Qed.

Lemma build_base_Ok c fw id by_model done b :
  build_base c fw id by_model done = Ok b →
  GetName c = Ok (b_name b) ∧
  register_model c fw (py_str fw) by_model = Ok (b_by_model b) ∧
  b_by_model b !! py_str fw = Some (shared_model (b_info b)) ∧
  model (b_info b) = JStr (b_name b) ∧
  have_image (b_info b) = true ∧
  signer_value c "key-id" = Ok (key_id (b_info b)) ∧
  (∃ flag, signer_value c "sig-id-in-customization-id" = Ok flag ∧
           b_whitelabel b = truthy flag) ∧
  (if b_whitelabel b
   then sig_id (b_info b) = JStr "sig-id-in-customization-id" ∧
        b_processed b = done
   else signer_value c "signature-id" = Ok (sig_id (b_info b)) ∧
        b_processed b = {[id]} ∪ done) ∧
  (∃ image, GetValue fw "main-image" = Ok image ∧
            main_image_uri (b_info b) = py_or image (JStr "")) ∧
  (∃ image, GetValue fw "ec-image" = Ok image ∧
            ec_image_uri (b_info b) = py_or image (JStr "")).
Proof.
  unfold build_base. intros H.
  apply bind_Ok in H as (by_model' & Hreg & H).
  apply bind_Ok in H as (shared & Hshared & H).
  apply bind_Ok in H as ([bios ec] & Htargets & H).
  apply bind_Ok in H as (main_image & Hmain & H).
  apply bind_Ok in H as (main_rw_image & Hmainrw & H).
  apply bind_Ok in H as (ec_image & Hec & H).
  apply bind_Ok in H as (pd_image & Hpd & H).
  apply bind_Ok in H as (extra_files & Hextra & H).
  apply bind_Ok in H as (tool_files & Htools & H).
  apply bind_Ok in H as (cfg & Hcfg & H).
  apply bind_Ok in H as (key & Hkey & H).
  apply bind_Ok in H as (flag & Hflag & H).
  apply bind_Ok in H as (name & Hname & H).
  apply bind_Ok in H as ([sig done'] & Hsig & H).
  injection H as <-. simpl.
  destruct (by_model' !! py_str fw) as [m|] eqn:Hm; [|discriminate].
  injection Hshared as <-.
  repeat split; eauto.
  - apply signer_value_Ok; eauto.
  - exists flag. split; [|done]. apply signer_value_Ok; eauto.
  - destruct (truthy flag).
    + injection Hsig as <- <-. done.
    + apply bind_Ok in Hsig as (s & Hs & Hsig). injection Hsig as <- <-.
      split; [|done]. apply signer_value_Ok; eauto.
Qed.

Lemma visited_evolves i st st' :
  visited i st st' → Forall2 evolves (st_configs st) (st_configs st').
Proof.
  destruct 1 as [Hc | c fw id Hc Hfw Hid Hskip
                | c fw id b fi Hc Hfw Hid Hfw' Hin Hb Hfi Hwl
                | c fw id b fi configs' done' Hc Hfw Hid Hfw' Hin Hb Hfi Hwl Hscan];
    simpl; auto using Forall2_evolves_refl.
  all: apply build_base_Ok in Hb as (Hname & _ & _ & Hmodel & Himage & _).
  all: assert (evolves c (set_firmware_info c fi)) as Hev
    by (eapply evolves_step; [constructor| |exact Hfi]; left; eauto).
  - eapply Forall2_evolves_insert; eauto.
  - eapply Forall2_evolves_trans; [eapply Forall2_evolves_insert; eauto|].
    eauto using wl_scanned_evolves.
Qed.

Lemma main_loop_evolves indices :
  ∀ st st', main_loop indices st = Ok st' →
            Forall2 evolves (st_configs st) (st_configs st').
Proof.
  induction indices as [|i r IH]; intros st st' H; simpl in H.
  - injection H as <-. apply Forall2_evolves_refl.
  - apply bind_Ok in H as (st1 & H1 & H). apply visit_iff in H1.
    eauto using Forall2_evolves_trans, visited_evolves.
Qed.

(** ** The pass, position by position *)

Lemma main_loop_app l1 l2 st :
  main_loop (l1 ++ l2) st = bind (main_loop l1 st) (main_loop l2).
Proof.
  revert st. induction l1 as [|i r IH]; intros st; simpl; [done|].
  destruct (visit i st); simpl; [apply IH | done].
Qed.

Lemma arrives_S configs (i : nat) st st' :
  arrives configs i st → visit i st = Ok st' → arrives configs (S i) st'.
Proof.
  unfold arrives. intros H Hv.
  rewrite seq_S, main_loop_app, H. simpl. by rewrite Hv.
Qed.

(** A pass that arrives at [n] went through every position before it. *)
Lemma arrives_before configs (j n : nat) st :
  arrives configs n st → j < n →
  ∃ st_j st_j',
    arrives configs j st_j ∧ visit j st_j = Ok st_j' ∧
    main_loop (seq (S j) (n - S j)) st_j' = Ok st.
Proof.
  unfold arrives. intros H Hj.
  assert (seq 0 n = seq 0 j ++ j :: seq (S j) (n - S j)) as Hseq.
  { replace n with (j + S (n - S j)) at 1 by lia.
    rewrite List.seq_app. reflexivity. }
  rewrite Hseq, main_loop_app in H. apply bind_Ok in H as (st_j & Hj0 & H).
  simpl in H. apply bind_Ok in H as (st_j' & Hv & H). eauto.
Qed.

Lemma arrives_evolves configs i st :
  arrives configs i st → Forall2 evolves configs (st_configs st).
Proof. intros H. by apply main_loop_evolves in H. Qed.

(** The devices two stages of a pass find at one position have the same
    configuration. *)
Lemma arrives_same_config configs i i' st st' (j : nat) c c' :
  arrives configs i st → arrives configs i' st' →
  st_configs st !! j = Some c → st_configs st' !! j = Some c' →
  _config c = _config c'.
Proof.
  intros Ha Ha' Hc Hc'. apply arrives_evolves in Ha, Ha'.
  destruct (Forall2_lookup_r _ _ _ _ _ Ha Hc) as (c0 & Hc0 & He).
  destruct (Forall2_lookup_l _ _ _ _ _ Ha' Hc0) as (c1 & Hc1 & He').
  rewrite Hc' in Hc1. injection Hc1 as <-.
  apply evolves_config in He, He'. congruence.
Qed.

(** A position a stage of a pass has a device at has one at every stage. *)
Lemma arrives_lookup configs i i' st st' (j : nat) c :
  arrives configs i st → arrives configs i' st' →
  st_configs st !! j = Some c → ∃ c', st_configs st' !! j = Some c'.
Proof.
  intros Ha Ha' Hc. apply arrives_evolves in Ha, Ha'.
  destruct (Forall2_lookup_r _ _ _ _ _ Ha Hc) as (c0 & Hc0 & _).
  destruct (Forall2_lookup_l _ _ _ _ _ Ha' Hc0) as (c1 & Hc1 & _). eauto.
Qed.

(** One visit builds one base record. *)
Lemma built_at_unique configs b base base' :
  built_at configs b base → built_at configs b base' → base = base'.
Proof.
  intros (st & cb & fw & id & Ha & Hc & Hfw & _ & Hid & _ & Hb)
         (st' & cb' & fw' & id' & Ha' & Hc' & Hfw' & _ & Hid' & _ & Hb').
  assert (st' = st) as -> by (unfold arrives in *; congruence).
  rewrite Hc in Hc'. injection Hc' as <-. congruence.
Qed.

(** ** Keys and records of a device's map *)

Lemma allowed_ext c c' k v : _config c = _config c' → allowed c k v → allowed c' k v.
Proof.
  intros Hc. unfold allowed.
  by rewrite (GetName_ext _ _ Hc), (signer_value_ext _ _ _ Hc).
Qed.

(** Two keys the pass may store under in one device are equal as keys
    only when they are the same value. *)
Lemma allowed_key_eq c k v k' v' :
  allowed c k v → allowed c k' v' → key_eqb k k' = true → k' = k.
Proof.
  intros [(n & Hn & -> & _) | (Hs & _)] [(n' & Hn' & -> & _) | (Hs' & _)] Heq.
  - congruence.
  - by apply key_eqb_str in Heq.
  - rewrite key_eqb_sym in Heq. by apply key_eqb_str in Heq.
  - congruence.
Qed.

Lemma evolves_allowed c c' :
  evolves c c' →
  (∀ k v, (k, v) ∈ firmware_info c → allowed c k v) →
  ∀ k v, (k, v) ∈ firmware_info c' → allowed c' k v.
Proof.
  induction 1 as [|c c1 k v fi Hev IH Hal Hset]; [done|].
  intros Hc k' v' Hin. simpl in Hin.
  apply (allowed_ext c1); [done|].
  destruct (od_set_elem _ _ _ _ _ _ Hset Hin)
    as [[Hin' _] | (-> & Heq & [-> | [v0 Hin']])]; eauto.
  by rewrite (allowed_key_eq c1 k v k' v0) by eauto.
Qed.

Lemma CrosConfigJson_init_Ok document cc :
  CrosConfigJson_init document = Ok cc →
  ∃ chromeos entries items st,
    py_getitem document "chromeos" = Ok chromeos ∧
    py_getitem chromeos "configs" = Ok entries ∧
    py_iter entries = Ok items ∧
    resolve (map DeviceConfigJson_init items) = Ok st ∧
    GetDeviceConfigs cc = st_configs st.
Proof.
  unfold CrosConfigJson_init. intros H.
  apply bind_Ok in H as (chromeos & H1 & H).
  apply bind_Ok in H as (entries & H2 & H).
  apply bind_Ok in H as (items & H3 & H).
  apply bind_Ok in H as (sorted & _ & H).
  apply bind_Ok in H as (st & H4 & H).
  injection H as <-. by exists chromeos, entries, items, st.
Qed.

(** Every device of a constructed set has evolved from a fresh wrapper. *)
Lemma resolved_device items st c :
  resolve (map DeviceConfigJson_init items) = Ok st →
  c ∈ st_configs st →
  ∃ item, item ∈ items ∧ evolves (DeviceConfigJson_init item) c.
Proof.
  intros H%main_loop_evolves Hc. simpl in H.
  apply list_elem_of_lookup in Hc as [i Hi].
  destruct (Forall2_lookup_r _ _ _ _ _ H Hi) as (c0 & Hc0 & Hev).
  apply list_lookup_fmap_Some in Hc0 as (item & -> & Hitem).
  exists item. split; [|done]. by eapply list_elem_of_lookup_2.
Qed.

(** *** C9 *)

(** C9: after construction every item of every device's [firmware_info]
    is stored under the value of its own [model] field: a base record
    (the one with an image) under the device name, a whitelabel record
    under the device's own signature id, which is also its [sig_id]. *)
Theorem C9_key_is_model (document : json) (cc : CrosConfigJson)
    (c : DeviceConfigJson) (k : json) (v : FirmwareInfo) :
  CrosConfigJson_init document = Ok cc →
  c ∈ GetDeviceConfigs cc →
  (k, v) ∈ GetFirmwareInfo c →
  k = model v ∧
  ((have_image v = true ∧ ∃ n, GetName c = Ok n ∧ k = JStr n) ∨
   (have_image v = false ∧ signer_value c "signature-id" = Ok k ∧ sig_id v = k)).
Proof.
  intros (chromeos & entries & items & st & _ & _ & _ & Hres & ->)%CrosConfigJson_init_Ok
    Hc Hin.
  destruct (resolved_device _ _ _ Hres Hc) as (item & _ & Hev).
  assert (allowed c k v) as Hal.
  { eapply evolves_allowed; eauto. simpl. intros ? ? []%elem_of_nil. }
  destruct Hal as [(n & Hn & -> & Hm & Hi) | (Hs & Hm & Hsig & Hi)].
  - split; [done|]. left. split; [done|]. by exists n.
  - split; [done|]. right. done.
Qed.

(** ** The whitelabel loop body on a device without [signature-id] *)




(** *** C10 *)


(** ** The whitelabel loop *)

Lemma wl_updated_subseteq name info c done c' done' :
  wl_updated name info c done c' done' → done ⊆ done'.
Proof. destruct 1; set_solver. Qed.

Lemma wl_scanned_subseteq name info cs done cs' done' :
  wl_scanned name info cs done cs' done' → done ⊆ done'.
Proof.
  induction 1 as [|? ? ? ? ? ? ? Hup _ IH]; [done|].
  apply wl_updated_subseteq in Hup. set_solver.
Qed.

Lemma wl_updated_match name info c done c' done' :
  wl_updated name info c done c' done' → GetName c = Ok name →
  ∃ id k s fi,
    identity_of c = Ok id ∧ signer_value c "key-id" = Ok k ∧
    signer_value c "signature-id" = Ok s ∧
    od_set s (replace_fields info s k false s) (firmware_info c) = Ok fi ∧
    c' = set_firmware_info c fi ∧ done' = {[id]} ∪ done.
Proof.
  destruct 1 as [n Hn Hne | id k s fi Hn Hid Hk Hs Hfi]; intros Hname.
  - congruence.
  - by exists id, k, s, fi.
Qed.

Lemma wl_updated_other name info c done c' done' n :
  wl_updated name info c done c' done' → GetName c = Ok n → n ≠ name →
  c' = c ∧ done' = done.
Proof.
  destruct 1 as [n' Hn Hne | id k s fi Hn Hid Hk Hs Hfi]; intros Hname Hneq.
  - done.
  - congruence.
Qed.

Lemma wl_scanned_lookup name info cs done cs' done' :
  wl_scanned name info cs done cs' done' →
  ∀ (j : nat) c', cs' !! j = Some c' →
    ∃ c dj dj', cs !! j = Some c ∧ wl_updated name info c dj c' dj' ∧
                dj' ⊆ done'.
Proof.
  induction 1 as [|wl rest done wl' done1 rest' done2 Hup Hscan IH];
    intros [|j] c' Hc'; simpl in Hc'; try discriminate.
  - injection Hc' as <-. exists wl, done, done1.
    split; [done|]. split; [done|]. eauto using wl_scanned_subseteq.
  - destruct (IH j c' Hc') as (c & dj & dj' & Hc & Hupj & Hsub).
    by exists c, dj, dj'.
Qed.

Lemma wl_scanned_marks name info cs done cs' done' :
  wl_scanned name info cs done cs' done' →
  ∀ s, s ∈ done' →
    s ∈ done ∨ ∃ (j : nat) c, cs !! j = Some c ∧ GetName c = Ok name ∧
                              identity_of c = Ok s.
Proof.
  induction 1 as [|wl rest done wl' done1 rest' done2 Hup Hscan IH];
    intros s Hs; [by left|].
  destruct (IH s Hs) as [Hs1 | (j & c & Hc & Hn & Hid)].
  - destruct Hup as [n Hn Hne | id k s' fi Hn Hid Hk Hs' Hfi]; [by left|].
    apply elem_of_union in Hs1 as [->%elem_of_singleton | Hs1]; [|by left].
    right. by exists 0, wl.
  - right. by exists (S j), c.
Qed.

Lemma wl_scanned_group name info cs done cs' done' by_model :
  wl_scanned name info cs done cs' done' →
  whitelabel_group (mkState cs' by_model done') name info.
Proof.
  intros Hscan j c' Hc' Hn. simpl in *.
  destruct (wl_scanned_lookup _ _ _ _ _ _ Hscan j c' Hc')
    as (c & dj & dj' & Hc & Hup & Hsub).
  assert (GetName c = Ok name) as Hn0.
  { rewrite <- Hn. apply GetName_ext. symmetry.
    eauto using evolves_config, wl_updated_evolves. }
  destruct (wl_updated_match _ _ _ _ _ _ Hup Hn0)
    as (id & k & s & fi & Hid & Hk & Hs & Hfi & -> & ->).
  exists id, k, s. repeat split; try done.
  - set_solver.
  - simpl. eauto using od_get_set_same.
Qed.

(** ** Transport along the pass *)

Lemma unique_identity_evolves l l' j :
  Forall2 evolves l l' → unique_identity l' j → unique_identity l j.
Proof.
  intros Hev Hu k ci ck Hci Hck Heq.
  destruct (Forall2_lookup_l _ _ _ _ _ Hev Hci) as (ci' & Hci' & Hei).
  destruct (Forall2_lookup_l _ _ _ _ _ Hev Hck) as (ck' & Hck' & Hek).
  apply (Hu k ci' ck' Hci' Hck').
  rewrite (identity_of_ext ci' ci), (identity_of_ext ck' ck);
    eauto using evolves_config.
Qed.

Lemma base_of_mono configs (i i' : nat) name info :
  base_of configs i name info → (i ≤ i')%nat → base_of configs i' name info.
Proof.
  intros (b & base & Hb & Hbase) Hle. exists b, base. split; [lia|done].
Qed.

Lemma visited_processed_mono i st st' :
  visited i st st' → processed st ⊆ processed st'.
Proof.
  destruct 1 as [Hc | c fw id Hc Hfw Hid Hskip
                | c fw id b fi Hc Hfw Hid Hfw' Hin Hb Hfi Hwl
                | c fw id b fi configs' done' Hc Hfw Hid Hfw' Hin Hb Hfi Hwl Hscan];
    simpl; try done.
  all: apply build_base_Ok in Hb as (_ & _ & _ & _ & _ & _ & _ & Hproc & _).
  all: rewrite Hwl in Hproc; destruct Hproc as [_ Hproc].
  - intros s Hs. rewrite Hproc. apply elem_of_union. by right.
  - apply wl_scanned_subseteq in Hscan. by rewrite <- Hproc.
Qed.

(** A group that is done stays done: none of its devices is visited on
    the main path again, and the whitelabel loops of other names leave
    its devices alone. *)
Lemma whitelabel_group_stable i st st' name info :
  visited i st st' → whitelabel_group st name info →
  whitelabel_group st' name info.
Proof.
  intros Hv Hg. pose proof (visited_processed_mono _ _ _ Hv) as Hmono.
  assert (∀ c id, st_configs st !! i = Some c → identity_of c = Ok id →
                  id ∉ processed st → GetName c ≠ Ok name) as Hfresh.
  { intros c id Hc Hid Hin Hn.
    destruct (Hg i c Hc Hn) as (id' & _ & _ & Hid' & Hin' & _).
    congruence. }
  assert (∀ (j : nat) c, st_configs st !! j = Some c → GetName c = Ok name →
            ∃ id k s,
              identity_of c = Ok id ∧ id ∈ processed st' ∧
              signer_value c "key-id" = Ok k ∧
              signer_value c "signature-id" = Ok s ∧
              od_get s (firmware_info c) = Some (replace_fields info s k false s))
    as Hg'.
  { intros j c Hc Hn. destruct (Hg j c Hc Hn) as (id & k & s & ? & ? & ? & ? & ?).
    exists id, k, s. repeat split; try done. set_solver. }
  clear Hg Hmono.
  destruct Hv as [Hc | c fw id Hc Hfw Hid Hskip
                | c fw id b fi Hc Hfw Hid Hfw' Hin Hb Hfi Hwl
                | c fw id b fi configs' done' Hc Hfw Hid Hfw' Hin Hb Hfi Hwl Hscan];
    simpl in *; try done.
  - intros j c' Hc' Hn. simpl in Hc'.
    destruct (decide (j = i)) as [->|Hne].
    + rewrite list_lookup_insert_eq in Hc' by eauto using lookup_lt_Some.
      injection Hc' as <-. by destruct (Hfresh c id).
    + rewrite list_lookup_insert_ne in Hc' by done. eauto.
  - apply build_base_Ok in Hb as (Hbn & _).
    assert (b_name b ≠ name) as Hnb.
    { intros <-. by destruct (Hfresh c id). }
    intros j c' Hc' Hn. simpl in Hc'.
    destruct (wl_scanned_lookup _ _ _ _ _ _ Hscan j c' Hc')
      as (c0 & dj & dj' & Hc0 & Hup & _).
    assert (GetName c0 = Ok name) as Hn0.
    { rewrite <- Hn. apply GetName_ext. symmetry.
      eauto using evolves_config, wl_updated_evolves. }
    destruct (wl_updated_other _ _ _ _ _ _ _ Hup Hn0) as [-> _]; [done|].
    destruct (decide (j = i)) as [->|Hne].
    + rewrite list_lookup_insert_eq in Hc0 by eauto using lookup_lt_Some.
      injection Hc0 as <-. by destruct (Hfresh c id).
    + rewrite list_lookup_insert_ne in Hc0 by done. eauto.
Qed.

Lemma group_done_stable configs (i i0 i' : nat) st st' name :
  visited i st st' → (i0 ≤ i')%nat →
  group_done configs i0 st name → group_done configs i' st' name.
Proof.
  intros Hv Hle (info & Hbase & Hg). exists info.
  split; eauto using base_of_mono, whitelabel_group_stable.
Qed.

(** ** The invariant of the main loop *)

(** The whitelabel loop run at position [i] makes the group of its name
    done. *)
Lemma whitelabel_visit_group_done configs (i : nat) st c fw id b fi
    configs' done' :
  arrives configs i st →
  st_configs st !! i = Some c →
  GetFirmwareConfig c = Ok fw → truthy fw = true →
  identity_of c = Ok id → id ∉ processed st →
  build_base c fw id (fw_by_model st) (processed st) = Ok b →
  b_whitelabel b = true →
  wl_scanned (b_name b) (b_info b)
    (<[i := set_firmware_info c fi]> (st_configs st)) (b_processed b)
    configs' done' →
  group_done configs (S i) (mkState configs' (b_by_model b) done') (b_name b).
Proof.
  intros Ha Hc Hfw Ht Hid Hin Hb Hwl Hscan. exists (b_info b).
  split; [|eauto using wl_scanned_group].
  exists i, b. split; [lia|]. split; [|done].
  by exists st, c, fw, id.
Qed.

Lemma pass_inv_visited configs (i : nat) st st' :
  visited i st st' → pass_inv configs i st → pass_inv configs (S i) st'.
Proof.
  intros Hv [Harr Hmarked Hvisited Hwhite].
  pose proof (visited_evolves _ _ _ Hv) as Hev.
  pose proof (visited_processed_mono _ _ _ Hv) as Hmono.
  assert (arrives configs (S i) st') as Harr'
    by (eapply arrives_S; [done|by apply visit_iff]).
  assert (∀ n, group_done configs i st n → group_done configs (S i) st' n)
    as Hstable.
  { intros n. apply (group_done_stable configs i); [done|lia]. }
  (* marks made before the visit *)
  assert (∀ s, s ∈ processed st →
            ∃ (k : nat) ck n,
              st_configs st' !! k = Some ck ∧ identity_of ck = Ok s ∧
              GetName ck = Ok n ∧ firmware_info ck ≠ [] ∧
              (k < S i ∨ group_done configs (S i) st' n)) as Hold.
  { intros s Hs.
    destruct (Hmarked s Hs) as (k & ck & n & Hck & Hid & Hn & Hne & Hor).
    destruct (Forall2_lookup_l _ _ _ _ _ Hev Hck) as (ck' & Hck' & He).
    pose proof (evolves_config _ _ He) as Hcfg.
    exists k, ck', n.
    rewrite (identity_of_ext ck' ck), (GetName_ext ck' ck) by done.
    repeat split; eauto using evolves_nonempty.
    destruct Hor as [Hlt | Hg]; [left; lia | right; auto]. }
  (* devices visited before *)
  assert (∀ (j : nat) c fw,
            j < i → st_configs st' !! j = Some c →
            GetFirmwareConfig c = Ok fw → truthy fw = true →
            ∃ id, identity_of c = Ok id ∧ id ∈ processed st') as Hbefore.
  { intros j c' fw' Hj Hc' Hfw' Ht'.
    destruct (Forall2_lookup_r _ _ _ _ _ Hev Hc') as (c0 & Hc0 & He).
    pose proof (evolves_config _ _ He) as Hcfg.
    rewrite (GetFirmwareConfig_ext c' c0) in Hfw' by done.
    destruct (Hvisited j c0 fw' Hj Hc0 Hfw' Ht') as (id0 & Hid0 & Hin0).
    exists id0. rewrite (identity_of_ext c' c0) by done. split; [done|set_solver]. }
  assert (∀ (j : nat) c fw flag,
            j < i → st_configs st' !! j = Some c →
            GetFirmwareConfig c = Ok fw → truthy fw = true →
            signer_value c "sig-id-in-customization-id" = Ok flag →
            truthy flag = true →
            unique_identity (st_configs st') j →
            ∃ n, GetName c = Ok n ∧ group_done configs (S j) st' n) as Hwbefore.
  { intros j c' fw' flag Hj Hc' Hfw' Ht' Hflag Htf Hu.
    destruct (Forall2_lookup_r _ _ _ _ _ Hev Hc') as (c0 & Hc0 & He).
    pose proof (evolves_config _ _ He) as Hcfg.
    rewrite (GetFirmwareConfig_ext c' c0) in Hfw' by done.
    rewrite (signer_value_ext c' c0) in Hflag by done.
    destruct (Hwhite j c0 fw' flag Hj Hc0 Hfw' Ht' Hflag Htf) as (n & Hn & Hg).
    { eauto using unique_identity_evolves. }
    exists n. rewrite (GetName_ext c' c0) by done.
    split; [done|]. by apply (group_done_stable configs i (S j) (S j) st). }
  assert (∀ j, j < S i → j < i ∨ j = i) as Hcase by lia.
  destruct Hv as [Hc | c fw id Hc Hfw Hid Hskip
                | c fw id b fi Hc Hfw Hid Hfw' Hin Hb Hfi Hwl
                | c fw id b fi configs' done' Hc Hfw Hid Hfw' Hin Hb Hfi Hwl Hscan].
  - (* no device at this position *)
    split; [done|done| |].
    + intros j c fw [Hj | ->]%Hcase Hcj; [eauto|congruence].
    + intros j c fw flag [Hj | ->]%Hcase Hcj; [eauto|congruence].
  - (* skipped *)
    split; [done|done| |].
    + intros j c' fw' [Hj | ->]%Hcase Hcj Hfwj Htj; [eauto|].
      rewrite Hc in Hcj. injection Hcj as <-.
      rewrite Hfw in Hfwj. injection Hfwj as <-.
      destruct Hskip as [Hf | Hin]; [congruence|eauto].
    + intros j c' fw' flag [Hj | ->]%Hcase Hcj Hfwj Htj Hflag Htf Hu; [eauto|].
      rewrite Hc in Hcj. injection Hcj as <-.
      rewrite Hfw in Hfwj. injection Hfwj as <-.
      destruct Hskip as [Hf | Hin]; [congruence|].
      destruct (Hmarked id Hin) as (k & ck & n & Hck & Hidk & Hn & _ & Hor).
      assert (k = i) as -> by (eapply (Hu k c ck); eauto; congruence).
      rewrite Hc in Hck. injection Hck as <-.
      exists n. split; [done|]. destruct Hor as [Hlt | Hg]; [lia|auto].
  - (* a base record, no whitelabel loop *)
    pose proof (build_base_Ok _ _ _ _ _ _ Hb)
      as (Hname & _ & _ & _ & _ & _ & (flag0 & Hflag0 & Hwl0) & Hproc & _).
    rewrite Hwl in Hproc. destruct Hproc as [_ Hproc].
    assert (<[i := set_firmware_info c fi]> (st_configs st) !! i
            = Some (set_firmware_info c fi)) as Hci
      by (apply list_lookup_insert_eq; eauto using lookup_lt_Some).
    split; [done|simpl in *..].
    + intros s Hs. rewrite Hproc in Hs.
      apply elem_of_union in Hs as [->%elem_of_singleton | Hs]; [|eauto].
      exists i, (set_firmware_info c fi), (b_name b).
      repeat split; eauto using od_set_nonempty.
    + intros j c' fw' [Hj | ->]%Hcase Hcj Hfwj Htj; [eauto|].
      rewrite Hci in Hcj. injection Hcj as <-.
      exists id. split; [done|]. rewrite Hproc.
      apply elem_of_union. left. by apply elem_of_singleton.
    + intros j c' fw' flag [Hj | ->]%Hcase Hcj Hfwj Htj Hflag Htf Hu; [eauto|].
      rewrite Hci in Hcj. injection Hcj as <-.
      change (signer_value c "sig-id-in-customization-id" = Ok flag) in Hflag.
      congruence.
  - (* a base record and the whitelabel loop *)
    pose proof (build_base_Ok _ _ _ _ _ _ Hb)
      as (Hname & _ & _ & _ & _ & _ & _ & Hproc & _).
    rewrite Hwl in Hproc. destruct Hproc as [_ Hproc].
    pose proof (whitelabel_visit_group_done _ _ _ _ _ _ _ _ _ _
                  Harr Hc Hfw Hfw' Hid Hin Hb Hwl Hscan) as Hdone.
    destruct Hdone as (info & Hbase & Hgroup).
    assert (group_done configs (S i)
              (mkState configs' (b_by_model b) done') (b_name b))
      as Hdone by (by exists info).
    split; [done|simpl in *..].
    + intros s Hs.
      destruct (wl_scanned_marks _ _ _ _ _ _ Hscan s Hs)
        as [Hs0 | (j & cj & Hcj & Hnj & Hidj)].
      { rewrite Hproc in Hs0. eauto. }
      destruct (Forall2_lookup_l _ _ _ _ _ (wl_scanned_evolves _ _ _ _ _ _ Hscan) Hcj)
        as (cj' & Hcj' & He).
      pose proof (evolves_config _ _ He) as Hcfg.
      destruct (wl_scanned_lookup _ _ _ _ _ _ Hscan j cj' Hcj')
        as (c0 & dj & dj' & Hc0 & Hup & _).
      rewrite Hcj in Hc0. injection Hc0 as <-.
      destruct (wl_updated_match _ _ _ _ _ _ Hup Hnj)
        as (? & ? & ? & fij & _ & _ & _ & Hfij & -> & _).
      exists j, (set_firmware_info cj fij), (b_name b).
      repeat split; eauto using od_set_nonempty.
    + intros j c' fw' [Hj | ->]%Hcase Hcj Hfwj Htj; [eauto|].
      destruct (Forall2_lookup_r _ _ _ _ _ Hev Hcj) as (c0 & Hc0 & He).
      simpl in Hc0. rewrite Hc in Hc0. injection Hc0 as <-.
      pose proof (evolves_config _ _ He) as Hcfg.
      destruct (Hgroup i c' Hcj) as (id' & _ & _ & Hid' & Hin' & _).
      { by rewrite (GetName_ext c' c). }
      eauto.
    + intros j c' fw' flag [Hj | ->]%Hcase Hcj Hfwj Htj Hflag Htf Hu; [eauto|].
      destruct (Forall2_lookup_r _ _ _ _ _ Hev Hcj) as (c0 & Hc0 & He).
      simpl in Hc0. rewrite Hc in Hc0. injection Hc0 as <-.
      pose proof (evolves_config _ _ He) as Hcfg.
      exists (b_name b). by rewrite (GetName_ext c' c).
Qed.

Lemma pass_inv_main_loop configs (n : nat) :
  ∀ (a : nat) st st',
    pass_inv configs a st → main_loop (seq a n) st = Ok st' →
    pass_inv configs (a + n) st'.
Proof.
  induction n as [|n IH]; intros a st st' Hinv H; simpl in H.
  - injection H as <-. by rewrite Nat.add_0_r.
  - apply bind_Ok in H as (st1 & H1 & H). apply visit_iff in H1.
    replace (a + S n) with (S a + n) by lia.
    eauto using pass_inv_visited.
Qed.

Lemma pass_inv_resolve configs st :
  resolve configs = Ok st → pass_inv configs (length configs) st.
Proof.
  intros H. apply (pass_inv_main_loop configs _ 0) in H; [done|].
  split; simpl; [done|set_solver|intros; lia|intros; lia].
Qed.

Lemma resolved_inv items st :
  resolve (map DeviceConfigJson_init items) = Ok st →
  pass_inv (map DeviceConfigJson_init items) (length (st_configs st)) st.
Proof.
  intros H. pose proof (pass_inv_resolve _ _ H) as Hinv.
  apply main_loop_evolves, Forall2_length in H. simpl in H. by rewrite <- H.
Qed.

(** A device with firmware and an identity of its own is marked, and the
    mark is its own: it has a name and holds a record. *)
Lemma resolved_own_mark items st (i : nat) c fw :
  resolve (map DeviceConfigJson_init items) = Ok st →
  st_configs st !! i = Some c →
  GetFirmwareConfig c = Ok fw → truthy fw = true →
  unique_identity (st_configs st) i →
  (∃ n, GetName c = Ok n) ∧ firmware_info c ≠ [].
Proof.
  intros [_ Hmarked Hvisited _]%resolved_inv Hc Hfw Ht Hu.
  destruct (Hvisited i c fw) as (id & Hid & Hin); eauto using lookup_lt_Some.
  destruct (Hmarked id Hin) as (k & ck & n & Hck & Hidk & Hn & Hne & _).
  assert (k = i) as -> by (eapply (Hu k c ck); eauto; congruence).
  rewrite Hc in Hck. injection Hck as <-. eauto.
Qed.

(** *** C1 *)

(** C1 (amended): after a construction that succeeds, every device with
    a non-empty firmware configuration whose [/identity] rendering no
    other device of the collection has holds at least one record. *)
Theorem C1_firmware_gets_record (document : json) (cc : CrosConfigJson)
    (i : nat) (c : DeviceConfigJson) (fw : json) :
  CrosConfigJson_init document = Ok cc →
  GetDeviceConfigs cc !! i = Some c →
  GetFirmwareConfig c = Ok fw → truthy fw = true →
  unique_identity (GetDeviceConfigs cc) i →
  GetFirmwareInfo c ≠ [].
Proof.
  intros (chromeos & entries & items & st & _ & _ & _ & Hres & ->)%CrosConfigJson_init_Ok
    Hc Hfw Ht Hu.
  by destruct (resolved_own_mark _ _ _ _ _ Hres Hc Hfw Ht Hu).
Qed.

(** *** C5 *)

(** C5 (amended): a device entry without [name] makes the construction
    fail when that device has a non-empty firmware configuration and an
    [/identity] rendering no other device has. *)
Theorem C5_nameless_device_with_firmware_fails
    (document chromeos entries : json) (items : list json) (i : nat)
    (d : list (string * json)) (fw : json) :
  py_getitem document "chromeos" = Ok chromeos →
  py_getitem chromeos "configs" = Ok entries →
  py_iter entries = Ok items →
  items !! i = Some (JDict d) →
  dict_get "name" d = None →
  GetFirmwareConfig (DeviceConfigJson_init (JDict d)) = Ok fw →
  truthy fw = true →
  unique_identity (map DeviceConfigJson_init items) i →
  ∃ e, CrosConfigJson_init document = Raise e.
Proof.
  intros H1 H2 H3 Hi Hd Hfw Ht Hu.
  destruct (CrosConfigJson_init document) as [cc|e] eqn:Hcc; [|eauto].
  exfalso.
  apply CrosConfigJson_init_Ok
    in Hcc as (chromeos' & entries' & items' & st & H1' & H2' & H3' & Hres & _).
  rewrite H1 in H1'. injection H1' as <-.
  rewrite H2 in H2'. injection H2' as <-.
  rewrite H3 in H3'. injection H3' as <-.
  pose proof (main_loop_evolves _ _ _ Hres) as Hev. simpl in Hev.
  assert (map DeviceConfigJson_init items !! i
          = Some (DeviceConfigJson_init (JDict d))) as Hi0
    by (by rewrite list_lookup_fmap, Hi).
  destruct (Forall2_lookup_l _ _ _ _ _ Hev Hi0) as (c & Hc & He).
  pose proof (evolves_config _ _ He) as Hcfg.
  destruct (resolved_own_mark _ _ i c fw Hres Hc) as [[n Hn] _].
  - by rewrite (GetFirmwareConfig_ext c (DeviceConfigJson_init (JDict d))).
  - done.
  - intros k ci ck Hci Hck Heq.
    destruct (Forall2_lookup_r _ _ _ _ _ Hev Hci) as (ci0 & Hci0 & Hei).
    destruct (Forall2_lookup_r _ _ _ _ _ Hev Hck) as (ck0 & Hck0 & Hek).
    apply (Hu k ci0 ck0 Hci0 Hck0).
    rewrite (identity_of_ext ci0 ci), (identity_of_ext ck0 ck);
      eauto using eq_sym, evolves_config.
  - rewrite (GetName_ext c (DeviceConfigJson_init (JDict d))) in Hn by done.
    unfold GetName in Hn. simpl in Hn. by rewrite Hd in Hn.
Qed.

(** *** C2 *)

(** C2 (amended): after a construction that succeeds over the device
    entries [items] of the document, take a device with a non-empty
    firmware configuration, a truthy [sig-id-in-customization-id] and an
    [/identity] rendering no other device has.  Then the pass over the
    wrappers of [items] built a base record at the visit of a position
    [b], at or before the device's, whose device is whitelabel and has
    the device's name: built from the registry and the processed
    identities as they stood on arrival at [b].  Every device of that
    name holds, under its own [signature-id] value, the copy of that base
    record with [model] and [sig_id] set to that value, [key_id] to its
    own [key-id], and no image. *)
Theorem C2_whitelabel_records (document chromeos entries : json)
    (items : list json) (cc : CrosConfigJson)
    (i : nat) (w : DeviceConfigJson) (fw flag : json) :
  py_getitem document "chromeos" = Ok chromeos →
  py_getitem chromeos "configs" = Ok entries →
  py_iter entries = Ok items →
  CrosConfigJson_init document = Ok cc →
  GetDeviceConfigs cc !! i = Some w →
  GetFirmwareConfig w = Ok fw → truthy fw = true →
  signer_value w "sig-id-in-customization-id" = Ok flag →
  truthy flag = true →
  unique_identity (GetDeviceConfigs cc) i →
  ∃ name (b : nat) base,
    GetName w = Ok name ∧
    (b ≤ i)%nat ∧
    built_at (map DeviceConfigJson_init items) b base ∧
    b_whitelabel base = true ∧ b_name base = name ∧
    ∀ (j : nat) c,
      GetDeviceConfigs cc !! j = Some c → GetName c = Ok name →
      ∃ k s record,
        signer_value c "key-id" = Ok k ∧
        signer_value c "signature-id" = Ok s ∧
        od_get s (GetFirmwareInfo c) = Some record ∧
        record = replace_fields (deepcopy (b_info base)) s k false s ∧
        model record = s ∧ key_id record = k ∧ sig_id record = s ∧
        have_image record = false ∧
        shared_model record = shared_model (b_info base) ∧
        main_image_uri record = main_image_uri (b_info base) ∧
        ec_image_uri record = ec_image_uri (b_info base).
Proof.
  intros H1 H2 H3
    (chromeos' & entries' & items' & st & H1' & H2' & H3' & Hres & ->)%CrosConfigJson_init_Ok
    Hw Hfw Ht Hflag Htf Hu.
  rewrite H1 in H1'. injection H1' as <-.
  rewrite H2 in H2'. injection H2' as <-.
  rewrite H3 in H3'. injection H3' as <-.
  destruct (resolved_inv _ _ Hres) as [_ _ _ Hwhite].
  destruct (Hwhite i w fw flag)
    as (name & Hn & info & (b & base & Hb & Hbuilt & Hwl & Hbn & <-) & Hgroup);
    eauto using lookup_lt_Some.
  exists name, b, base.
  split; [done|]. split; [lia|]. do 3 (split; [done|]).
  intros j c Hc Hnc.
  destruct (Hgroup j c Hc Hnc) as (id & k & s & _ & _ & Hk & Hs & Hget).
  exists k, s, (replace_fields (b_info base) s k false s). by repeat split.
Qed.

(** ** The registered shared-model names *)

Lemma visited_by_model_mono i st st' :
  visited i st st' →
  ∀ d m, fw_by_model st !! d = Some m → fw_by_model st' !! d = Some m.
Proof.
  destruct 1 as [Hc | c fw id Hc Hfw Hid Hskip
                | c fw id b fi Hc Hfw Hid Hfw' Hin Hb Hfi Hwl
                | c fw id b fi configs' done' Hc Hfw Hid Hfw' Hin Hb Hfi Hwl Hscan];
    simpl; try done.
  all: apply build_base_Ok in Hb as (_ & Hreg & _).
  all: by apply register_model_Ok in Hreg as [Hmono _].
Qed.

Lemma main_loop_by_model_mono indices :
  ∀ st st', main_loop indices st = Ok st' →
    ∀ d m, fw_by_model st !! d = Some m → fw_by_model st' !! d = Some m.
Proof.
  induction indices as [|i r IH]; intros st st' H d m Hd; simpl in H.
  - by injection H as <-.
  - apply bind_Ok in H as (st1 & H1 & H). apply visit_iff in H1.
    eauto using visited_by_model_mono.
Qed.

Lemma shared_inv_visited i st st' :
  visited i st st' → shared_inv st → shared_inv st'.
Proof.
  intros Hv Hinv. pose proof (visited_by_model_mono _ _ _ Hv) as Hmono.
  assert (∀ (j : nat) c k v,
            st_configs st !! j = Some c → (k, v) ∈ firmware_info c →
            have_image v = true →
            ∃ fw, GetFirmwareConfig c = Ok fw ∧
                  fw_by_model st' !! py_str fw = Some (shared_model v)) as Hold.
  { intros j c k v Hc Hin Hi. destruct (Hinv j c k v Hc Hin Hi) as (fw & ? & ?).
    eauto. }
  clear Hinv Hmono.
  destruct Hv as [Hc | c fw id Hc Hfw Hid Hskip
                | c fw id b fi Hc Hfw Hid Hfw' Hin Hb Hfi Hwl
                | c fw id b fi configs' done' Hc Hfw Hid Hfw' Hin Hb Hfi Hwl Hscan];
    try done.
  all: pose proof (build_base_Ok _ _ _ _ _ _ Hb) as (_ & _ & Hshared & _).
  all: assert (∀ (j : nat) c' k v,
            <[i := set_firmware_info c fi]> (st_configs st) !! j = Some c' →
            (k, v) ∈ firmware_info c' → have_image v = true →
            ∃ fw', GetFirmwareConfig c' = Ok fw' ∧
                   b_by_model b !! py_str fw' = Some (shared_model v)) as Hbase.
  1,3: intros j c' k v Hc' Hkv Hi; simpl in *;
       destruct (decide (j = i)) as [->|Hne];
       [ rewrite list_lookup_insert_eq in Hc' by eauto using lookup_lt_Some;
         injection Hc' as <-; simpl in Hkv;
         destruct (od_set_elem _ _ _ _ _ _ Hfi Hkv) as [[Hkv' _] | (-> & _)];
         [ destruct (Hold i c k v Hc Hkv' Hi) as (fw0 & ? & ?); by exists fw0
         | by exists fw ]
       | rewrite list_lookup_insert_ne in Hc' by done; eauto ].
  - exact Hbase.
  - intros j c' k v Hc' Hkv Hi. simpl in *.
    destruct (wl_scanned_lookup _ _ _ _ _ _ Hscan j c' Hc')
      as (c0 & dj & dj' & Hc0 & Hup & _).
    destruct Hup as [n Hn Hne | id' k' s fi' Hn Hid' Hk' Hs Hfi']; [eauto|].
    simpl in Hkv.
    destruct (od_set_elem _ _ _ _ _ _ Hfi' Hkv) as [[Hkv' _] | (-> & _)];
      [|discriminate].
    destruct (Hbase j c0 k v Hc0 Hkv' Hi) as (fw0 & ? & ?). by exists fw0.
Qed.

Lemma shared_inv_main_loop indices :
  ∀ st st', main_loop indices st = Ok st' → shared_inv st → shared_inv st'.
Proof.
  induction indices as [|i r IH]; intros st st' H Hinv; simpl in H.
  - by injection H as <-.
  - apply bind_Ok in H as (st1 & H1 & H). apply visit_iff in H1.
    eauto using shared_inv_visited.
Qed.

Lemma shared_inv_resolved items st :
  resolve (map DeviceConfigJson_init items) = Ok st → shared_inv st.
Proof.
  intros H. apply (shared_inv_main_loop _ _ _ H).
  intros j c k v Hc Hin. simpl in Hc.
  apply list_lookup_fmap_Some in Hc as (item & -> & _).
  by apply elem_of_nil in Hin.
Qed.

(** *** C3 *)

(** C3 (amended): in a constructed set, the base records (the records
    with an image) of any two devices whose firmware descriptors render
    to the same string carry the same [shared_model]. *)
Theorem C3_base_records_share_model (document : json) (cc : CrosConfigJson)
    (j1 j2 : nat) (c1 c2 : DeviceConfigJson) (fw1 fw2 : json)
    (k1 k2 : json) (v1 v2 : FirmwareInfo) :
  CrosConfigJson_init document = Ok cc →
  GetDeviceConfigs cc !! j1 = Some c1 →
  GetDeviceConfigs cc !! j2 = Some c2 →
  GetFirmwareConfig c1 = Ok fw1 →
  GetFirmwareConfig c2 = Ok fw2 →
  py_str fw1 = py_str fw2 →
  (k1, v1) ∈ GetFirmwareInfo c1 → have_image v1 = true →
  (k2, v2) ∈ GetFirmwareInfo c2 → have_image v2 = true →
  shared_model v1 = shared_model v2.
Proof.
  intros (chromeos & entries & items & st & _ & _ & _ & Hres & ->)%CrosConfigJson_init_Ok
    Hc1 Hc2 Hfw1 Hfw2 Heq Hin1 Hi1 Hin2 Hi2.
  pose proof (shared_inv_resolved _ _ Hres) as Hinv.
  destruct (Hinv j1 c1 k1 v1 Hc1 Hin1 Hi1) as (fw1' & Hfw1' & Hm1).
  destruct (Hinv j2 c2 k2 v2 Hc2 Hin2 Hi2) as (fw2' & Hfw2' & Hm2).
  rewrite Hfw1 in Hfw1'. injection Hfw1' as <-.
  rewrite Hfw2 in Hfw2'. injection Hfw2' as <-.
  rewrite Heq in Hm1. congruence.
Qed.

(** ** The visit that stores a base record *)

Lemma arrives_visit configs (j : nat) st_j st c :
  resolve configs = Ok st → arrives configs j st_j →
  st_configs st_j !! j = Some c →
  ∃ st_j', visit j st_j = Ok st_j' ∧
           main_loop (seq (S j) (length configs - S j)) st_j' = Ok st.
Proof.
  intros Hres Ha Hc.
  assert (j < length configs) as Hj.
  { rewrite (Forall2_length _ _ _ (arrives_evolves _ _ _ Ha)).
    eauto using lookup_lt_Some. }
  destruct (arrives_before _ _ _ _ Hres Hj) as (st0 & st1 & Ha0 & Hv & Hrest).
  assert (st0 = st_j) as -> by (unfold arrives in *; congruence). eauto.
Qed.

Lemma arrives_between configs (b j : nat) st_b st_j :
  arrives configs b st_b → arrives configs j st_j → b < j →
  ∃ st1, visit b st_b = Ok st1 ∧
         main_loop (seq (S b) (j - S b)) st1 = Ok st_j.
Proof.
  intros Hb Hj Hlt.
  destruct (arrives_before _ _ _ _ Hj Hlt) as (st0 & st1 & Ha0 & Hv & Hrest).
  assert (st0 = st_b) as -> by (unfold arrives in *; congruence). eauto.
Qed.

(** A visit that takes the guarded branch builds the base record from the
    registry and the processed identities it arrives with, leaves the
    registry of that record behind, and leaves the device with a record
    under its name that carries the base record's [shared_model]. *)
Lemma visit_stores_base (i : nat) st st' c fw id :
  st_configs st !! i = Some c →
  GetFirmwareConfig c = Ok fw → truthy fw = true →
  identity_of c = Ok id → id ∉ processed st →
  visit i st = Ok st' →
  ∃ b c' v,
    build_base c fw id (fw_by_model st) (processed st) = Ok b ∧
    fw_by_model st' = b_by_model b ∧
    st_configs st' !! i = Some c' ∧
    od_get (JStr (b_name b)) (firmware_info c') = Some v ∧
    shared_model v = shared_model (b_info b).
Proof.
  intros Hc Hfw Ht Hid Hin Hv. apply visit_iff in Hv.
  destruct Hv as [Hc' | c' fw' id' Hc' Hfw' Hid' Hskip
                 | c' fw' id' b fi Hc' Hfw' Hid' Hfw'' Hin' Hb Hfi Hwl
                 | c' fw' id' b fi configs' done' Hc' Hfw' Hid' Hfw'' Hin' Hb Hfi Hwl Hscan];
    [congruence|..]; rewrite Hc in Hc'; injection Hc' as <-;
    rewrite Hfw in Hfw'; injection Hfw' as <-;
    rewrite Hid in Hid'; injection Hid' as <-.
  - destruct Hskip; [congruence|done].
  - exists b, (set_firmware_info c fi), (b_info b). simpl.
    split; [done|]. split; [done|]. split.
    { apply list_lookup_insert_eq. eauto using lookup_lt_Some. }
    eauto using od_get_set_same.
  - assert (<[i := set_firmware_info c fi]> (st_configs st) !! i
            = Some (set_firmware_info c fi)) as Hci
      by (apply list_lookup_insert_eq; eauto using lookup_lt_Some).
    destruct (Forall2_lookup_l _ _ _ _ _
                (wl_scanned_evolves _ _ _ _ _ _ Hscan) Hci) as (c1 & Hc1 & _).
    destruct (wl_scanned_lookup _ _ _ _ _ _ Hscan i c1 Hc1)
      as (c0 & dj & dj' & Hc0 & Hup & _).
    rewrite Hci in Hc0. injection Hc0 as <-.
    destruct Hup as [n Hn Hne | id' k s fi' Hn Hid' Hk Hs Hfi'].
    + exists b, (set_firmware_info c fi), (b_info b). simpl.
      do 3 (split; [done|]). eauto using od_get_set_same.
    + simpl in Hfi'.
      destruct (key_eqb s (JStr (b_name b))) eqn:Hkey.
      * exists b, (set_firmware_info (set_firmware_info c fi) fi'),
          (replace_fields (b_info b) s k false s). simpl.
        do 3 (split; [done|]).
        split; [|done]. by rewrite (od_get_set _ _ _ _ _ Hfi'), Hkey.
      * exists b, (set_firmware_info (set_firmware_info c fi) fi'), (b_info b).
        simpl. do 3 (split; [done|]).
        split; [|done]. rewrite (od_get_set _ _ _ _ _ Hfi'), Hkey.
        eauto using od_get_set_same.
Qed.

(** *** C6 *)

(** C6 (amended): take, in the pass over the device entries, the visit of
    a position [b] that takes the guarded branch (the device has firmware
    and an identity not yet processed) and meets a firmware descriptor
    that is not registered yet.  The name [m] it registers for the
    descriptor is the [name] value of the firmware subtree if there is
    one and the device name otherwise, and the device leaves the visit
    holding, under its name, a record whose [shared_model] is [m].  Every
    later visit that takes the guarded branch on a device whose
    descriptor renders to the same string leaves that device holding,
    under its name, a record whose [shared_model] is [m].  When the pass
    ends [m] is still the name registered for the descriptor, and every
    record with an image held by a device with that descriptor carries
    [m] as [shared_model]. *)
Theorem C6_first_encounter_registers_name
    (items : list json) (st : resolver_state) (b : nat)
    (st_b : resolver_state) (cb : DeviceConfigJson) (fw : json) (id : string) :
  resolve (map DeviceConfigJson_init items) = Ok st →
  arrives (map DeviceConfigJson_init items) b st_b →
  st_configs st_b !! b = Some cb →
  GetFirmwareConfig cb = Ok fw → truthy fw = true →
  identity_of cb = Ok id → id ∉ processed st_b →
  fw_by_model st_b !! py_str fw = None →
  ∃ d name m,
    fw = JDict d ∧ GetName cb = Ok name ∧
    m = match dict_get "name" d with Some v => v | None => JStr name end ∧
    (∃ st1 c1 v,
       visit b st_b = Ok st1 ∧
       fw_by_model st1 !! py_str fw = Some m ∧
       st_configs st1 !! b = Some c1 ∧
       od_get (JStr name) (firmware_info c1) = Some v ∧
       shared_model v = m) ∧
    (∀ (j : nat) st_j cj fwj idj,
       b < j →
       arrives (map DeviceConfigJson_init items) j st_j →
       st_configs st_j !! j = Some cj →
       GetFirmwareConfig cj = Ok fwj → truthy fwj = true →
       identity_of cj = Ok idj → idj ∉ processed st_j →
       py_str fwj = py_str fw →
       ∃ st_j' cj' namej v,
         visit j st_j = Ok st_j' ∧ GetName cj = Ok namej ∧
         st_configs st_j' !! j = Some cj' ∧
         od_get (JStr namej) (firmware_info cj') = Some v ∧
         shared_model v = m) ∧
    fw_by_model st !! py_str fw = Some m ∧
    (∀ (j : nat) c fwj k v,
       st_configs st !! j = Some c →
       GetFirmwareConfig c = Ok fwj → py_str fwj = py_str fw →
       (k, v) ∈ firmware_info c → have_image v = true →
       shared_model v = m).
Proof.
  intros Hres Harr Hc Hfw Ht Hid Hin Hnew.
  destruct (arrives_visit _ _ _ _ _ Hres Harr Hc) as (st1 & Hv & Hrest).
  destruct (visit_stores_base _ _ _ _ _ _ Hc Hfw Ht Hid Hin Hv)
    as (b0 & c1 & v & Hb0 & Hst1 & Hc1 & Hget & Hv1).
  pose proof (build_base_Ok _ _ _ _ _ _ Hb0) as (Hname & Hreg & Hshared & _).
  apply register_model_Ok in Hreg as (_ & _ & Hreg).
  destruct (Hreg Hnew) as (d & name & -> & Hname' & Hmap).
  assert (name = b_name b0) as -> by congruence.
  set (m := dict_get_default d "name" (JStr (b_name b0))) in *.
  assert (fw_by_model st1 !! py_str (JDict d) = Some m) as Hlook
    by (rewrite Hst1, Hmap; apply lookup_insert_eq).
  assert (shared_model (b_info b0) = m) as Hm.
  { rewrite <- Hst1, Hlook in Hshared. by injection Hshared. }
  exists d, (b_name b0), m.
  do 3 (split; [done|]). split; [|split; [|split]].
  - exists st1, c1, v. do 4 (split; [done|]). congruence.
  - intros j st_j cj fwj idj Hlt Harrj Hcj Hfwj Htj Hidj Hinj Heq.
    destruct (arrives_between _ _ _ _ _ Harr Harrj Hlt) as (st1' & Hv' & Hmid).
    assert (st1' = st1) as -> by congruence.
    pose proof (main_loop_by_model_mono _ _ _ Hmid _ _ Hlook) as Hlookj.
    destruct (arrives_visit _ _ _ _ _ Hres Harrj Hcj) as (st_j' & Hvj & _).
    destruct (visit_stores_base _ _ _ _ _ _ Hcj Hfwj Htj Hidj Hinj Hvj)
      as (bj & cj' & vj & Hbj & _ & Hcj' & Hgetj & Hvj1).
    pose proof (build_base_Ok _ _ _ _ _ _ Hbj) as (Hnamej & Hregj & Hsharedj & _).
    apply register_model_Ok in Hregj as (Hmono & _).
    rewrite Heq, (Hmono _ _ Hlookj) in Hsharedj.
    exists st_j', cj', (b_name bj), vj. do 4 (split; [done|]). congruence.
  - exact (main_loop_by_model_mono _ _ _ Hrest _ _ Hlook).
  - intros j c fwj k v' Hcj Hfwj Heq Hkv Hi.
    destruct (shared_inv_resolved _ _ Hres j c k v' Hcj Hkv Hi)
      as (fw' & Hfw' & Hreg').
    rewrite Hfwj in Hfw'. injection Hfw' as <-.
    rewrite Heq, (main_loop_by_model_mono _ _ _ Hrest _ _ Hlook) in Hreg'.
    by injection Hreg'.
Qed.

(** ** A second run of the pass *)

Lemma od_mem_overlay k m f : od_mem k (overlay m f) = od_mem k f.
Proof.
  unfold od_mem, overlay. induction f as [|[k0 v0] f IH]; simpl; [done|].
  by rewrite IH.
Qed.

Lemma od_set_overlay k v m m' f :
  od_set k v m = Ok m' → od_mem k f = true →
  od_set k v (overlay m f) = Ok (overlay m' f).
Proof.
  intros Hset Hmem. pose proof (od_set_Ok _ _ _ _ Hset) as [Hk _].
  unfold od_set. rewrite Hk, od_mem_overlay, Hmem. f_equal.
  unfold overlay. rewrite map_map. apply map_ext. intros [k0 v0]. simpl.
  rewrite (od_get_set _ _ _ _ k0 Hset). by destruct (key_eqb k k0).
Qed.

Lemma overlay_nil f : overlay [] f = f.
Proof.
  induction f as [|[k0 v0] f IH]; [done|].
  change (overlay [] ((k0, v0) :: f)) with ((k0, v0) :: overlay [] f).
  by rewrite IH.
Qed.

Lemma overlay_self m : od_wf m → overlay m m = m.
Proof.
  intros Hwf. unfold overlay.
  transitivity (map (λ kv : json * FirmwareInfo, kv) m); [|apply map_id].
  apply map_ext_in. intros [k v] Hin%list_elem_of_In. simpl.
  by rewrite (Hwf k v Hin).
Qed.

Lemma keys_in_refl c : keys_in c c.
Proof. by intros k. Qed.

Lemma keys_in_evolves c c' f : evolves c c' → keys_in c' f → keys_in c f.
Proof. intros Hev Hk k Hm. eauto using evolves_mem. Qed.

Lemma Forall2_keys_in_evolves l l' final :
  Forall2 evolves l l' → Forall2 keys_in l' final → Forall2 keys_in l final.
Proof.
  intros Hev. revert final.
  induction Hev; intros final Hk; inversion Hk; subst; constructor;
    eauto using keys_in_evolves.
Qed.

Lemma wl_updated_replay name info c done c' done' f :
  wl_updated name info c done c' done' → keys_in c' f →
  wl_updated name info (replay_device f c) done (replay_device f c') done'.
Proof.
  destruct 1 as [n Hn Hne | id k s fi Hn Hid Hk Hs Hfi]; intros Hkeys.
  - by eapply wl_other.
  - apply (wl_match name info (replay_device f c) done id k s
             (overlay fi (firmware_info f))); try done.
    apply od_set_overlay; [done|].
    apply Hkeys. simpl. eauto using od_set_mem_same.
Qed.

Lemma wl_scanned_replay name info cs done cs' done' :
  wl_scanned name info cs done cs' done' →
  ∀ final, Forall2 keys_in cs' final →
    wl_scanned name info (zip_with replay_device final cs) done
      (zip_with replay_device final cs') done'.
Proof.
  induction 1 as [|wl rest done wl' done1 rest' done2 Hup Hscan IH];
    intros final Hk; inversion Hk; subst; simpl.
  - apply scanned_nil.
  - eapply scanned_cons; eauto using wl_updated_replay.
Qed.

Lemma zip_with_replay_insert final cs (i : nat) f c :
  final !! i = Some f →
  zip_with replay_device final (<[i := c]> cs)
  = <[i := replay_device f c]> (zip_with replay_device final cs).
Proof.
  revert cs i. induction final as [|f0 final IH]; intros [|c0 cs] [|i] Hf;
    simpl in *; try done.
  - by injection Hf as ->.
  - by rewrite IH.
Qed.

Lemma visited_replay i st st' final :
  visited i st st' → Forall2 keys_in (st_configs st') final →
  visited i (replay final st) (replay final st').
Proof.
  intros Hv Hkeys. pose proof (visited_evolves _ _ _ Hv) as Hev.
  assert (∀ c, st_configs st !! i = Some c →
            ∃ f, final !! i = Some f ∧
                 st_configs (replay final st) !! i = Some (replay_device f c))
    as Hlook.
  { intros c Hc.
    destruct (Forall2_lookup_l _ _ _ _ _ Hev Hc) as (c' & Hc' & _).
    destruct (Forall2_lookup_l _ _ _ _ _ Hkeys Hc') as (f & Hf & _).
    exists f. split; [done|]. simpl.
    apply lookup_zip_with_Some. by exists f, c. }
  destruct Hv as [Hc | c fw id Hc Hfw Hid Hskip
                | c fw id b fi Hc Hfw Hid Hfw' Hin Hb Hfi Hwl
                | c fw id b fi configs' done' Hc Hfw Hid Hfw' Hin Hb Hfi Hwl Hscan].
  - apply visited_none. simpl. apply lookup_zip_with_None. auto.
  - destruct (Hlook c Hc) as (f & Hf & Hcf).
    by apply (visited_skip i (replay final st) (replay_device f c) fw id).
  - destruct (Hlook c Hc) as (f & Hf & Hcf).
    assert (od_mem (JStr (b_name b)) (firmware_info f) = true) as Hmem.
    { simpl in Hkeys.
      assert (<[i := set_firmware_info c fi]> (st_configs st) !! i
              = Some (set_firmware_info c fi)) as Hci
        by (apply list_lookup_insert_eq; eauto using lookup_lt_Some).
      destruct (Forall2_lookup_l _ _ _ _ _ Hkeys Hci) as (f' & Hf' & Hk).
      rewrite Hf in Hf'. injection Hf' as <-.
      apply Hk. simpl. eauto using od_set_mem_same. }
    unfold replay at 2. simpl.
    rewrite (zip_with_replay_insert _ _ _ f) by done.
    apply (visited_plain i (replay final st) (replay_device f c) fw id b
             (overlay fi (firmware_info f))); try done.
    by apply od_set_overlay.
  - destruct (Hlook c Hc) as (f & Hf & Hcf).
    pose proof (wl_scanned_evolves _ _ _ _ _ _ Hscan) as Hev'.
    assert (od_mem (JStr (b_name b)) (firmware_info f) = true) as Hmem.
    { simpl in Hkeys.
      assert (<[i := set_firmware_info c fi]> (st_configs st) !! i
              = Some (set_firmware_info c fi)) as Hci
        by (apply list_lookup_insert_eq; eauto using lookup_lt_Some).
      destruct (Forall2_lookup_l _ _ _ _ _ Hev' Hci) as (c' & Hc' & He).
      destruct (Forall2_lookup_l _ _ _ _ _ Hkeys Hc') as (f' & Hf' & Hk).
      rewrite Hf in Hf'. injection Hf' as <-.
      apply Hk. apply (evolves_mem _ _ _ He). simpl.
      eauto using od_set_mem_same. }
    unfold replay at 2. simpl.
    apply (visited_whitelabel i (replay final st) (replay_device f c) fw id b
             (overlay fi (firmware_info f))); try done.
    + by apply od_set_overlay.
    + simpl.
      change (set_firmware_info (replay_device f c) (overlay fi (firmware_info f)))
        with (replay_device f (set_firmware_info c fi)).
      rewrite <- (zip_with_replay_insert _ _ _ f) by done.
      by apply wl_scanned_replay.
Qed.

Lemma main_loop_replay indices :
  ∀ st st' final,
    main_loop indices st = Ok st' →
    Forall2 keys_in (st_configs st') final →
    main_loop indices (replay final st) = Ok (replay final st').
Proof.
  induction indices as [|i r IH]; intros st st' final H Hkeys; simpl in *.
  - by injection H as <-.
  - apply bind_Ok in H as (st1 & H1 & H).
    pose proof (main_loop_evolves _ _ _ H) as Hev.
    apply visit_iff in H1.
    apply (visited_replay _ _ _ final) in H1;
      [|eauto using Forall2_keys_in_evolves].
    apply visit_iff in H1. rewrite H1. simpl. eauto.
Qed.

Lemma replay_fresh items final :
  Forall2 evolves (map DeviceConfigJson_init items) final →
  zip_with replay_device final (map DeviceConfigJson_init items) = final.
Proof.
  revert final. induction items as [|item items IH]; intros final Hev;
    inversion Hev as [|? f ? final' He Hev']; subst; simpl; [done|].
  rewrite IH by done. f_equal.
  apply evolves_config in He. destruct f as [cfg fi]. simpl in He. subst cfg.
  unfold replay_device, set_firmware_info.
  cbn [_config firmware_info DeviceConfigJson_init]. by rewrite overlay_nil.
Qed.

Lemma replay_final final :
  Forall (λ c, od_wf (firmware_info c)) final →
  zip_with replay_device final final = final.
Proof.
  induction 1 as [|c l Hwf _ IH]; simpl; [done|]. rewrite IH. f_equal.
  destruct c as [cfg fi]. unfold replay_device, set_firmware_info.
  cbn [_config firmware_info] in *. by rewrite overlay_self.
Qed.

Lemma Forall2_keys_in_refl l : Forall2 keys_in l l.
Proof. induction l; constructor; auto using keys_in_refl. Qed.

(** *** C7 *)

(** C7: for every sequence of device entries on which the pass succeeds,
    the pass run again, with fresh [fw_by_model] and [processed], over
    the devices the first run has produced succeeds as well and ends in
    the very state the first run ended in: every device, and so every
    [firmware_info] map, is as it was. *)
Theorem C7_resolve_idempotent (items : list json) (st : resolver_state) :
  resolve (map DeviceConfigJson_init items) = Ok st →
  resolve (st_configs st) = Ok st ∧
  ∀ st', resolve (st_configs st) = Ok st' →
         map GetFirmwareInfo (st_configs st') = map GetFirmwareInfo (st_configs st).
Proof.
  intros Hres.
  assert (resolve (st_configs st) = Ok st) as Hagain.
  { pose proof (main_loop_evolves _ _ _ Hres) as Hev. simpl in Hev.
    assert (Forall (λ c, od_wf (firmware_info c)) (st_configs st)) as Hwf.
    { apply Forall_forall. intros c Hc.
      destruct (resolved_device _ _ _ Hres Hc) as (item & _ & He).
      apply (evolves_wf _ _ He). intros k v []%elem_of_nil. }
    unfold resolve in Hres.
    apply (main_loop_replay _ _ _ (st_configs st)) in Hres;
      [|apply Forall2_keys_in_refl].
    unfold replay in Hres. simpl in Hres.
    rewrite (replay_fresh _ _ Hev), (replay_final _ Hwf) in Hres.
    rewrite (Forall2_length _ _ _ Hev) in Hres.
    by destruct st. }
  split; [done|]. intros st' Hst'. congruence.
Qed.

(** *** C8 *)

(** C8: [GetDeviceConfigs] returns one wrapper per entry of
    [document['chromeos']['configs']], in the order of the document; the
    sort by identity, whose result is dropped, does not change it. *)
Theorem C8_device_configs_in_document_order (document : json) (cc : CrosConfigJson) :
  CrosConfigJson_init document = Ok cc →
  ∃ chromeos entries items,
    py_getitem document "chromeos" = Ok chromeos ∧
    py_getitem chromeos "configs" = Ok entries ∧
    py_iter entries = Ok items ∧
    map _config (GetDeviceConfigs cc) = items.
Proof.
  unfold CrosConfigJson_init. intros H. inv_res H. subst cc.
  exists x, x0, x1. repeat split; try done. simpl.
  erewrite resolve_configs by eauto. apply map_config_init.
Qed.

(** ** More on the accessors *)

Lemma split_slash_nonempty (s : string) : split_slash s ≠ [].
Proof.
  destruct s as [|c r]; simpl; [done|].
  destruct (Ascii.eqb c "/"); [done|]. by destruct (split_slash r).
Qed.

Lemma split_slash_app (a b : string) :
  split_slash (a ++ String "/" b)%string = split_slash a ++ split_slash b.
Proof.
  induction a as [|c a IH]; simpl.
  - reflexivity.
  - destruct (Ascii.eqb c "/"); [by rewrite IH|].
    rewrite IH. pose proof (split_slash_nonempty a) as Hne.
    by destruct (split_slash a).
Qed.

Lemma walk_empty (tokens : list string) : walk (JDict []) tokens = Ok (JDict []).
Proof. by destruct tokens. Qed.

Lemma walk_app (a b : list string) :
  ∀ v, walk v (a ++ b) = bind (walk v a) (λ w, walk w b).
Proof.
  induction a as [|t a IH]; intros v; simpl; [done|].
  destruct (py_in t v) as [[|]|e]; simpl; [|by rewrite walk_empty|done].
  destruct (py_getitem v t) as [x|e]; simpl; [apply IH|done].
Qed.

Lemma walk_descend (tokens : list string) :
  ∀ v w, descend v tokens = Some w → walk v tokens = Ok w.
Proof.
  induction tokens as [|t r IH]; intros v w H; simpl in *.
  - by injection H as ->.
  - destruct v as [| | | | |d]; try discriminate.
    destruct (dict_get t d) as [x|] eqn:Ht; [|discriminate].
    simpl. rewrite Ht. simpl. eauto.
Qed.

(** X1: a path can be walked in two legs.  For a path [p] other than
    ["/"] (and not empty) and a non-empty rest [q], the properties at
    [p/q] are the properties at [/q] of the node found at [p]; an error
    or an empty mapping met on the first leg is the result. *)
Theorem GetProperties_two_legs (self : DeviceConfigJson) (p q : string) :
  p ≠ "" → p ≠ "/" → q ≠ "" →
  GetProperties self (p ++ String "/" q)%string
  = bind (GetProperties self p)
         (λ node, GetProperties (DeviceConfigJson_init node) (String "/" q)).
Proof.
  intros Hp Hp' Hq. unfold GetProperties.
  destruct p as [|c p]; [done|].
  destruct (String.eqb_spec (String c p) "/") as [?|_]; [done|].
  destruct (String.eqb_spec (String c p ++ String "/" q)%string "/") as [Heq|_].
  { simpl in Heq. injection Heq as _ Heq. by destruct p. }
  simpl str_tail. rewrite split_slash_app, walk_app.
  destruct (walk (_config self) (split_slash p)) as [node|e]; cbn [bind]; [|done].
  destruct (String.eqb_spec (String "/" q) "/") as [Heq|_]; [|reflexivity].
  injection Heq as ->. done.
Qed.

Lemma GetProperties_found (self : DeviceConfigJson) (path : string) (w : json) :
  path ≠ "/" → descend (_config self) (path_tokens path) = Some w →
  GetProperties self path = Ok w.
Proof.
  intros Hne Hd. unfold GetProperties.
  destruct (String.eqb_spec path "/"); [done|]. by apply walk_descend.
Qed.

Lemma py_in_getitem_raise (v : json) (k : string) (e : pyerr) :
  py_in k v = Ok true → py_getitem v k = Raise e → e = TypeError.
Proof.
  destruct v as [| | | | |d]; simpl; try discriminate; try (by intros _ [= <-]).
  destruct (dict_get k d); [discriminate|]. intros [=].
Qed.

Lemma py_in_raise (v : json) (k : string) (e : pyerr) :
  py_in k v = Raise e → e = TypeError ∧ is_dict v = false.
Proof. destruct v; simpl; try discriminate; by intros [= <-]. Qed.

Lemma GetValue_of_dict (d : list (string * json)) (name : string) :
  GetValue (JDict d) name
  = Ok (match dict_get name d with Some v => v | None => JNull end).
Proof.
  unfold GetValue. simpl.
  destruct (dict_get name d) as [x|]; simpl; [|done]. by destruct x.
Qed.

(** X2: [GetValue] with an ASCII name.  On a mapping it returns the value
    stored under the name when [str] takes that value (it is not a string
    with a character outside ASCII), and [None] when the name is missing.
    On anything that is not a mapping it returns nothing but [None] and
    raises nothing but [TypeError]. *)
Theorem GetValue_cases (source : json) (name : string) :
  ascii_only name = true →
  (∀ d v, source = JDict d → dict_get name d = Some v → str_safe v = true →
          GetValue source name = Ok v) ∧
  (∀ d, source = JDict d → dict_get name d = None →
        GetValue source name = Ok JNull) ∧
  (∀ v, is_dict source = false → GetValue source name = Ok v → v = JNull) ∧
  (∀ e, is_dict source = false → GetValue source name = Raise e →
        e = TypeError).
Proof.
  intros _. split; [|split; [|split]].
  - intros d v -> Hv _. by rewrite GetValue_of_dict, Hv.
  - intros d -> Hv. by rewrite GetValue_of_dict, Hv.
  - intros v Hnd. unfold GetValue.
    destruct (py_in name source) as [[|]|e] eqn:Hin; simpl; [| by intros [= <-] | done].
    destruct source; simpl in *; try discriminate.
  - intros e Hnd. unfold GetValue.
    destruct (py_in name source) as [[|]|e'] eqn:Hin; simpl.
    + destruct source as [| | | | |d]; simpl in *; try discriminate;
        by intros [= <-].
    + discriminate.
    + intros [= <-]. by apply py_in_raise in Hin as [-> _].
Qed.

(** X3: [GetProperty] with an ASCII path and an ASCII name.  On a path
    that leads to a mapping it returns [str] of the value stored under
    the name when [str] takes that value (it is not a string with a
    character outside ASCII), and the empty string when the name is
    missing.  When the value it applies [str] to, if any, is one [str]
    takes, it raises nothing but [TypeError]. *)
Theorem GetProperty_cases (self : DeviceConfigJson) (path name : string) :
  ascii_only path = true → ascii_only name = true →
  (∀ d v, GetProperties self path = Ok (JDict d) →
          dict_get name d = Some v → str_safe v = true →
          GetProperty self path name = Ok (py_str v)) ∧
  (∀ d, GetProperties self path = Ok (JDict d) → dict_get name d = None →
        GetProperty self path name = Ok "") ∧
  (∀ e, (∀ d v, GetProperties self path = Ok (JDict d) →
                dict_get name d = Some v → str_safe v = true) →
        GetProperty self path name = Raise e → e = TypeError).
Proof.
  intros _ _. split; [|split].
  - intros d v Hd Hv _. unfold GetProperty. rewrite Hd. simpl.
    destruct d as [|kv d]; [done|]. simpl.
    simpl in Hv. by rewrite Hv.
  - intros d Hd Hv. unfold GetProperty. rewrite Hd. simpl.
    destruct d as [|kv d]; [done|]. simpl.
    simpl in Hv. by rewrite Hv.
  - intros e _. unfold GetProperty.
    destruct (GetProperties self path) as [props|e'] eqn:Hp; simpl.
    2:{ intros [= <-]. unfold GetProperties in Hp.
        destruct (String.eqb path "/"); [discriminate|].
        by apply walk_raise in Hp as [-> _]. }
    destruct (truthy props); [|discriminate].
    destruct (py_in name props) as [[|]|e'] eqn:Hin; simpl; [| discriminate |].
    + destruct (py_getitem props name) as [v|e'] eqn:Hg; simpl; [discriminate|].
      intros [= <-]. eauto using py_in_getitem_raise.
    + intros [= <-]. by apply py_in_raise in Hin as [-> _].
Qed.



(** ** The file lists *)

Lemma map_res_Ok {A B : Type} (f : A → res B) (l : list A) :
  ∀ l', map_res f l = Ok l' ↔ Forall2 (λ x y, f x = Ok y) l l'.
Proof.
  induction l as [|x l IH]; intros l'; simpl.
  - split; [intros [= <-]; constructor | by inversion 1].
  - split.
    + intros H. apply bind_Ok in H as (y & Hy & H).
      apply bind_Ok in H as (ys & Hys & H). injection H as <-.
      constructor; [done|]. by apply IH.
    + inversion 1 as [|? y ? ys Hy Hys]; subst.
      rewrite Hy. simpl. apply IH in Hys. by rewrite Hys.
Qed.

Lemma base_file_of_Ok (item : json) (f : BaseFile) :
  base_file_of item = Ok f ↔
  py_getitem item "source" = Ok (source f) ∧
  py_getitem item "destination" = Ok (dest f).
Proof.
  unfold base_file_of. split.
  - intros H. apply bind_Ok in H as (s & Hs & H).
    apply bind_Ok in H as (d & Hd & H). by injection H as <-.
  - intros [-> ->]. by destruct f.
Qed.

Lemma has_files_false (region : json) :
  truthy region = false ∨
  (∃ d, region = JDict d ∧ dict_get "files" d = None) →
  has_files region = Ok false.
Proof.
  unfold has_files. intros [-> | (d & -> & Hd)]; [done|].
  destruct (truthy (JDict d)); [|done]. simpl. by rewrite Hd.
Qed.

(** X5: a missing subtree (the properties at the path are empty) or a
    subtree mapping without [files] gives the empty list, not an error. *)
Theorem GetFiles_without_files (self : DeviceConfigJson) (path : string)
    (region : json) :
  GetProperties self path = Ok region →
  truthy region = false ∨
  (∃ d, region = JDict d ∧ dict_get "files" d = None) →
  _GetFiles self path = Ok [].
Proof.
  intros Hp Hr. unfold _GetFiles. rewrite Hp. cbn [bind].
  by rewrite (has_files_false _ Hr).
Qed.

(** X6: over a subtree mapping whose [files] is a list, [_GetFiles]
    succeeds exactly when every item has a [source] and a
    [destination] to be read, and it returns one file per item, in the
    order of the items, with the item's own source and destination. *)
Theorem GetFiles_one_per_item (self : DeviceConfigJson) (path : string)
    (d : list (string * json)) (items : list json) (files : list BaseFile) :
  GetProperties self path = Ok (JDict d) →
  dict_get "files" d = Some (JList items) →
  _GetFiles self path = Ok files ↔
  Forall2 (λ item f, py_getitem item "source" = Ok (source f) ∧
                     py_getitem item "destination" = Ok (dest f))
          items files.
Proof.
  intros Hp Hd. unfold _GetFiles. rewrite Hp. cbn [bind].
  assert (has_files (JDict d) = Ok true) as ->.
  { unfold has_files. destruct d; [done|]. simpl in *. by rewrite Hd. }
  cbn [bind]. simpl py_getitem. rewrite Hd. cbn [bind py_iter].
  rewrite map_res_Ok.
  split; intros H; (eapply Forall2_impl; [exact H|]); intros item f;
    apply base_file_of_Ok.
Qed.

Lemma touch_files_as_base (items : list json) :
  ∀ touch_files,
    map_res touch_file_of items = Ok touch_files →
    map_res base_file_of items
    = Ok (map (λ t, mkBaseFile (touch_source t) (touch_dest t)) touch_files).
Proof.
  induction items as [|item items IH]; intros touch_files H; simpl in *.
  - by injection H as <-.
  - apply bind_Ok in H as (t & Ht & H). apply bind_Ok in H as (ts & Hts & H).
    injection H as <-. rewrite (IH _ Hts).
    unfold touch_file_of in Ht. unfold base_file_of.
    apply bind_Ok in Ht as (s & -> & Ht). apply bind_Ok in Ht as (d' & -> & Ht).
    apply bind_Ok in Ht as (l & _ & Ht). by injection Ht as <-.
Qed.

(** X7: when [GetTouchFirmwareFiles] succeeds, [_GetFiles] over [/touch]
    succeeds too and returns the same files without their symlinks. *)
Theorem touch_files_are_base_files (self : DeviceConfigJson)
    (touch_files : list TouchFile) :
  GetTouchFirmwareFiles self = Ok touch_files →
  _GetFiles self "/touch"
  = Ok (map (λ t, mkBaseFile (touch_source t) (touch_dest t)) touch_files).
Proof.
  unfold GetTouchFirmwareFiles, _GetFiles. intros H.
  apply bind_Ok in H as (touch & -> & H). cbn [bind].
  apply bind_Ok in H as (present & -> & H). cbn [bind].
  destruct present; [|by injection H as <-].
  apply bind_Ok in H as (files & -> & H). cbn [bind].
  apply bind_Ok in H as (items & -> & H). cbn [bind].
  by apply touch_files_as_base.
Qed.

(** X8: the wallpaper set has at most one element, and its elements are
    exactly the truthy values [GetValue] reads under [wallpaper]: a
    missing, [null] or empty wallpaper gives the empty set. *)
Theorem GetWallpaperFiles_at_most_one (self : DeviceConfigJson)
    (files : list json) :
  GetWallpaperFiles self = Ok files →
(length files ≤ 1)%nat ∧
  ∀ w, w ∈ files ↔
       GetValue (_config self) "wallpaper" = Ok w ∧ truthy w = true.
Proof.
  unfold GetWallpaperFiles. intros H.
  apply bind_Ok in H as (wallpaper & Hw & H). rewrite Hw.
  destruct (truthy wallpaper) eqn:Ht.
  - destruct (hashable wallpaper); [|discriminate]. injection H as <-.
    split; [simpl; lia|]. intros w. rewrite list_elem_of_singleton. split.
    + by intros ->.
    + by intros [[= ->] _].
  - injection H as <-. split; [simpl; lia|]. intros w. split.
    + by intros ?%elem_of_nil.
    + intros [[= ->] ?]. congruence.
Qed.

(** ** More on the whitelabel loop *)

Lemma wl_scanned_lookup_l name info cs done cs' done' :
  wl_scanned name info cs done cs' done' →
  ∀ (j : nat) c, cs !! j = Some c →
    ∃ c' dj dj', cs' !! j = Some c' ∧ wl_updated name info c dj c' dj' ∧
                 dj' ⊆ done'.
Proof.
  intros Hscan j c Hc.
  destruct (Forall2_lookup_l _ _ _ _ _ (wl_scanned_evolves _ _ _ _ _ _ Hscan) Hc)
    as (c' & Hc' & _).
  destruct (wl_scanned_lookup _ _ _ _ _ _ Hscan j c' Hc')
    as (c0 & dj & dj' & Hc0 & Hup & Hsub).
  rewrite Hc in Hc0. injection Hc0 as <-. by exists c', dj, dj'.
Qed.

(** X9: what a whitelabel loop that succeeds has done.  Every device has
    a name.  A device of another name is left as it was.  A device of
    the name keeps its configuration, holds under its own [signature-id]
    value the record derived from the base record (with its own
    [key-id]), and keeps what it held under every other key.  The
    identities marked are those marked before and those of the devices
    of the name. *)
Theorem wl_scan_effect (name : string) (info : FirmwareInfo)
    (configs configs' : list DeviceConfigJson) (done done' : gset string) :
  wl_scan name info configs done = Ok (configs', done') →
  length configs' = length configs ∧
  (∀ s, s ∈ done' ↔
        s ∈ done ∨ ∃ (j : nat) c, configs !! j = Some c ∧
                                  GetName c = Ok name ∧ identity_of c = Ok s) ∧
  ∀ (j : nat) c, configs !! j = Some c →
    ∃ n, GetName c = Ok n ∧
      ((n ≠ name ∧ configs' !! j = Some c) ∨
       (n = name ∧
        ∃ c' k s,
          configs' !! j = Some c' ∧ _config c' = _config c ∧
          signer_value c "key-id" = Ok k ∧
          signer_value c "signature-id" = Ok s ∧
          od_get s (firmware_info c') = Some (replace_fields info s k false s) ∧
          ∀ k', key_eqb s k' = false →
                od_get k' (firmware_info c') = od_get k' (firmware_info c))).
Proof.
  intros Hscan%wl_scan_iff. split; [|split].
  - symmetry. eauto using Forall2_length, wl_scanned_evolves.
  - intros s. split; [eauto using wl_scanned_marks|].
    intros [Hs | (j & c & Hc & Hn & Hid)].
    + by apply (wl_scanned_subseteq _ _ _ _ _ _ Hscan).
    + destruct (wl_scanned_lookup_l _ _ _ _ _ _ Hscan j c Hc)
        as (c' & dj & dj' & _ & Hup & Hsub).
      destruct (wl_updated_match _ _ _ _ _ _ Hup Hn)
        as (id & _ & _ & _ & Hid' & _ & _ & _ & _ & ->).
      apply Hsub. apply elem_of_union. left. apply elem_of_singleton. congruence.
  - intros j c Hc.
    destruct (wl_scanned_lookup_l _ _ _ _ _ _ Hscan j c Hc)
      as (c' & dj & dj' & Hc' & Hup & _).
    destruct Hup as [n Hn Hne | id k s fi Hn Hid Hk Hs Hfi].
    + exists n. split; [done|]. by left.
    + exists name. split; [done|]. right. split; [done|].
      exists (set_firmware_info c fi), k, s. simpl.
      repeat split; eauto using od_get_set_same.
      intros k' Hk'. by rewrite (od_get_set _ _ _ _ k' Hfi), Hk'.
Qed.

(** ** The records of the pass *)

Lemma py_or_defaulted (a default : json) : defaulted (py_or a default) default.
Proof. unfold py_or, defaulted. destruct (truthy a) eqn:Ha; auto. Qed.

Lemma build_base_record_ok c fw id by_model done b :
  build_base c fw id by_model done = Ok b → record_ok (b_info b).
Proof.
  unfold build_base. intros H.
  apply bind_Ok in H as (by_model' & _ & H).
  apply bind_Ok in H as (shared & _ & H).
  apply bind_Ok in H as ([bios ec] & _ & H).
  apply bind_Ok in H as (main_image & _ & H).
  apply bind_Ok in H as (main_rw_image & _ & H).
  apply bind_Ok in H as (ec_image & _ & H).
  apply bind_Ok in H as (pd_image & _ & H).
  apply bind_Ok in H as (extra_files & _ & H).
  apply bind_Ok in H as (tool_files & _ & H).
  apply bind_Ok in H as (cfg & _ & H).
  apply bind_Ok in H as (key & _ & H).
  apply bind_Ok in H as (flag & _ & H).
  apply bind_Ok in H as (name & _ & H).
  apply bind_Ok in H as ([sig done'] & _ & H).
  injection H as <-. unfold record_ok. simpl.
  split; [reflexivity|]. repeat (split; [apply py_or_defaulted|]).
  apply py_or_defaulted.
Qed.

(** A property of records that every base record has and that deriving
    a whitelabel record keeps holds of every record of every map. *)
Lemma visited_records (P : FirmwareInfo → Prop) i st st' :
  (∀ c fw id by_model done b,
     build_base c fw id by_model done = Ok b → P (b_info b)) →
  (∀ info s k, P info → P (replace_fields info s k false s)) →
  visited i st st' →
  (∀ (j : nat) c k v, st_configs st !! j = Some c →
                      (k, v) ∈ firmware_info c → P v) →
  ∀ (j : nat) c k v, st_configs st' !! j = Some c →
                     (k, v) ∈ firmware_info c → P v.
Proof.
  intros Hbase Hderived Hv Hold.
  destruct Hv as [Hc | c fw id Hc Hfw Hid Hskip
                | c fw id b fi Hc Hfw Hid Hfw' Hin Hb Hfi Hwl
                | c fw id b fi configs' done' Hc Hfw Hid Hfw' Hin Hb Hfi Hwl Hscan];
    try done.
  all: assert (∀ (j : nat) c' k v,
            <[i := set_firmware_info c fi]> (st_configs st) !! j = Some c' →
            (k, v) ∈ firmware_info c' → P v) as Hins.
  1,3: intros j c' k v Hc' Hkv;
       destruct (decide (j = i)) as [->|Hne];
       [ rewrite list_lookup_insert_eq in Hc' by eauto using lookup_lt_Some;
         injection Hc' as <-; simpl in Hkv;
         destruct (od_set_elem _ _ _ _ _ _ Hfi Hkv) as [[Hkv' _] | (-> & _)];
         eauto
       | rewrite list_lookup_insert_ne in Hc' by done; eauto ].
  - exact Hins.
  - intros j c' k v Hc' Hkv. simpl in Hc'.
    destruct (wl_scanned_lookup _ _ _ _ _ _ Hscan j c' Hc')
      as (c0 & dj & dj' & Hc0 & Hup & _).
    destruct Hup as [n Hn Hne | id' k' s fi' Hn Hid' Hk' Hs Hfi']; [eauto|].
    simpl in Hkv.
    destruct (od_set_elem _ _ _ _ _ _ Hfi' Hkv) as [[Hkv' _] | (-> & _)]; eauto.
Qed.

Lemma main_loop_records (P : FirmwareInfo → Prop) indices :
  (∀ c fw id by_model done b,
     build_base c fw id by_model done = Ok b → P (b_info b)) →
  (∀ info s k, P info → P (replace_fields info s k false s)) →
  ∀ st st',
    main_loop indices st = Ok st' →
    (∀ (j : nat) c k v, st_configs st !! j = Some c →
                        (k, v) ∈ firmware_info c → P v) →
    ∀ (j : nat) c k v, st_configs st' !! j = Some c →
                       (k, v) ∈ firmware_info c → P v.
Proof.
  intros Hbase Hderived.
  induction indices as [|i r IH]; intros st st' H Hold; simpl in H.
  - by injection H as <-.
  - apply bind_Ok in H as (st1 & H1 & H). apply visit_iff in H1.
    apply (IH _ _ H). by apply (visited_records P i st st1).
Qed.

(** X10: in every record of every device of a constructed set,
    [create_bios_rw_image] is false, each of the four image URIs is the
    empty string or a truthy value, and [extra] and [tools] are the
    empty list or a truthy value: none of them is [None]. *)
Theorem records_have_defaults (document : json) (cc : CrosConfigJson)
    (c : DeviceConfigJson) (k : json) (v : FirmwareInfo) :
  CrosConfigJson_init document = Ok cc →
  c ∈ GetDeviceConfigs cc →
  (k, v) ∈ GetFirmwareInfo c →
  create_bios_rw_image v = false ∧
  (main_image_uri v = JStr "" ∨ truthy (main_image_uri v) = true) ∧
  (main_rw_image_uri v = JStr "" ∨ truthy (main_rw_image_uri v) = true) ∧
  (ec_image_uri v = JStr "" ∨ truthy (ec_image_uri v) = true) ∧
  (pd_image_uri v = JStr "" ∨ truthy (pd_image_uri v) = true) ∧
  (extra v = JList [] ∨ truthy (extra v) = true) ∧
  (tools v = JList [] ∨ truthy (tools v) = true).
Proof.
  intros (chromeos & entries & items & st & _ & _ & _ & Hres & ->)%CrosConfigJson_init_Ok
    [j Hc]%list_elem_of_lookup Hkv.
  apply (main_loop_records record_ok _ build_base_record_ok) with (j := j) (c := c) (k := k) (v := v) in Hres;
    try done.
  simpl. intros j' c' k' v' Hc' Hkv'.
  apply list_lookup_fmap_Some in Hc' as (item & -> & _).
  by apply elem_of_nil in Hkv'.
Qed.

(** ** The holders of base records *)

Lemma holds_base_set c k v fi :
  od_set k v (firmware_info c) = Ok fi →
  holds_base (set_firmware_info c fi) →
  holds_base c ∨ have_image v = true.
Proof.
  intros Hfi (k' & v' & Hkv & Hi). simpl in Hkv.
  destruct (od_set_elem _ _ _ _ _ _ Hfi Hkv) as [[Hkv' _] | (-> & _)].
  - left. by exists k', v'.
  - by right.
Qed.

(** A device that holds a base record after a visit held one before, or
    is the device visited, on the main path. *)
Lemma visited_holds_base i st st' (j : nat) c' :
  visited i st st' → st_configs st' !! j = Some c' → holds_base c' →
  (∃ c, st_configs st !! j = Some c ∧ _config c' = _config c ∧ holds_base c) ∨
  (j = i ∧ ∃ c fw id,
     st_configs st !! i = Some c ∧ _config c' = _config c ∧
     GetFirmwareConfig c = Ok fw ∧ truthy fw = true ∧
     identity_of c = Ok id ∧ (id ∉ processed st) ∧ id ∈ processed st').
Proof.
  intros Hv Hc' Hh.
  destruct Hv as [Hc | c fw id Hc Hfw Hid Hskip
                | c fw id b fi Hc Hfw Hid Hfw' Hin Hb Hfi Hwl
                | c fw id b fi configs' done' Hc Hfw Hid Hfw' Hin Hb Hfi Hwl Hscan].
  1,2: left; by exists c'.
  - pose proof (build_base_Ok _ _ _ _ _ _ Hb)
      as (_ & _ & _ & _ & _ & _ & _ & Hproc & _).
    rewrite Hwl in Hproc. destruct Hproc as [_ Hproc]. simpl in *.
    destruct (decide (j = i)) as [->|Hne].
    + rewrite list_lookup_insert_eq in Hc' by eauto using lookup_lt_Some.
      injection Hc' as <-.
      destruct (holds_base_set _ _ _ _ Hfi Hh) as [Hold | _].
      * left. by exists c.
      * right. split; [done|]. exists c, fw, id. repeat split; try done.
        rewrite Hproc. apply elem_of_union. left. by apply elem_of_singleton.
    + rewrite list_lookup_insert_ne in Hc' by done. left. by exists c'.
  - pose proof (build_base_Ok _ _ _ _ _ _ Hb) as (Hname & _).
    simpl in *.
    destruct (wl_scanned_lookup _ _ _ _ _ _ Hscan j c' Hc')
      as (c0 & dj & dj' & Hc0 & Hup & Hsub).
    assert (_config c' = _config c0 ∧ holds_base c0 ∧
            (GetName c0 = Ok (b_name b) →
             ∃ id0, identity_of c0 = Ok id0 ∧ id0 ∈ done')) as (Hcfg & Hh0 & Hmark).
    { destruct Hup as [n Hn Hne | id' k' s fi' Hn Hid' Hk' Hs Hfi'].
      - split; [done|]. split; [done|]. congruence.
      - split; [done|]. split.
        + destruct (holds_base_set _ _ _ _ Hfi' Hh) as [? | ?]; [done|discriminate].
        + intros _. exists id'. split; [done|]. apply Hsub.
          apply elem_of_union. left. by apply elem_of_singleton. }
    destruct (decide (j = i)) as [->|Hne].
    + rewrite list_lookup_insert_eq in Hc0 by eauto using lookup_lt_Some.
      injection Hc0 as <-.
      destruct (holds_base_set _ _ _ _ Hfi Hh0) as [Hold | _].
      * left. by exists c.
      * right. split; [done|]. exists c, fw, id.
        destruct (Hmark Hname) as (id0 & Hid0 & Hin0).
        change (identity_of c = Ok id0) in Hid0.
        repeat split; try done. congruence.
    + rewrite list_lookup_insert_ne in Hc0 by done. left. by exists c0.
Qed.

Lemma base_inv_visited i st st' :
  visited i st st' → base_inv st → base_inv st'.
Proof.
  intros Hv [Hmarked Hunique].
  pose proof (visited_processed_mono _ _ _ Hv) as Hmono.
  split.
  - intros j c' Hc' Hh.
    destruct (visited_holds_base _ _ _ _ _ Hv Hc' Hh)
      as [(c & Hc & Hcfg & Hold) | (-> & c & fw & id & Hc & Hcfg & Hfw & Ht & Hid & _ & Hin)].
    + destruct (Hmarked j c Hc Hold) as (fw & id & Hfw & Ht & Hid & Hin).
      exists fw, id.
      rewrite (GetFirmwareConfig_ext c' c), (identity_of_ext c' c) by done.
      repeat split; try done. by apply Hmono.
    + exists fw, id.
      by rewrite (GetFirmwareConfig_ext c' c), (identity_of_ext c' c).
  - intros j1 j2 c1' c2' Hc1' Hc2' Hh1 Hh2 Heq.
    destruct (visited_holds_base _ _ _ _ _ Hv Hc1' Hh1)
      as [(c1 & Hc1 & Hcfg1 & Hold1)
         | (-> & c1 & fw1 & id1 & Hc1 & Hcfg1 & _ & _ & Hid1 & Hnin1 & _)];
    destruct (visited_holds_base _ _ _ _ _ Hv Hc2' Hh2)
      as [(c2 & Hc2 & Hcfg2 & Hold2)
         | (-> & c2 & fw2 & id2 & Hc2 & Hcfg2 & _ & _ & Hid2 & Hnin2 & _)];
    rewrite (identity_of_ext c1' c1), (identity_of_ext c2' c2) in Heq by done.
    + eauto.
    + destruct (Hmarked j1 c1 Hc1 Hold1) as (? & id1 & _ & _ & Hid1 & Hin1).
      congruence.
    + destruct (Hmarked j2 c2 Hc2 Hold2) as (? & id2 & _ & _ & Hid2 & Hin2).
      congruence.
    + done.
Qed.

Lemma base_inv_main_loop indices :
  ∀ st st', main_loop indices st = Ok st' → base_inv st → base_inv st'.
Proof.
  induction indices as [|i r IH]; intros st st' H Hinv; simpl in H.
  - by injection H as <-.
  - apply bind_Ok in H as (st1 & H1 & H). apply visit_iff in H1.
    eauto using base_inv_visited.
Qed.

Lemma base_inv_resolved items st :
  resolve (map DeviceConfigJson_init items) = Ok st → base_inv st.
Proof.
  intros H. apply (base_inv_main_loop _ _ _ H).
  assert (∀ (j : nat) c, map DeviceConfigJson_init items !! j = Some c →
                         ¬ holds_base c) as Hfresh.
  { intros j c Hc (k & v & Hkv & _).
    apply list_lookup_fmap_Some in Hc as (item & -> & _).
    by apply elem_of_nil in Hkv. }
  split; simpl.
  - intros j c Hc Hh. by destruct (Hfresh j c Hc).
  - intros j1 j2 c1 c2 Hc1 _ Hh1. by destruct (Hfresh j1 c1 Hc1).
Qed.

(** X11: in a constructed set, a device that holds a record with an
    image has a non-empty firmware configuration: a device without
    firmware, or with a truthy [no-firmware], holds whitelabel records at
    most. *)
Theorem base_record_needs_firmware (document : json) (cc : CrosConfigJson)
    (c : DeviceConfigJson) (k : json) (v : FirmwareInfo) :
  CrosConfigJson_init document = Ok cc →
  c ∈ GetDeviceConfigs cc →
  (k, v) ∈ GetFirmwareInfo c → have_image v = true →
  ∃ fw, GetFirmwareConfig c = Ok fw ∧ truthy fw = true.
Proof.
  intros (chromeos & entries & items & st & _ & _ & _ & Hres & ->)%CrosConfigJson_init_Ok
    [j Hc]%list_elem_of_lookup Hkv Hi.
  destruct (base_inv_resolved _ _ Hres) as [Hmarked _].
  destruct (Hmarked j c Hc) as (fw & id & Hfw & Ht & _); [by exists k, v|].
  by exists fw.
Qed.

(** X12: in a constructed set, at most one of the devices that share an
    [/identity] rendering holds a record with an image. *)
Theorem base_record_once_per_identity (document : json) (cc : CrosConfigJson)
    (j1 j2 : nat) (c1 c2 : DeviceConfigJson)
    (k1 k2 : json) (v1 v2 : FirmwareInfo) :
  CrosConfigJson_init document = Ok cc →
  GetDeviceConfigs cc !! j1 = Some c1 →
  GetDeviceConfigs cc !! j2 = Some c2 →
  (k1, v1) ∈ GetFirmwareInfo c1 → have_image v1 = true →
  (k2, v2) ∈ GetFirmwareInfo c2 → have_image v2 = true →
  identity_of c1 = identity_of c2 →
  j1 = j2.
Proof.
  intros (chromeos & entries & items & st & _ & _ & _ & Hres & ->)%CrosConfigJson_init_Ok
    Hc1 Hc2 Hkv1 Hi1 Hkv2 Hi2 Heq.
  destruct (base_inv_resolved _ _ Hres) as [_ Hunique].
  apply (Hunique j1 j2 c1 c2); try done.
  - by exists k1, v1.
  - by exists k2, v2.
Qed.

(** ** The pass when no device is a whitelabel device *)

Lemma has_firmware_ext c c' id :
  _config c = _config c' → has_firmware c id ↔ has_firmware c' id.
Proof.
  intros Hc. unfold has_firmware.
  by rewrite (GetFirmwareConfig_ext _ _ Hc), (identity_of_ext _ _ Hc).
Qed.

Lemma has_firmware_init c id :
  has_firmware (DeviceConfigJson_init (_config c)) id ↔ has_firmware c id.
Proof. by apply has_firmware_ext. Qed.

Lemma earlier_same_S entries (i : nat) s :
  earlier_same entries (S i) s ↔
  earlier_same entries i s ∨
  ∃ item, entries !! i = Some item ∧ has_firmware (DeviceConfigJson_init item) s.
Proof.
  split.
  - intros (j & item & Hj & Hitem & Hf).
    destruct (decide (j = i)) as [->|Hne].
    + right. by exists item.
    + left. exists j, item. split; [lia|done].
  - intros [(j & item & Hj & Hitem & Hf) | (item & Hitem & Hf)].
    + exists j, item. split; [lia|done].
    + exists i, item. split; [lia|done].
Qed.

Lemma lookup_config (configs : list DeviceConfigJson) (j : nat) c :
  configs !! j = Some c → map _config configs !! j = Some (_config c).
Proof. intros H. by rewrite list_lookup_fmap, H. Qed.

Lemma plain_inv_visited entries (i : nat) st st' :
  unflagged entries → visited i st st' →
  plain_inv entries i st → plain_inv entries (S i) st'.
Proof.
  intros Hun Hv [Hent Hproc Hpend Hvis].
  assert (map _config (st_configs st') = entries) as Hent'.
  { rewrite <- Hent. apply (visit_configs i). by apply visit_iff. }
  assert (∀ j : nat, j < S i → j < i ∨ j = i) as Hcase by lia.
  destruct Hv as [Hc | c fw id Hc Hfw Hid Hskip
                | c fw id b fi Hc Hfw Hid Hfw' Hin Hb Hfi Hwl
                | c fw id b fi configs' done' Hc Hfw Hid Hfw' Hin Hb Hfi Hwl Hscan].
  - (* no device at this position *)
    assert (entries !! i = None) as Hnone
      by (by rewrite <- Hent, list_lookup_fmap, Hc).
    split; [done| | |].
    + intros s. rewrite Hproc, earlier_same_S. split; [by left|].
      intros [? | (item & Hitem & _)]; [done|congruence].
    + intros j c Hj. apply Hpend. lia.
    + intros j c [Hj | ->]%Hcase Hcj; [eauto|congruence].
  - (* skipped *)
    pose proof (lookup_config _ _ _ Hc) as Hitem. rewrite Hent in Hitem.
    split; [done| | |].
    + intros s. rewrite Hproc, earlier_same_S. split; [by left|].
      intros [? | (item & Hitem' & Hf)]; [done|].
      rewrite Hitem in Hitem'. injection Hitem' as <-.
      apply (proj1 (has_firmware_init c s)) in Hf as (fw' & Hfw' & Ht' & Hid').
      rewrite Hfw in Hfw'. injection Hfw' as <-.
      rewrite Hid in Hid'. injection Hid' as <-.
      destruct Hskip as [? | Hin]; [congruence|]. by apply Hproc.
    + intros j c' Hj. apply Hpend. lia.
    + intros j c' [Hj | ->]%Hcase Hcj; [eauto|].
      rewrite Hc in Hcj. injection Hcj as <-.
      exists fw, id. split; [done|]. split; [done|]. split.
      * intros Ht Hne. destruct Hskip as [? | Hin]; [congruence|].
        by apply Hproc in Hin.
      * intros _. by apply (Hpend i).
  - (* a base record *)
    pose proof (lookup_config _ _ _ Hc) as Hitem. rewrite Hent in Hitem.
    pose proof (build_base_Ok _ _ _ _ _ _ Hb)
      as (Hname & _ & _ & _ & Himage & _ & _ & Hdone & _).
    rewrite Hwl in Hdone. destruct Hdone as [_ Hdone].
    assert (fi = [(JStr (b_name b), b_info b)]) as ->.
    { apply od_set_Ok in Hfi as [_ ->]. by rewrite (Hpend i c). }
    assert (<[i := set_firmware_info c [(JStr (b_name b), b_info b)]]>
              (st_configs st) !! i
            = Some (set_firmware_info c [(JStr (b_name b), b_info b)])) as Hci
      by (apply list_lookup_insert_eq; eauto using lookup_lt_Some).
    split; simpl in *; [done| | |].
    + intros s. rewrite Hdone, earlier_same_S, elem_of_union, elem_of_singleton.
      rewrite Hproc. split.
      * intros [-> | ?]; [|by left]. right. exists (_config c).
        split; [done|]. apply has_firmware_init. by exists fw.
      * intros [? | (item & Hitem' & Hf)]; [by right|]. left.
        rewrite Hitem in Hitem'. injection Hitem' as <-.
        apply (proj1 (has_firmware_init c s)) in Hf as (fw' & _ & _ & Hid').
        congruence.
    + intros j c' Hj Hcj.
      rewrite list_lookup_insert_ne in Hcj by lia. apply (Hpend j); [lia|done].
    + intros j c' [Hj | ->]%Hcase Hcj.
      { rewrite list_lookup_insert_ne in Hcj by lia. eauto. }
      rewrite Hci in Hcj. injection Hcj as <-.
      exists fw, id. split; [done|]. split; [done|]. split.
      * intros _ _. by exists (b_name b), (b_info b).
      * intros [? | Hearlier]; [congruence|]. by apply Hproc in Hearlier.
  - (* a whitelabel loop: there is none *)
    pose proof (lookup_config _ _ _ Hc) as Hitem. rewrite Hent in Hitem.
    pose proof (build_base_Ok _ _ _ _ _ _ Hb)
      as (_ & _ & _ & _ & _ & _ & (flag & Hflag & Hwl') & _).
    rewrite (Hun (_config c) flag) in Hwl'.
    + congruence.
    + by eapply list_elem_of_lookup_2.
    + by rewrite <- Hflag; apply signer_value_ext.
Qed.

Lemma plain_inv_main_loop entries (n : nat) :
  unflagged entries →
  ∀ (a : nat) st st',
    plain_inv entries a st → main_loop (seq a n) st = Ok st' →
    plain_inv entries (a + n) st'.
Proof.
  intros Hun. induction n as [|n IH]; intros a st st' Hinv H; simpl in H.
  - injection H as <-. by rewrite Nat.add_0_r.
  - apply bind_Ok in H as (st1 & H1 & H). apply visit_iff in H1.
    replace (a + S n) with (S a + n) by lia.
    eauto using plain_inv_visited.
Qed.

Lemma plain_inv_resolved items st :
  unflagged items →
  resolve (map DeviceConfigJson_init items) = Ok st →
  plain_inv items (length (st_configs st)) st.
Proof.
  intros Hun H.
  pose proof (Forall2_length _ _ _ (main_loop_evolves _ _ _ H)) as Hlen.
  simpl in Hlen. rewrite <- Hlen.
  apply (plain_inv_main_loop items _ Hun 0) in H; [done|].
  split; simpl.
  - apply map_config_init.
  - intros s. split; [set_solver|]. intros (j & _ & Hj & _). lia.
  - intros j c _ Hc. by apply list_lookup_fmap_Some in Hc as (item & -> & _).
  - intros j c Hj. lia.
Qed.

(** X13: the outcome of the pass when no device has a truthy
    [sig-id-in-customization-id].  In a constructed set, a device holds
    exactly one record, a base record under its own name, when its
    firmware configuration is not empty and no device before it in the
    document has firmware and the same [/identity] rendering; it holds
    no record when its firmware configuration is empty, and none when
    such an earlier device exists. *)
Theorem pass_without_whitelabel (document : json) (cc : CrosConfigJson)
    (j : nat) (c : DeviceConfigJson) :
  CrosConfigJson_init document = Ok cc →
  (∀ c' flag, c' ∈ GetDeviceConfigs cc →
              signer_value c' "sig-id-in-customization-id" = Ok flag →
              truthy flag = false) →
  GetDeviceConfigs cc !! j = Some c →
  ∃ fw id,
    GetFirmwareConfig c = Ok fw ∧ identity_of c = Ok id ∧
    (truthy fw = true →
     (∀ (j' : nat) c', j' < j → GetDeviceConfigs cc !! j' = Some c' →
                       ¬ has_firmware c' id) →
     ∃ name v, GetName c = Ok name ∧
               GetFirmwareInfo c = [(JStr name, v)] ∧ have_image v = true) ∧
    (truthy fw = false → GetFirmwareInfo c = []) ∧
    (∀ (j' : nat) c', j' < j → GetDeviceConfigs cc !! j' = Some c' →
                      has_firmware c' id → GetFirmwareInfo c = []).
Proof.
  intros (chromeos & entries & items & st & _ & _ & _ & Hres & ->)%CrosConfigJson_init_Ok
    Hflags Hc.
  pose proof (resolve_configs _ _ Hres) as Hcfg.
  rewrite map_config_init in Hcfg.
  assert (unflagged items) as Hun.
  { intros item flag Hitem Hflag. rewrite <- Hcfg in Hitem.
    apply list_elem_of_fmap in Hitem as (c' & -> & Hc').
    apply (Hflags c' flag Hc').
    by rewrite <- Hflag; apply signer_value_ext. }
  destruct (plain_inv_resolved _ _ Hun Hres) as [_ _ _ Hvis].
  destruct (Hvis j c) as (fw & id & Hfw & Hid & Hone & Hnone);
    eauto using lookup_lt_Some.
  exists fw, id. split; [done|]. split; [done|]. split; [|split].
  - intros Ht Hfirst. apply Hone; [done|].
    intros (j' & item & Hj' & Hitem & Hf). rewrite <- Hcfg in Hitem.
    apply list_lookup_fmap_Some in Hitem as (c' & -> & Hc').
    apply (Hfirst j' c' Hj' Hc'). by apply has_firmware_init.
  - intros Ht. apply Hnone. by left.
  - intros j' c' Hj' Hc' Hf. apply Hnone. right.
    exists j', (_config c'). split; [done|]. split.
    + rewrite <- Hcfg. by apply lookup_config.
    + by apply has_firmware_init.
Qed.

(** ** Where the records come from *)

Lemma derived_record_of_ext configs c c' v :
  _config c = _config c' →
  derived_record_of configs c v → derived_record_of configs c' v.
Proof.
  intros Hc (b & base & k & s & ? & ? & ? & ? & ? & ->).
  exists b, base, k, s.
  by rewrite <- (GetName_ext _ _ Hc), <- !(signer_value_ext _ _ _ Hc).
Qed.

Lemma record_origin_ext configs j c c' v :
  _config c = _config c' →
  record_origin configs j c v → record_origin configs j c' v.
Proof.
  unfold record_origin.
  destruct (have_image v); eauto using derived_record_of_ext.
Qed.

Lemma origin_inv_visited configs (i : nat) st st' :
  visited i st st' → origin_inv configs i st → origin_inv configs (S i) st'.
Proof.
  intros Hv [Harr Hold]. split.
  { eapply arrives_S; [done|by apply visit_iff]. }
  destruct Hv as [Hc | c fw id Hc Hfw Hid Hskip
                | c fw id b fi Hc Hfw Hid Hfw' Hin Hb Hfi Hwl
                | c fw id b fi configs' done' Hc Hfw Hid Hfw' Hin Hb Hfi Hwl Hscan];
    try done.
  all: pose proof (build_base_Ok _ _ _ _ _ _ Hb)
         as (Hname & _ & _ & _ & Himage & _).
  all: assert (built_at configs i b) as Hbuilt
         by (by exists st, c, fw, id).
  all: assert (∀ (j : nat) c' k v,
            <[i := set_firmware_info c fi]> (st_configs st) !! j = Some c' →
            (k, v) ∈ firmware_info c' → record_origin configs j c' v) as Hins.
  1,3: intros j c' k v Hc' Hkv;
       destruct (decide (j = i)) as [->|Hne];
       [ rewrite list_lookup_insert_eq in Hc' by eauto using lookup_lt_Some;
         injection Hc' as <-; simpl in Hkv;
         apply (record_origin_ext configs i c); [done|];
         destruct (od_set_elem _ _ _ _ _ _ Hfi Hkv) as [[Hkv' _] | (-> & _)];
         [ eauto | unfold record_origin; rewrite Himage; by exists b ]
       | rewrite list_lookup_insert_ne in Hc' by done; eauto ].
  - exact Hins.
  - intros j c' k v Hc' Hkv. simpl in Hc'.
    destruct (wl_scanned_lookup _ _ _ _ _ _ Hscan j c' Hc')
      as (c0 & dj & dj' & Hc0 & Hup & _).
    destruct Hup as [n Hn Hne | id' k' s fi' Hn Hid' Hk' Hs Hfi']; [eauto|].
    simpl in Hkv. apply (record_origin_ext configs j c0); [done|].
    destruct (od_set_elem _ _ _ _ _ _ Hfi' Hkv) as [[Hkv' _] | (-> & _)]; [eauto|].
    unfold record_origin. simpl.
    by exists i, b, k', s.
Qed.

Lemma origin_inv_main_loop configs (n : nat) :
  ∀ (a : nat) st st',
    origin_inv configs a st → main_loop (seq a n) st = Ok st' →
    origin_inv configs (a + n) st'.
Proof.
  induction n as [|n IH]; intros a st st' Hinv H; simpl in H.
  - injection H as <-. by rewrite Nat.add_0_r.
  - apply bind_Ok in H as (st1 & H1 & H). apply visit_iff in H1.
    replace (a + S n) with (S a + n) by lia.
    eauto using origin_inv_visited.
Qed.

Lemma origin_inv_resolved configs st :
  (∀ c, c ∈ configs → firmware_info c = []) →
  resolve configs = Ok st → origin_inv configs (length configs) st.
Proof.
  intros Hempty H. apply (origin_inv_main_loop configs _ 0) in H; [done|].
  split; [done|]. simpl.
  intros j c k v Hc Hkv. apply list_elem_of_lookup_2 in Hc.
  rewrite (Hempty c Hc) in Hkv. by apply elem_of_nil in Hkv.
Qed.

Lemma init_empty items c :
  c ∈ map DeviceConfigJson_init items → firmware_info c = [].
Proof. by intros (item & -> & _)%list_elem_of_fmap. Qed.

Lemma build_base_targets c fw id by_model done b :
  build_base c fw id by_model done = Ok b →
  build_targets c = Ok (bios_build_target (b_info b), ec_build_target (b_info b)).
Proof.
  unfold build_base. intros H.
  apply bind_Ok in H as (by_model' & _ & H).
  apply bind_Ok in H as (shared & _ & H).
  apply bind_Ok in H as ([bios ec] & Htargets & H).
  apply bind_Ok in H as (main_image & _ & H).
  apply bind_Ok in H as (main_rw_image & _ & H).
  apply bind_Ok in H as (ec_image & _ & H).
  apply bind_Ok in H as (pd_image & _ & H).
  apply bind_Ok in H as (extra_files & _ & H).
  apply bind_Ok in H as (tool_files & _ & H).
  apply bind_Ok in H as (cfg & _ & H).
  apply bind_Ok in H as (key & _ & H).
  apply bind_Ok in H as (flag & _ & H).
  apply bind_Ok in H as (name & _ & H).
  apply bind_Ok in H as ([sig done'] & _ & H).
  by injection H as <-.
Qed.

(** X14: in a constructed set, a record with an image held by a device
    is the record of that device itself: its [model] is the device name,
    its [key_id] the device's [key-id], its [sig_id] the literal
    ["sig-id-in-customization-id"] when the device's flag of that name is
    truthy and the device's [signature-id] otherwise, its build targets
    those of the device, and its main and EC image URIs the [main-image]
    and [ec-image] of the device's firmware, or the empty string. *)
Theorem base_record_is_own (document : json) (cc : CrosConfigJson)
    (c : DeviceConfigJson) (k : json) (v : FirmwareInfo) :
  CrosConfigJson_init document = Ok cc →
  c ∈ GetDeviceConfigs cc →
  (k, v) ∈ GetFirmwareInfo c → have_image v = true →
  ∃ name fw flag main_image ec_image,
    GetName c = Ok name ∧ model v = JStr name ∧
    GetFirmwareConfig c = Ok fw ∧
    signer_value c "key-id" = Ok (key_id v) ∧
    signer_value c "sig-id-in-customization-id" = Ok flag ∧
    (if truthy flag
     then sig_id v = JStr "sig-id-in-customization-id"
     else signer_value c "signature-id" = Ok (sig_id v)) ∧
    build_targets c = Ok (bios_build_target v, ec_build_target v) ∧
    GetValue fw "main-image" = Ok main_image ∧
    main_image_uri v = py_or main_image (JStr "") ∧
    GetValue fw "ec-image" = Ok ec_image ∧
    ec_image_uri v = py_or ec_image (JStr "").
Proof.
  intros (chromeos & entries & items & st & _ & _ & _ & Hres & ->)%CrosConfigJson_init_Ok
    [j Hc]%list_elem_of_lookup Hkv Hi.
  destruct (origin_inv_resolved _ _ (init_empty items) Hres) as [Harr Horigin].
  specialize (Horigin j c k v Hc Hkv). unfold record_origin in Horigin.
  rewrite Hi in Horigin.
  destruct Horigin
    as (b & (st0 & cb & fw & id & Harr0 & Hcb & Hfw & _ & _ & _ & Hb) & ->).
  pose proof (arrives_same_config _ _ _ _ _ _ _ _ Harr0 Harr Hcb Hc) as Hcfg.
  rewrite (GetFirmwareConfig_ext _ _ Hcfg) in Hfw.
  rewrite (build_base_ext _ _ _ _ _ _ Hcfg) in Hb.
  pose proof (build_base_targets _ _ _ _ _ _ Hb) as Htargets.
  apply build_base_Ok in Hb
    as (Hname & _ & _ & Hmodel & _ & Hkey & (flag & Hflag & Hwl) & Hsig &
        (main_image & Hmain & Hmain') & (ec_image & Hec & Hec')).
  exists (b_name b), fw, flag, main_image, ec_image.
  repeat split; try done.
  rewrite <- Hwl. by destruct (b_whitelabel b); destruct Hsig.
Qed.

(** X15: in a set constructed over the device entries [items] of the
    document, a record without an image held by a device is derived from
    the base record the pass over the wrappers of [items] built at the
    visit of a whitelabel device of the same name, from the registry and
    the processed identities as they stood on arrival there: it is that
    base record with [model] and [sig_id] set to the holder's
    [signature-id], [key_id] to the holder's [key-id], and no image. *)
Theorem derived_record_origin (document chromeos entries : json)
    (items : list json) (cc : CrosConfigJson)
    (c : DeviceConfigJson) (k : json) (v : FirmwareInfo) :
  py_getitem document "chromeos" = Ok chromeos →
  py_getitem chromeos "configs" = Ok entries →
  py_iter entries = Ok items →
  CrosConfigJson_init document = Ok cc →
  c ∈ GetDeviceConfigs cc →
  (k, v) ∈ GetFirmwareInfo c → have_image v = false →
  ∃ (b : nat) c' flag base key s,
    GetDeviceConfigs cc !! b = Some c' ∧
    GetName c' = Ok (b_name base) ∧ GetName c = Ok (b_name base) ∧
    signer_value c' "sig-id-in-customization-id" = Ok flag ∧
    truthy flag = true ∧
    built_at (map DeviceConfigJson_init items) b base ∧
    signer_value c "key-id" = Ok key ∧
    signer_value c "signature-id" = Ok s ∧
    v = replace_fields (b_info base) s key false s.
Proof.
  intros H1 H2 H3
    (chromeos' & entries' & items' & st & H1' & H2' & H3' & Hres & ->)%CrosConfigJson_init_Ok
    [j Hc]%list_elem_of_lookup Hkv Hi.
  rewrite H1 in H1'. injection H1' as <-.
  rewrite H2 in H2'. injection H2' as <-.
  rewrite H3 in H3'. injection H3' as <-.
  destruct (origin_inv_resolved _ _ (init_empty items) Hres) as [Harr Horigin].
  specialize (Horigin j c k v Hc Hkv). unfold record_origin in Horigin.
  rewrite Hi in Horigin.
  destruct Horigin as (b & base & key & s & Hbuilt & Hwl & Hn & Hkey & Hs & ->).
  pose proof Hbuilt as (st0 & cb & fw & id & Harr0 & Hcb & _ & _ & _ & _ & Hb).
  destruct (arrives_lookup _ _ _ _ _ _ _ Harr0 Harr Hcb) as (c' & Hc').
  pose proof (arrives_same_config _ _ _ _ _ _ _ _ Harr0 Harr Hcb Hc') as Hcfg.
  apply build_base_Ok in Hb
    as (Hname & _ & _ & _ & _ & _ & (flag & Hflag & Hwl') & _).
  exists b, c', flag, base, key, s.
  rewrite <- (GetName_ext _ _ Hcfg), <- (signer_value_ext _ _ _ Hcfg).
  do 4 (split; [done|]).
  split; [by rewrite <- Hwl', Hwl|]. done.
Qed.

(** ** Where the shared-model names come from *)

Lemma register_model_lookup c fw by_model by_model' d m :
  register_model c fw (py_str fw) by_model = Ok by_model' →
  by_model' !! d = Some m →
  by_model !! d = Some m ∨
  ∃ dd name, fw = JDict dd ∧ GetName c = Ok name ∧ d = py_str fw ∧
             m = dict_get_default dd "name" (JStr name).
Proof.
  unfold register_model. destruct (by_model !! py_str fw) as [m0|] eqn:Hm.
  - intros [= <-]. by left.
  - destruct fw as [| | | | |dd]; try discriminate. intros H.
    apply bind_Ok in H as (name & Hname & H). injection H as <-.
    destruct (decide (py_str (JDict dd) = d)) as [<-|Hne].
    + rewrite lookup_insert_eq. intros [= <-]. right. by exists dd, name.
    + rewrite lookup_insert_ne by done. by left.
Qed.

Lemma registered_inv_visited entries i st st' :
  visited i st st' → registered_inv entries st → registered_inv entries st'.
Proof.
  intros Hv [Hent Hold]. split.
  { rewrite <- Hent. apply (visit_configs i). by apply visit_iff. }
  destruct Hv as [Hc | c fw id Hc Hfw Hid Hskip
                | c fw id b fi Hc Hfw Hid Hfw' Hin Hb Hfi Hwl
                | c fw id b fi configs' done' Hc Hfw Hid Hfw' Hin Hb Hfi Hwl Hscan];
    try done.
  all: simpl; intros d m Hd.
  all: apply build_base_Ok in Hb as (_ & Hreg & _).
  all: destruct (register_model_lookup _ _ _ _ _ _ Hreg Hd)
         as [Hd' | (dd & name & -> & Hname & -> & ->)]; [eauto|].
  all: exists (_config c), dd, name; repeat split; try done.
  all: rewrite <- Hent; apply list_elem_of_fmap; exists c;
       split; [done|]; by eapply list_elem_of_lookup_2.
Qed.

Lemma registered_inv_main_loop entries indices :
  ∀ st st', main_loop indices st = Ok st' →
            registered_inv entries st → registered_inv entries st'.
Proof.
  induction indices as [|i r IH]; intros st st' H Hinv; simpl in H.
  - by injection H as <-.
  - apply bind_Ok in H as (st1 & H1 & H). apply visit_iff in H1.
    eauto using registered_inv_visited.
Qed.

(** X16: in a constructed set, the [shared_model] of a record with an
    image is the [name] value of the firmware mapping, or else the
    device name, of a device of the set whose firmware descriptor
    renders to the same string as that of the holder. *)
Theorem shared_model_origin (document : json) (cc : CrosConfigJson)
    (c : DeviceConfigJson) (k : json) (v : FirmwareInfo) :
  CrosConfigJson_init document = Ok cc →
  c ∈ GetDeviceConfigs cc →
  (k, v) ∈ GetFirmwareInfo c → have_image v = true →
  ∃ fw c' dd name,
    GetFirmwareConfig c = Ok fw ∧
    c' ∈ GetDeviceConfigs cc ∧
    GetFirmwareConfig c' = Ok (JDict dd) ∧
    py_str (JDict dd) = py_str fw ∧
    GetName c' = Ok name ∧
    shared_model v
    = match dict_get "name" dd with Some x => x | None => JStr name end.
Proof.
  intros (chromeos & entries & items & st & _ & _ & _ & Hres & ->)%CrosConfigJson_init_Ok
    [j Hc]%list_elem_of_lookup Hkv Hi.
  destruct (shared_inv_resolved _ _ Hres j c k v Hc Hkv Hi) as (fw & Hfw & Hshared).
  assert (registered_inv items st) as [Hent Hreg].
  { apply (registered_inv_main_loop _ _ _ _ Hres). split; simpl.
    - apply map_config_init.
    - intros d m Hd. by rewrite lookup_empty in Hd. }
  destruct (Hreg _ _ Hshared) as (item & dd & name & Hitem & Hfw' & Hd & Hname & ->).
  rewrite <- Hent in Hitem.
  apply list_elem_of_fmap in Hitem as (c' & -> & Hc').
  exists fw, c', dd, name.
  rewrite (GetFirmwareConfig_ext c' (DeviceConfigJson_init (_config c'))),
    (GetName_ext c' (DeviceConfigJson_init (_config c'))) by done.
  by repeat split.
Qed.

End Resolver.

(** ** The statements on the sample documents *)

Lemma C1_firmware_gets_record_witness :
  ∃ cc c,
    CrosConfigJson_init repr_model whitelabel_document = Ok cc ∧
    GetDeviceConfigs cc !! 0 = Some c ∧
    GetFirmwareInfo c ≠ [].
Proof.
  eexists _, _. split; [vm_compute; reflexivity|]. split; [reflexivity|].
  eapply (C1_firmware_gets_record repr_model whitelabel_document _ 0).
  - vm_compute. reflexivity.
  - reflexivity.
  - vm_compute. reflexivity.
  - reflexivity.
  - apply unique_identityb_sound. vm_compute. reflexivity.
Defined.

(** C1 (the claim as stated fails): a device with a non-empty firmware
    configuration is left without a record when its [/identity] rendering
    is already marked: by the visit of an earlier device (the second
    device of [same_identity_document]), or by the whitelabel loop of an
    earlier device over a later device of the same identity (the second
    device of [marked_by_loop_document]). *)
Lemma C1_same_identity_left_empty :
  (∃ cc c fw,
     CrosConfigJson_init repr_model same_identity_document = Ok cc ∧
     GetDeviceConfigs cc !! 1 = Some c ∧
     GetFirmwareConfig repr_model c = Ok fw ∧ truthy fw = true ∧
     GetFirmwareInfo c = []) ∧
  (∃ cc c fw,
     CrosConfigJson_init repr_model marked_by_loop_document = Ok cc ∧
     GetDeviceConfigs cc !! 1 = Some c ∧
     GetFirmwareConfig repr_model c = Ok fw ∧ truthy fw = true ∧
     GetFirmwareInfo c = []).
Proof.
  split; eexists _, _, _.
  all: split; [vm_compute; reflexivity|].
  all: split; [reflexivity|].
  all: split; [vm_compute; reflexivity|].
  all: split; reflexivity.
Qed.

Lemma C2_whitelabel_records_witness :
  ∃ cc w,
    CrosConfigJson_init repr_model whitelabel_document = Ok cc ∧
    GetDeviceConfigs cc !! 1 = Some w ∧
    ∃ name (b : nat) base,
      GetName repr_model w = Ok name ∧ (b ≤ 1)%nat ∧
      built_at repr_model (map DeviceConfigJson_init whitelabel_items) b base ∧
      ∀ (j : nat) c,
        GetDeviceConfigs cc !! j = Some c → GetName repr_model c = Ok name →
        ∃ k s record,
          signer_value repr_model c "key-id" = Ok k ∧
          signer_value repr_model c "signature-id" = Ok s ∧
          od_get s (GetFirmwareInfo c) = Some record ∧
          key_id record = k ∧ sig_id record = s ∧ have_image record = false ∧
          shared_model record = shared_model (b_info base) ∧
          main_image_uri record = main_image_uri (b_info base) ∧
          ec_image_uri record = ec_image_uri (b_info base).
Proof.
  assert (∀ cc w fw flag,
            CrosConfigJson_init repr_model whitelabel_document = Ok cc →
            GetDeviceConfigs cc !! 1 = Some w →
            GetFirmwareConfig repr_model w = Ok fw → truthy fw = true →
            signer_value repr_model w "sig-id-in-customization-id" = Ok flag →
            truthy flag = true →
            unique_identityb repr_model (GetDeviceConfigs cc) 1 = true →
            ∃ name (b : nat) base,
              GetName repr_model w = Ok name ∧ (b ≤ 1)%nat ∧
              built_at repr_model (map DeviceConfigJson_init whitelabel_items)
                b base ∧
              ∀ (j : nat) c,
                GetDeviceConfigs cc !! j = Some c →
                GetName repr_model c = Ok name →
                ∃ k s record,
                  signer_value repr_model c "key-id" = Ok k ∧
                  signer_value repr_model c "signature-id" = Ok s ∧
                  od_get s (GetFirmwareInfo c) = Some record ∧
                  key_id record = k ∧ sig_id record = s ∧
                  have_image record = false ∧
                  shared_model record = shared_model (b_info base) ∧
                  main_image_uri record = main_image_uri (b_info base) ∧
                  ec_image_uri record = ec_image_uri (b_info base)) as H.
  { intros cc w fw flag Hcc Hw Hfw Ht Hflag Htf Hu.
    destruct (C2_whitelabel_records repr_model whitelabel_document
                (JDict [("configs", JList whitelabel_items)])
                (JList whitelabel_items) whitelabel_items cc 1 w fw flag
                eq_refl eq_refl eq_refl
                Hcc Hw Hfw Ht Hflag Htf (unique_identityb_sound _ _ _ Hu))
      as (name & b & base & Hname & Hb & Hbuilt & _ & _ & Hall).
    exists name, b, base. do 3 (split; [assumption|]).
    intros j c Hc Hn.
    destruct (Hall j c Hc Hn)
      as (k & s & record & Hk & Hs & Hget & _ & _ & Hkey & Hsig & Himg
          & Hshared & Hmain & Hec).
    exists k, s, record. repeat split; assumption. }
  eexists _, _. split; [vm_compute; reflexivity|]. split; [reflexivity|].
  eapply H.
  - vm_compute. reflexivity.
  - reflexivity.
  - vm_compute. reflexivity.
  - reflexivity.
  - vm_compute. reflexivity.
  - reflexivity.
  - vm_compute. reflexivity.
Defined.

(** C2 (the claim as stated fails): a device with a truthy
    [sig-id-in-customization-id] holds no record under its signature id
    when it has no firmware (the device of
    [whitelabel_without_firmware_document]), and when its [/identity]
    rendering was marked by an earlier device (the second device of
    [whitelabel_same_identity_document]). *)
Lemma C2_whitelabel_flag_without_record :
  (∃ cc c flag s,
     CrosConfigJson_init repr_model whitelabel_without_firmware_document = Ok cc ∧
     GetDeviceConfigs cc !! 0 = Some c ∧
     signer_value repr_model c "sig-id-in-customization-id" = Ok flag ∧ truthy flag = true ∧
     signer_value repr_model c "signature-id" = Ok s ∧
     od_get s (GetFirmwareInfo c) = None) ∧
  (∃ cc c fw flag s,
     CrosConfigJson_init repr_model whitelabel_same_identity_document = Ok cc ∧
     GetDeviceConfigs cc !! 1 = Some c ∧
     GetFirmwareConfig repr_model c = Ok fw ∧ truthy fw = true ∧
     signer_value repr_model c "sig-id-in-customization-id" = Ok flag ∧ truthy flag = true ∧
     signer_value repr_model c "signature-id" = Ok s ∧
     od_get s (GetFirmwareInfo c) = None).
Proof.
  split.
  - eexists _, _, _, _.
    split; [vm_compute; reflexivity|]. split; [reflexivity|].
    split; [vm_compute; reflexivity|]. split; [reflexivity|].
    split; [vm_compute; reflexivity|]. reflexivity.
  - eexists _, _, _, _, _.
    split; [vm_compute; reflexivity|]. split; [reflexivity|].
    split; [vm_compute; reflexivity|]. split; [reflexivity|].
    split; [vm_compute; reflexivity|]. split; [reflexivity|].
    split; [vm_compute; reflexivity|]. reflexivity.
Qed.

Lemma C3_base_records_share_model_witness :
  ∃ cc c1 c2 v1 v2,
    CrosConfigJson_init repr_model shared_firmware_document = Ok cc ∧
    GetDeviceConfigs cc !! 0 = Some c1 ∧
    GetDeviceConfigs cc !! 1 = Some c2 ∧
    (JStr "a", v1) ∈ GetFirmwareInfo c1 ∧
    (JStr "b", v2) ∈ GetFirmwareInfo c2 ∧
    shared_model v1 = shared_model v2.
Proof.
  eexists _, _, _, _, _. split; [vm_compute; reflexivity|].
  split; [reflexivity|]. split; [reflexivity|].
  split; [apply list_elem_of_here|]. split; [apply list_elem_of_here|].
  eapply (C3_base_records_share_model repr_model shared_firmware_document _ 0 1).
  - vm_compute. reflexivity.
  - reflexivity.
  - reflexivity.
  - vm_compute. reflexivity.
  - vm_compute. reflexivity.
  - reflexivity.
  - apply list_elem_of_here.
  - reflexivity.
  - apply list_elem_of_here.
  - reflexivity.
Defined.

(** C3 (the claim as stated fails): in [group_document] the first two
    devices have the same firmware descriptor, yet the first holds a
    whitelabel record, copied from the base record of the third device,
    whose [shared_model] is not that of the record of the second. *)
Lemma C3_whitelabel_record_other_model :
  ∃ cc c1 c2 fw1 fw2 k1 v1 k2 v2,
    CrosConfigJson_init repr_model group_document = Ok cc ∧
    GetDeviceConfigs cc !! 0 = Some c1 ∧
    GetDeviceConfigs cc !! 1 = Some c2 ∧
    GetFirmwareConfig repr_model c1 = Ok fw1 ∧
    GetFirmwareConfig repr_model c2 = Ok fw2 ∧
    py_str repr_model fw1 = py_str repr_model fw2 ∧
    od_get k1 (GetFirmwareInfo c1) = Some v1 ∧
    od_get k2 (GetFirmwareInfo c2) = Some v2 ∧
    shared_model v1 ≠ shared_model v2.
Proof.
  eexists _, _, _, _, _, (JStr "s1"), _, (JStr "B"), _.
  split; [vm_compute; reflexivity|].
  split; [reflexivity|]. split; [reflexivity|].
  split; [vm_compute; reflexivity|]. split; [vm_compute; reflexivity|].
  split; [reflexivity|].
  split; [reflexivity|]. split; [reflexivity|].
  discriminate.
Qed.


Lemma C5_nameless_device_with_firmware_fails_witness :
  ∃ e, CrosConfigJson_init repr_model nameless_firmware_document = Raise e.
Proof.
  eapply (C5_nameless_device_with_firmware_fails repr_model
            nameless_firmware_document _ _ _ 0).
  - reflexivity.
  - reflexivity.
  - reflexivity.
  - reflexivity.
  - reflexivity.
  - vm_compute. reflexivity.
  - reflexivity.
  - apply unique_identityb_sound. vm_compute. reflexivity.
Defined.

(** C5 (the claim as stated fails): the construction over
    [nameless_document], whose only device entry has no [name] (and no
    firmware), succeeds. *)
Lemma C5_nameless_device_constructed :
  ∃ cc c,
    CrosConfigJson_init repr_model nameless_document = Ok cc ∧
    GetDeviceConfigs cc !! 0 = Some c ∧
    GetName repr_model c = Raise KeyError.
Proof.
  eexists _, _. split; [vm_compute; reflexivity|]. split; reflexivity.
Qed.

Lemma C6_first_encounter_registers_name_witness :
  ∃ st c v,
    resolve repr_model (map DeviceConfigJson_init shared_firmware_items) = Ok st ∧
    fw_by_model st !! py_str repr_model (JDict [("main-image", JStr "x.bin")])
    = Some (JStr "a") ∧
    st_configs st !! 1 = Some c ∧
    (JStr "b", v) ∈ firmware_info c ∧
    shared_model v = JStr "a".
Proof.
  assert (∀ st c v,
            resolve repr_model (map DeviceConfigJson_init shared_firmware_items)
            = Ok st →
            st_configs st !! 1 = Some c →
            GetFirmwareConfig repr_model c
            = Ok (JDict [("main-image", JStr "x.bin")]) →
            (JStr "b", v) ∈ firmware_info c → have_image v = true →
            resolve repr_model (map DeviceConfigJson_init shared_firmware_items)
            = Ok st ∧
            fw_by_model st
              !! py_str repr_model (JDict [("main-image", JStr "x.bin")])
            = Some (JStr "a") ∧
            st_configs st !! 1 = Some c ∧
            (JStr "b", v) ∈ firmware_info c ∧
            shared_model v = JStr "a") as H.
  { intros st c v Hres Hc Hfw Hkv Hi.
    destruct (C6_first_encounter_registers_name repr_model
                shared_firmware_items st 0
                (mkState (map DeviceConfigJson_init shared_firmware_items) ∅ ∅)
                (DeviceConfigJson_init
                   (device "a" 1 [("main-image", JStr "x.bin")]
                      [("key-id", JStr "K")]))
                (JDict [("main-image", JStr "x.bin")])
                "{u'sku-id': 1}" Hres eq_refl eq_refl eq_refl eq_refl eq_refl
                (not_elem_of_empty _) (lookup_empty _))
      as (d & name & m & Hd & Hname & Hm & _ & _ & Hreg & Hall).
    injection Hd as <-. vm_compute in Hname. injection Hname as <-.
    simpl in Hm. subst m.
    do 4 (split; [assumption|]).
    exact (Hall 1 c _ (JStr "b") v Hc Hfw eq_refl Hkv Hi). }
  eexists _, _, _. eapply H.
  - vm_compute. reflexivity.
  - reflexivity.
  - vm_compute. reflexivity.
  - apply list_elem_of_here.
  - reflexivity.
Defined.

(** C6 (the claim as stated fails): the third device of
    [skipped_descriptor_items] has the firmware descriptor of the first,
    for which the first registered its own name; its identity is marked
    by the whitelabel loop of the second before its turn comes, so it is
    skipped and holds one record only, derived from the record of the
    second, whose [shared_model] is the name registered for the firmware
    of the second. *)
Lemma C6_later_device_skipped :
  ∃ cc st c0 c2 fw v,
    CrosConfigJson_init repr_model (document_of skipped_descriptor_items) = Ok cc ∧
    resolve repr_model (map DeviceConfigJson_init skipped_descriptor_items) = Ok st ∧
    GetDeviceConfigs cc = st_configs st ∧
    GetDeviceConfigs cc !! 0 = Some c0 ∧
    GetDeviceConfigs cc !! 2 = Some c2 ∧
    GetFirmwareConfig repr_model c0 = Ok fw ∧
    GetFirmwareConfig repr_model c2 = Ok fw ∧
    fw_by_model st !! py_str repr_model fw = Some (JStr "B") ∧
    GetFirmwareInfo c2 = [(JStr "s1", v)] ∧
    shared_model v = JStr "other".
Proof.
  eexists _, _, _, _, _, _.
  split; [vm_compute; reflexivity|].
  split; [vm_compute; reflexivity|].
  do 3 (split; [reflexivity|]).
  split; [vm_compute; reflexivity|].
  split; [vm_compute; reflexivity|].
  split; [vm_compute; reflexivity|].
  split; reflexivity.
Qed.

Lemma C7_resolve_idempotent_witness :
  ∃ st,
    resolve repr_model (map DeviceConfigJson_init whitelabel_items) = Ok st ∧
    resolve repr_model (st_configs st) = Ok st.
Proof.
  assert (∀ st,
            resolve repr_model (map DeviceConfigJson_init whitelabel_items) = Ok st →
            resolve repr_model (map DeviceConfigJson_init whitelabel_items) = Ok st ∧
            resolve repr_model (st_configs st) = Ok st) as H.
  { intros st Hst. split; [exact Hst|].
    exact (proj1 (C7_resolve_idempotent repr_model whitelabel_items st Hst)). }
  eexists. apply H. vm_compute. reflexivity.
Defined.

Lemma C8_device_configs_in_document_order_witness :
  ∃ cc chromeos entries items,
    CrosConfigJson_init repr_model whitelabel_document = Ok cc ∧
    py_getitem whitelabel_document "chromeos" = Ok chromeos ∧
    py_getitem chromeos "configs" = Ok entries ∧
    py_iter entries = Ok items ∧
    map _config (GetDeviceConfigs cc) = items.
Proof.
  eexists.
  assert (∀ cc, CrosConfigJson_init repr_model whitelabel_document = Ok cc →
            ∃ chromeos entries items,
              CrosConfigJson_init repr_model whitelabel_document = Ok cc ∧
              py_getitem whitelabel_document "chromeos" = Ok chromeos ∧
              py_getitem chromeos "configs" = Ok entries ∧
              py_iter entries = Ok items ∧
              map _config (GetDeviceConfigs cc) = items) as H.
  { intros cc Hcc.
    destruct (C8_device_configs_in_document_order repr_model whitelabel_document cc Hcc)
      as (chromeos & entries & items & H1 & H2 & H3 & H4).
    exists chromeos, entries, items. auto. }
  apply H. vm_compute. reflexivity.
Defined.

Lemma C9_key_is_model_witness :
  ∃ cc c k v,
    CrosConfigJson_init repr_model whitelabel_document = Ok cc ∧
    c ∈ GetDeviceConfigs cc ∧
    (k, v) ∈ GetFirmwareInfo c ∧
    k = model v.
Proof.
  eexists _, _, _, _. split; [vm_compute; reflexivity|].
  split; [apply list_elem_of_here|]. split; [apply list_elem_of_here|].
  eapply (C9_key_is_model repr_model whitelabel_document).
  - vm_compute. reflexivity.
  - apply list_elem_of_here.
  - apply list_elem_of_here.
Defined.


(** ** The further statements on the sample documents *)

Lemma GetProperties_two_legs_witness :
  GetProperties (DeviceConfigJson_init files_device) "/audio/main"
  = bind (GetProperties (DeviceConfigJson_init files_device) "/audio")
         (λ node, GetProperties (DeviceConfigJson_init node) "/main").
Proof.
  apply (GetProperties_two_legs (DeviceConfigJson_init files_device)
           "/audio" "main"); discriminate.
Defined.

Lemma GetValue_cases_witness :
  GetValue repr_model (JDict [("key-id", JStr "K")]) "key-id" = Ok (JStr "K") ∧
  GetValue repr_model (JDict [("key-id", JStr "K")]) "signature-id" = Ok JNull.
Proof.
  split.
  - apply (proj1 (GetValue_cases repr_model (JDict [("key-id", JStr "K")])
                    "key-id" eq_refl) [("key-id", JStr "K")] (JStr "K"));
      reflexivity.
  - apply (proj1 (proj2 (GetValue_cases repr_model
                           (JDict [("key-id", JStr "K")]) "signature-id"
                           eq_refl)) [("key-id", JStr "K")]);
      reflexivity.
Defined.

Lemma GetProperty_cases_witness :
  GetProperty repr_model (DeviceConfigJson_init files_device) "/audio/main"
    "card" = Ok "x" ∧
  GetProperty repr_model (DeviceConfigJson_init files_device) "/audio/main"
    "volume" = Ok "".
Proof.
  split.
  - apply (proj1 (GetProperty_cases repr_model
                    (DeviceConfigJson_init files_device) "/audio/main" "card"
                    eq_refl eq_refl) [("card", JStr "x")] (JStr "x"));
      reflexivity.
  - apply (proj1 (proj2 (GetProperty_cases repr_model
                           (DeviceConfigJson_init files_device) "/audio/main"
                           "volume" eq_refl eq_refl)) [("card", JStr "x")]);
      reflexivity.
Defined.

Lemma GetFiles_without_files_witness :
  _GetFiles (DeviceConfigJson_init files_device) "/thermal" = Ok [] ∧
  _GetFiles (DeviceConfigJson_init files_device) "/audio/main" = Ok [].
Proof.
  split.
  - apply (GetFiles_without_files _ "/thermal" (JDict [])).
    + reflexivity.
    + left. reflexivity.
  - apply (GetFiles_without_files _ "/audio/main" (JDict [("card", JStr "x")])).
    + reflexivity.
    + right. eexists. split; reflexivity.
Defined.

Lemma GetFiles_one_per_item_witness :
  _GetFiles (DeviceConfigJson_init files_device) "/arc"
  = Ok [mkBaseFile (JStr "hw.xml") (JStr "/etc/hw.xml")].
Proof.
  eapply (proj2 (GetFiles_one_per_item (DeviceConfigJson_init files_device)
                   "/arc" _ _ _ eq_refl eq_refl)).
  repeat constructor.
Defined.

Lemma touch_files_are_base_files_witness :
  _GetFiles (DeviceConfigJson_init files_device) "/touch"
  = Ok [mkBaseFile (JStr "t.bin") (JStr "/lib/t.bin")].
Proof.
  apply (touch_files_are_base_files (DeviceConfigJson_init files_device)
           [mkTouchFile (JStr "t.bin") (JStr "/lib/t.bin") (JStr "/lib/t.lnk")]).
  reflexivity.
Defined.

Lemma GetWallpaperFiles_at_most_one_witness :
  (length [JStr "default"] ≤ 1)%nat ∧
  ∀ w, w ∈ [JStr "default"] ↔
       GetValue repr_model (_config (DeviceConfigJson_init files_device))
         "wallpaper" = Ok w ∧ truthy w = true.
Proof.
  apply (GetWallpaperFiles_at_most_one repr_model
           (DeviceConfigJson_init files_device) [JStr "default"]).
  reflexivity.
Defined.

Lemma wl_scan_effect_witness :
  ∃ configs' done',
    wl_scan repr_model "A" sample_info
      (map DeviceConfigJson_init whitelabel_items) ∅ = Ok (configs', done') ∧
    length configs' = length (map DeviceConfigJson_init whitelabel_items).
Proof.
  assert (∀ configs' done',
            wl_scan repr_model "A" sample_info
              (map DeviceConfigJson_init whitelabel_items) ∅
            = Ok (configs', done') →
            wl_scan repr_model "A" sample_info
              (map DeviceConfigJson_init whitelabel_items) ∅
            = Ok (configs', done') ∧
            length configs'
            = length (map DeviceConfigJson_init whitelabel_items)) as H.
  { intros configs' done' Hscan. split; [exact Hscan|].
    exact (proj1 (wl_scan_effect repr_model "A" sample_info _ _ _ _ Hscan)). }
  eexists _, _. apply H. vm_compute. reflexivity.
Defined.

Lemma records_have_defaults_witness :
  ∃ cc c k v,
    CrosConfigJson_init repr_model whitelabel_document = Ok cc ∧
    c ∈ GetDeviceConfigs cc ∧
    (k, v) ∈ GetFirmwareInfo c ∧
    create_bios_rw_image v = false ∧
    (main_rw_image_uri v = JStr "" ∨ truthy (main_rw_image_uri v) = true).
Proof.
  eexists _, _, _, _. split; [vm_compute; reflexivity|].
  split; [apply list_elem_of_here|]. split; [apply list_elem_of_here|].
  eassert (_ ∧ _ ∧ _ ∧ _ ∧ _ ∧ _ ∧ _) as (H1 & _ & H3 & _).
  { eapply (records_have_defaults repr_model whitelabel_document).
    - vm_compute. reflexivity.
    - apply list_elem_of_here.
    - apply list_elem_of_here. }
  split; [exact H1 | exact H3].
Defined.

Lemma base_record_needs_firmware_witness :
  ∃ cc c k v fw,
    CrosConfigJson_init repr_model whitelabel_document = Ok cc ∧
    c ∈ GetDeviceConfigs cc ∧
    (k, v) ∈ GetFirmwareInfo c ∧ have_image v = true ∧
    GetFirmwareConfig repr_model c = Ok fw ∧ truthy fw = true.
Proof.
  assert (∀ cc c k v,
            CrosConfigJson_init repr_model whitelabel_document = Ok cc →
            c ∈ GetDeviceConfigs cc →
            (k, v) ∈ GetFirmwareInfo c → have_image v = true →
            ∃ fw,
              CrosConfigJson_init repr_model whitelabel_document = Ok cc ∧
              c ∈ GetDeviceConfigs cc ∧
              (k, v) ∈ GetFirmwareInfo c ∧ have_image v = true ∧
              GetFirmwareConfig repr_model c = Ok fw ∧ truthy fw = true) as H.
  { intros cc c k v Hcc Hc Hkv Hi.
    destruct (base_record_needs_firmware repr_model whitelabel_document cc c k v
                Hcc Hc Hkv Hi) as (fw & Hfw & Ht).
    by exists fw. }
  eexists _, _, _, _. eapply H.
  - vm_compute. reflexivity.
  - apply list_elem_of_here.
  - apply list_elem_of_here.
  - reflexivity.
Defined.

Lemma base_record_once_per_identity_witness :
  ∃ cc c k v,
    CrosConfigJson_init repr_model whitelabel_document = Ok cc ∧
    GetDeviceConfigs cc !! 0 = Some c ∧
    (k, v) ∈ GetFirmwareInfo c ∧ have_image v = true ∧ 0 = 0.
Proof.
  eexists _, _, _, _. split; [vm_compute; reflexivity|].
  split; [reflexivity|]. split; [apply list_elem_of_here|].
  split; [reflexivity|].
  eapply (base_record_once_per_identity repr_model whitelabel_document _ 0 0).
  - vm_compute. reflexivity.
  - reflexivity.
  - reflexivity.
  - apply list_elem_of_here.
  - reflexivity.
  - apply list_elem_of_here.
  - reflexivity.
  - reflexivity.
Defined.

Lemma pass_without_whitelabel_witness :
  ∃ cc c,
    CrosConfigJson_init repr_model shared_firmware_document = Ok cc ∧
    GetDeviceConfigs cc !! 1 = Some c ∧
    ∃ name v, GetName repr_model c = Ok name ∧
              GetFirmwareInfo c = [(JStr name, v)] ∧ have_image v = true.
Proof.
  assert (∀ cc c,
            CrosConfigJson_init repr_model shared_firmware_document = Ok cc →
            GetDeviceConfigs cc !! 1 = Some c →
            (∀ c' flag, c' ∈ GetDeviceConfigs cc →
               signer_value repr_model c' "sig-id-in-customization-id" = Ok flag →
               truthy flag = false) →
            (∀ fw, GetFirmwareConfig repr_model c = Ok fw → truthy fw = true) →
            (∀ id, identity_of repr_model c = Ok id →
               ∀ (j' : nat) c', j' < 1 → GetDeviceConfigs cc !! j' = Some c' →
                 ¬ has_firmware repr_model c' id) →
            ∃ name v, GetName repr_model c = Ok name ∧
                      GetFirmwareInfo c = [(JStr name, v)] ∧
                      have_image v = true) as H.
  { intros cc c Hcc Hc Hflags Hfw Hfirst.
    destruct (pass_without_whitelabel repr_model shared_firmware_document cc 1 c
                Hcc Hflags Hc) as (fw & id & Hfw' & Hid & Hone & _).
    apply Hone; eauto. }
  eexists _, _. split; [vm_compute; reflexivity|]. split; [reflexivity|].
  eapply H.
  - vm_compute. reflexivity.
  - reflexivity.
  - intros c' flag Hc' Hflag.
    repeat (apply elem_of_cons in Hc' as [-> | Hc']).
    + vm_compute in Hflag. by injection Hflag as <-.
    + vm_compute in Hflag. by injection Hflag as <-.
    + by apply elem_of_nil in Hc'.
  - intros fw Hfw. vm_compute in Hfw. by injection Hfw as <-.
  - intros id Hid j' c' Hj' Hc' (fw & _ & _ & Hid').
    destruct j' as [|j']; [|lia]. injection Hc' as <-.
    vm_compute in Hid, Hid'. congruence.
Defined.

Lemma base_record_is_own_witness :
  ∃ cc c k v,
    CrosConfigJson_init repr_model whitelabel_document = Ok cc ∧
    c ∈ GetDeviceConfigs cc ∧
    (k, v) ∈ GetFirmwareInfo c ∧ have_image v = true ∧
    signer_value repr_model c "key-id" = Ok (key_id v).
Proof.
  assert (∀ cc c k v,
            CrosConfigJson_init repr_model whitelabel_document = Ok cc →
            c ∈ GetDeviceConfigs cc →
            (k, v) ∈ GetFirmwareInfo c → have_image v = true →
            CrosConfigJson_init repr_model whitelabel_document = Ok cc ∧
            c ∈ GetDeviceConfigs cc ∧
            (k, v) ∈ GetFirmwareInfo c ∧ have_image v = true ∧
            signer_value repr_model c "key-id" = Ok (key_id v)) as H.
  { intros cc c k v Hcc Hc Hkv Hi.
    destruct (base_record_is_own repr_model whitelabel_document cc c k v
                Hcc Hc Hkv Hi)
      as (name & fw & flag & main_image & ec_image & _ & _ & _ & Hkey & _).
    auto. }
  eexists _, _, _, _. eapply H.
  - vm_compute. reflexivity.
  - apply list_elem_of_here.
  - apply list_elem_of_here.
  - reflexivity.
Defined.

Lemma derived_record_origin_witness :
  ∃ cc c k v,
    CrosConfigJson_init repr_model whitelabel_document = Ok cc ∧
    c ∈ GetDeviceConfigs cc ∧
    (k, v) ∈ GetFirmwareInfo c ∧ have_image v = false ∧
    ∃ (b : nat) base key s,
      built_at repr_model (map DeviceConfigJson_init whitelabel_items) b base ∧
      GetName repr_model c = Ok (b_name base) ∧
      signer_value repr_model c "key-id" = Ok key ∧
      signer_value repr_model c "signature-id" = Ok s ∧
      v = replace_fields (b_info base) s key false s.
Proof.
  assert (∀ cc c k v,
            CrosConfigJson_init repr_model whitelabel_document = Ok cc →
            c ∈ GetDeviceConfigs cc →
            (k, v) ∈ GetFirmwareInfo c → have_image v = false →
            CrosConfigJson_init repr_model whitelabel_document = Ok cc ∧
            c ∈ GetDeviceConfigs cc ∧
            (k, v) ∈ GetFirmwareInfo c ∧ have_image v = false ∧
            ∃ (b : nat) base key s,
              built_at repr_model (map DeviceConfigJson_init whitelabel_items)
                b base ∧
              GetName repr_model c = Ok (b_name base) ∧
              signer_value repr_model c "key-id" = Ok key ∧
              signer_value repr_model c "signature-id" = Ok s ∧
              v = replace_fields (b_info base) s key false s) as H.
  { intros cc c k v Hcc Hc Hkv Hi.
    destruct (derived_record_origin repr_model whitelabel_document
                (JDict [("configs", JList whitelabel_items)])
                (JList whitelabel_items) whitelabel_items cc c k v
                eq_refl eq_refl eq_refl Hcc Hc Hkv Hi)
      as (b & c' & flag & base & key & s & _ & _ & Hn & _ & _ & Hbuilt
          & Hkey & Hs & Hv).
    repeat split; try assumption. by exists b, base, key, s. }
  eexists _, _, _, _. eapply H.
  - vm_compute. reflexivity.
  - apply list_elem_of_here.
  - apply list_elem_of_further, list_elem_of_here.
  - reflexivity.
Defined.

Lemma shared_model_origin_witness :
  ∃ cc c k v,
    CrosConfigJson_init repr_model whitelabel_document = Ok cc ∧
    c ∈ GetDeviceConfigs cc ∧
    (k, v) ∈ GetFirmwareInfo c ∧ have_image v = true ∧
    ∃ c' dd name,
      c' ∈ GetDeviceConfigs cc ∧
      GetFirmwareConfig repr_model c' = Ok (JDict dd) ∧
      GetName repr_model c' = Ok name ∧
      shared_model v
      = match dict_get "name" dd with Some x => x | None => JStr name end.
Proof.
  assert (∀ cc c k v,
            CrosConfigJson_init repr_model whitelabel_document = Ok cc →
            c ∈ GetDeviceConfigs cc →
            (k, v) ∈ GetFirmwareInfo c → have_image v = true →
            CrosConfigJson_init repr_model whitelabel_document = Ok cc ∧
            c ∈ GetDeviceConfigs cc ∧
            (k, v) ∈ GetFirmwareInfo c ∧ have_image v = true ∧
            ∃ c' dd name,
              c' ∈ GetDeviceConfigs cc ∧
              GetFirmwareConfig repr_model c' = Ok (JDict dd) ∧
              GetName repr_model c' = Ok name ∧
              shared_model v
              = match dict_get "name" dd with Some x => x | None => JStr name end)
    as H.
  { intros cc c k v Hcc Hc Hkv Hi.
    destruct (shared_model_origin repr_model whitelabel_document cc c k v
                Hcc Hc Hkv Hi)
      as (fw & c' & dd & name & _ & Hc' & Hfw' & _ & Hn & Hs).
    repeat split; try assumption. by exists c', dd, name. }
  eexists _, _, _, _. eapply H.
  - vm_compute. reflexivity.
  - apply list_elem_of_here.
  - apply list_elem_of_here.
  - reflexivity.
Defined.
